(** * Open WebUI pipes for Flowise and n8n: a shallow embedding

    The two adapters ([src/flowise.py], [src/n8n.py]) are embedded as
    executable functions in a small state-and-exception monad.  The
    host's status emitter, the HTTP endpoint and the wall clock are
    explicit oracles; every call the adapter makes to them is recorded
    in a trace.  [json.loads] and [repr] belong to the Python runtime
    and are parameters of the development. *)

From Stdlib Require Import String Ascii List ZArith QArith Bool Lia Lqa.
From Stdlib Require Import DecimalString.
Import ListNotations.
Close Scope Q_scope.
Open Scope string_scope.
Set Warnings "-register-all,-notation-for-abbreviation".

(* ================================================================== *)
(** ** Python values, exceptions and the string operations used        *)
(* ================================================================== *)

Module Py.

(** JSON-shaped Python values.  A [dict] is an association list in
    insertion order; lookups take the first binding of a key and
    updates keep keys unique.  A [float] is carried as a rational. *)
Inductive value : Type :=
| VNone
| VBool (b : bool)
| VInt (z : Z)
| VFloat (q : Q)
| VStr (s : string)
| VList (items : list value)
| VDict (entries : list (string * value)).

(** The position of an exception class with respect to the classes the
    [except] clauses of the two files name. *)
Inductive exn_class : Type :=
| HTTPError                (* requests.exceptions.HTTPError *)
| RequestException         (* any other requests exception *)
| RequestsJSONDecodeError  (* raised by Response.json(): both a
                              RequestException and a json.JSONDecodeError *)
| JSONDecodeError          (* json.JSONDecodeError, raised by json.loads *)
| ValueError               (* any other ValueError *)
| OtherException.          (* any other subclass of Exception *)

(** An exception: its class, [type(e).__name__] and [str(e)]. *)
Record exn : Type := mkExn {
  exn_cls : exn_class;
  exn_name : string;
  exn_str : string
}.

Definition is_HTTPError (e : exn) : bool :=
  match exn_cls e with HTTPError => true | _ => false end.

Definition is_RequestException (e : exn) : bool :=
  match exn_cls e with
  | HTTPError | RequestException | RequestsJSONDecodeError => true
  | _ => false
  end.

Definition is_JSONDecodeError (e : exn) : bool :=
  match exn_cls e with
  | RequestsJSONDecodeError | JSONDecodeError => true
  | _ => false
  end.

Definition is_ValueError (e : exn) : bool :=
  match exn_cls e with
  | RequestsJSONDecodeError | JSONDecodeError | ValueError => true
  | _ => false
  end.

Definition is_Exception (_ : exn) : bool := true.

Definition TypeError (msg : string) : exn := mkExn OtherException "TypeError" msg.
Definition KeyError (msg : string) : exn := mkExn OtherException "KeyError" msg.
Definition AttributeError (msg : string) : exn :=
  mkExn OtherException "AttributeError" msg.
Definition UnicodeDecodeError : exn :=
  mkExn ValueError "UnicodeDecodeError"
        "'utf-8' codec can't decode bytes: invalid data".

(** [type(v).__name__] *)
Definition type_name (v : value) : string :=
  match v with
  | VNone => "NoneType"
  | VBool _ => "bool"
  | VInt _ => "int"
  | VFloat _ => "float"
  | VStr _ => "str"
  | VList _ => "list"
  | VDict _ => "dict"
  end.

(** [bool(v)] *)
Definition truthy (v : value) : bool :=
  match v with
  | VNone => false
  | VBool b => b
  | VInt z => negb (Z.eqb z 0)
  | VFloat q => negb (Qeq_bool q 0)
  | VStr s => negb (String.eqb s "")
  | VList l => match l with [] => false | _ => true end
  | VDict d => match d with [] => false | _ => true end
  end.

Definition is_dict (v : value) : bool :=
  match v with VDict _ => true | _ => false end.
Definition is_list (v : value) : bool :=
  match v with VList _ => true | _ => false end.
Definition is_str (v : value) : bool :=
  match v with VStr _ => true | _ => false end.
Definition is_none (v : value) : bool :=
  match v with VNone => true | _ => false end.

(** [v == s] for a string literal [s] *)
Definition eq_str (v : value) (s : string) : bool :=
  match v with VStr t => String.eqb t s | _ => false end.

(** [a or b] *)
Definition py_or (a b : value) : value := if truthy a then a else b.

(** *** Dictionaries *)

Fixpoint lookup (k : string) (d : list (string * value)) : option value :=
  match d with
  | [] => None
  | (k', v) :: rest => if String.eqb k k' then Some v else lookup k rest
  end.

(** [d[k] = v]: an existing key keeps its place. *)
Fixpoint assign (k : string) (v : value) (d : list (string * value))
  : list (string * value) :=
  match d with
  | [] => [(k, v)]
  | (k', v') :: rest =>
      if String.eqb k k' then (k', v) :: rest else (k', v') :: assign k v rest
  end.

(** [d.get(k)] on a dict *)
Definition dict_get (d : list (string * value)) (k : string) : value :=
  match lookup k d with Some v => v | None => VNone end.

(** [d.get(k, default)] on a dict *)
Definition dict_get_default (d : list (string * value)) (k : string)
  (default : value) : value :=
  match lookup k d with Some v => v | None => default end.

Definition keys (d : list (string * value)) : list value :=
  map (fun kv => VStr (fst kv)) d.

(** *** Strings *)

(** [needle in hay] *)
Fixpoint contains (needle hay : string) : bool :=
  String.prefix needle hay
  || match hay with
     | EmptyString => false
     | String _ rest => contains needle rest
     end.

(** [s.isascii()]: every character of [s] is below U+0080, so that [s]
    holds one byte for each of its characters. *)
Definition isascii (s : string) : bool :=
  forallb (fun c => (nat_of_ascii c <? 128)%nat) (list_ascii_of_string s).

(** [s[:n]]: the first [n] bytes of [s], which are its first [n]
    characters when [isascii s]. *)
Definition take (n : nat) (s : string) : string := String.substring 0 n s.

(** [s[n:]] *)
Fixpoint drop (n : nat) (s : string) : string :=
  match n, s with
  | O, _ => s
  | S _, EmptyString => EmptyString
  | S n', String _ rest => drop n' rest
  end.

(** [str.isspace] on the characters below 128 *)
Definition isspace (c : ascii) : bool :=
  let n := nat_of_ascii c in
  ((9 <=? n)%nat && (n <=? 13)%nat) || ((28 <=? n)%nat && (n <=? 32)%nat).

Fixpoint lstrip (s : string) : string :=
  match s with
  | EmptyString => EmptyString
  | String c rest => if isspace c then lstrip rest else s
  end.

Fixpoint rstrip (s : string) : string :=
  match s with
  | EmptyString => EmptyString
  | String c rest =>
      match rstrip rest with
      | EmptyString => if isspace c then EmptyString else String c EmptyString
      | r => String c r
      end
  end.

(** [s.strip()] *)
Definition strip (s : string) : string := rstrip (lstrip s).

(** The last character of a string, as a string: [s[-1]]. *)
Fixpoint last_char (s : string) : option string :=
  match s with
  | EmptyString => None
  | String c EmptyString => Some (String c EmptyString)
  | String _ rest => last_char rest
  end.

(** [str(v)], given [repr]: a string is its own [str]. *)
Definition str_of (repr : value -> string) (v : value) : string :=
  match v with
  | VStr s => s
  | _ => repr v
  end.

(** [str(n)] for an integer *)
Definition str_of_Z (z : Z) : string := NilZero.string_of_int (Z.to_int z).

(** [str(n)] for a counter *)
Definition str_of_nat (n : nat) : string := str_of_Z (Z.of_nat n).

End Py.

(* ================================================================== *)
(** ** Control flow: state, exceptions and early [return]              *)
(* ================================================================== *)

Module Eff.
Import Py.

(** How a block of statements ends: it falls through with a value, an
    exception propagates, or the enclosing function returns. *)
Inductive res (A : Type) : Type :=
| Val (a : A)
| Raise (e : exn)
| Return (v : value).
Arguments Val {A} a.
Arguments Raise {A} e.
Arguments Return {A} v.

Definition M (S A : Type) : Type := S -> res A * S.

Section Ops.
Context {S : Type}.

Definition ret {A : Type} (a : A) : M S A := fun s => (Val a, s).

Definition bind {A B : Type} (m : M S A) (k : A -> M S B) : M S B :=
  fun s =>
    match m s with
    | (Val a, s') => k a s'
    | (Raise e, s') => (Raise e, s')
    | (Return v, s') => (Return v, s')
    end.

Definition raise {A : Type} (e : exn) : M S A := fun s => (Raise e, s).

(** The [return v] statement. *)
Definition return_ {A : Type} (v : value) : M S A := fun s => (Return v, s).

Definition gets {A : Type} (f : S -> A) : M S A := fun s => (Val (f s), s).

Definition modify (f : S -> S) : M S unit := fun s => (Val tt, f s).

(** An operation of the runtime that yields a value or raises. *)
Definition lift {A : Type} (x : exn + A) : M S A :=
  match x with
  | inl e => raise e
  | inr a => ret a
  end.

(** One [except cls as e: body] clause. *)
Definition handler (A : Type) : Type := ((exn -> bool) * (exn -> M S A))%type.

(** The first clause whose class matches, as Python selects it. *)
Fixpoint select {A : Type} (hs : list (handler A)) (e : exn) : option (M S A) :=
  match hs with
  | [] => None
  | (matches, body) :: rest => if matches e then Some (body e) else select rest e
  end.

(** [try: m except ...]: an exception raised by a clause's body is not
    offered to the other clauses; a [return] inside [m] leaves the
    statement. *)
Definition try_except {A : Type} (m : M S A) (hs : list (handler A)) : M S A :=
  fun s =>
    match m s with
    | (Raise e, s') =>
        match select hs e with
        | Some h => h s'
        | None => (Raise e, s')
        end
    | r => r
    end.

(** [try: m finally: fin]: [fin] runs however [m] ends. *)
Definition try_finally {A : Type} (m : M S A) (fin : M S unit) : M S A :=
  fun s =>
    match m s with
    | (r, s') =>
        match fin s' with
        | (Val _, s'') => (r, s'')
        | (Raise e, s'') => (Raise e, s'')
        | (Return v, s'') => (Return v, s'')
        end
    end.

End Ops.

Module Notations.
Notation "x <- m ;; k" := (bind m (fun x => k))
  (at level 61, m at next level, right associativity).
Notation "m ;; k" := (bind m (fun _ => k))
  (at level 61, right associativity).
End Notations.

End Eff.

(* ================================================================== *)
(** ** The host and the network, as the adapters observe them          *)
(* ================================================================== *)

Module Host.
Import Py.

(** The arguments of one [requests.post] call. *)
Record request : Type := mkRequest {
  req_url : string;
  req_json : value;
  req_headers : list (string * string);
  req_timeout : Q;
  req_stream : bool;
  req_allow_redirects : bool
}.

(** One [bytes] object yielded by [Response.iter_lines()], up to what
    [line.decode("utf-8")] makes of it. *)
Inductive raw_line : Type :=
| LineText (decoded : string)
| LineUndecodable.

(** A [requests.Response], as far as the adapters read it.  [text] is
    the body as [Response.text] returns it, and [Response.json()]
    parses it.  [iter_error] is the exception [iter_lines()] raises
    once [lines] are exhausted (a connection broken in mid-stream), if
    any; a failure of the other reads of the body is not modelled. *)
Record Response : Type := mkResponse {
  status_code : Z;
  content_type : option string;
  text : string;
  lines : list raw_line;
  iter_error : option exn
}.

(** What the adapter did to the outside world, oldest first.  [Closed]
    is a call of [Response.close()].  [BodyRead] is a read of the whole
    body of a response that was requested with [stream=True], through
    [Response.text] or [Response.json()]: it drains the body, after
    which the connection has been released and [response.raw] is
    closed. *)
Inductive event : Type :=
| EmitterCalled (message : value) (raised : option exn)
| Slept (seconds : Q)
| Posted (req : request)
| Closed
| BodyRead.

(** The host's [__event_emitter__]: the cells of its closure (an empty
    cell is [None]) and, for each call, whether it returns or raises,
    given everything that happened before. *)
Record emitter : Type := mkEmitter {
  closure : option (list (option value));
  on_call : list event -> value -> option exn
}.

(** The emitter, when there is one, returns normally from every call. *)
Definition emitter_returns (em : option emitter) : Prop :=
  match em with
  | Some e => forall tr message, on_call e tr message = None
  | None => True
  end.

(** The endpoint: [requests.post] raises or hands back a response. *)
Definition endpoint : Type := request -> exn + Response.

(** [Response.ok], which is also the truth value of a response. *)
Definition ok (r : Response) : bool :=
  negb ((400 <=? status_code r)%Z && (status_code r <? 600)%Z).

Definition is_post (ev : event) : bool :=
  match ev with Posted _ => true | _ => false end.

Definition is_close (ev : event) : bool :=
  match ev with Closed => true | _ => false end.

(** The requests sent during a run. *)
Fixpoint posts (tr : list event) : list request :=
  match tr with
  | [] => []
  | Posted r :: rest => r :: posts rest
  | _ :: rest => posts rest
  end.

(** How often the response was closed during a run. *)
Fixpoint closes (tr : list event) : nat :=
  match tr with
  | [] => 0
  | Closed :: rest => S (closes rest)
  | _ :: rest => closes rest
  end.

(** How often the body of the streamed response was read to its end
    during a run. *)
Fixpoint reads (tr : list event) : nat :=
  match tr with
  | [] => 0
  | BodyRead :: rest => S (reads rest)
  | _ :: rest => reads rest
  end.

(** How often the response was released during a run: closed, or
    drained by a read of its body. *)
Definition releases (tr : list event) : nat := closes tr + reads tr.

(** The messages handed to the emitter during a run. *)
Fixpoint emitted (tr : list event) : list value :=
  match tr with
  | [] => []
  | EmitterCalled m _ :: rest => m :: emitted rest
  | _ :: rest => emitted rest
  end.

(** The exception of [Response.raise_for_status()], raised exactly when
    400 <= status < 600. *)
Definition status_error (r : Response) : option exn :=
  if ok r then None
  else Some (mkExn HTTPError "HTTPError"
               (str_of_Z (status_code r)
                ++ (if (status_code r <? 500)%Z then " Client Error" else " Server Error"))).

(** [{"error": msg}] *)
Definition error_dict (msg : string) : value := VDict [("error", VStr msg)].

(** [{"role": "assistant", "content": content}] *)
Definition assistant_message (content : value) : value :=
  VDict [("role", VStr "assistant"); ("content", content)].

(** [body.setdefault("messages", []).append(msg)]: the new body, or the
    exception raised when the value under ["messages"] has no [append]. *)
Definition setdefault_append (body : value) (msg : value) : exn + value :=
  match body with
  | VDict d =>
      match lookup "messages" d with
      | None => inr (VDict (assign "messages" (VList [msg]) d))
      | Some (VList l) =>
          inr (VDict (assign "messages" (VList (l ++ [msg])%list) d))
      | Some v =>
          inl (AttributeError
                 ("'" ++ type_name v ++ "' object has no attribute 'append'"))
      end
  | v =>
      inl (AttributeError
             ("'" ++ type_name v ++ "' object has no attribute 'setdefault'"))
  end.

(** The body after [body.setdefault("messages", []).append(msg)]. *)
Definition appended (body : value) (msg : value) : value :=
  match setdefault_append body msg with
  | inr body' => body'
  | inl _ => body
  end.

(** [x[-1]] *)
Definition subscript_last (x : value) : exn + value :=
  match x with
  | VList l =>
      match rev l with
      | v :: _ => inr v
      | [] => inl (mkExn OtherException "IndexError" "list index out of range")
      end
  | VStr s =>
      match last_char s with
      | Some c => inr (VStr c)
      | None => inl (mkExn OtherException "IndexError" "string index out of range")
      end
  | VDict _ => inl (KeyError "-1")
  | v => inl (TypeError ("'" ++ type_name v ++ "' object is not subscriptable"))
  end.

(** [x[key]] for a string [key] *)
Definition subscript_key (x : value) (key : string) : exn + value :=
  match x with
  | VDict d =>
      match lookup key d with
      | Some v => inr v
      | None => inl (KeyError ("'" ++ key ++ "'"))
      end
  | VList _ => inl (TypeError "list indices must be integers or slices, not str")
  | VStr _ => inl (TypeError "string indices must be integers")
  | v => inl (TypeError ("'" ++ type_name v ++ "' object is not subscriptable"))
  end.

(** [x[:n]] *)
Definition slice_to (n : nat) (x : value) : exn + value :=
  match x with
  | VStr s => inr (VStr (take n s))
  | VList l => inr (VList (firstn n l))
  | VDict _ => inl (TypeError "unhashable type: 'slice'")
  | v => inl (TypeError ("'" ++ type_name v ++ "' object is not subscriptable"))
  end.

(** [x.get(key)]: only a dict has the method. *)
Definition method_get (x : value) (key : string) : exn + value :=
  match x with
  | VDict d => inr (dict_get d key)
  | v => inl (AttributeError ("'" ++ type_name v ++ "' object has no attribute 'get'"))
  end.

End Host.

(* ================================================================== *)
(** ** src/flowise.py                                                  *)
(* ================================================================== *)

Module Flowise.
Import Py Eff Eff.Notations Host.

Record Valves : Type := mkValves {
  flowise_api_url : string;
  test_direct_connection : bool;
  flowise_api_key : option string;
  request_timeout_seconds : Q;
  enable_status_indicator : bool;
  enable_streaming : bool;
  stream_event_name : string;
  debug_mode : bool;
  streaming_delay_seconds : Q
}.

(** The field defaults of [Pipe.Valves]. *)
Definition default_valves : Valves := {|
  flowise_api_url :=
    "https://[your_flowise_instance]/api/v1/prediction/[your_chatbot_id]";
  test_direct_connection := false;
  flowise_api_key := None;
  request_timeout_seconds := 300 # 1;
  enable_status_indicator := true;
  enable_streaming := true;
  stream_event_name := "text";
  debug_mode := true;
  streaming_delay_seconds := 5 # 100
|}.

(** The conversation body and the locals of [pipe] that are assigned
    inside a [try] and read after it, with the trace of the call. *)
Record state : Type := mkState {
  trace : list event;
  body : value;
  full_response_content : value;
  last_error_message : option string;
  response : option Response;
  chunk_count : nat
}.

Definition initial (body0 : value) : state := {|
  trace := [];
  body := body0;
  full_response_content := VStr "";
  last_error_message := None;
  response := None;
  chunk_count := 0
|}.

Definition record (ev : event) (s : state) : state :=
  mkState (trace s ++ [ev]) (body s) (full_response_content s)
          (last_error_message s) (response s) (chunk_count s).

Definition set_body (b : value) (s : state) : state :=
  mkState (trace s) b (full_response_content s)
          (last_error_message s) (response s) (chunk_count s).

Definition set_full_response_content (c : value) (s : state) : state :=
  mkState (trace s) (body s) c (last_error_message s) (response s) (chunk_count s).

Definition set_last_error_message (m : string) (s : state) : state :=
  mkState (trace s) (body s) (full_response_content s) (Some m)
          (response s) (chunk_count s).

Definition set_response (r : Response) (s : state) : state :=
  mkState (trace s) (body s) (full_response_content s)
          (last_error_message s) (Some r) (chunk_count s).

Definition set_chunk_count (n : nat) (s : state) : state :=
  mkState (trace s) (body s) (full_response_content s)
          (last_error_message s) (response s) n.

(** How a call of [pipe] ends. *)
Inductive outcome : Type :=
| Returned (v : value)
| Raised (e : exn).

Record run : Type := mkRun {
  result : outcome;
  final_body : value;
  events : list event
}.

Section Pipe.

(** The runtime: [json.loads] ([None] for a [JSONDecodeError]) and [repr]. *)
Variable json_loads : string -> option value.
Variable py_repr : value -> string.

(** [self.valves], the host's emitter and the Flowise endpoint. *)
Variable valves : Valves.
Variable __event_emitter__ : option emitter.
Variable endpoint : Host.endpoint.

Definition str (v : value) : string := str_of py_repr v.

(** [await __event_emitter__(status_message)] *)
Definition call_emitter (e : emitter) (status_message : value) : M state unit :=
  fun s =>
    let raised := on_call e (trace s) status_message in
    (match raised with Some x => Raise x | None => Val tt end,
     record (EmitterCalled status_message raised) s).

(** [await asyncio.sleep(seconds)] *)
Definition sleep (seconds : Q) : M state unit := modify (record (Slept seconds)).

(** [response.close()] *)
Definition close : M state unit := modify (record Closed).

(** [if response is not None: response.close()] *)
Definition close_if_open : M state unit :=
  r <- gets response ;;
  match r with
  | Some _ => close
  | None => ret tt
  end.

(** [with response: m] *)
Definition with_response {A : Type} (m : M state A) : M state A :=
  try_finally m close.

(** [Pipe.emit_status], lines 72-117; the debug prints are not recorded. *)
Definition emit_status (level message : string) (done is_stream_chunk : bool)
  (stream_content : value) : M state unit :=
  match __event_emitter__ with
  | Some e =>
      if enable_status_indicator valves then
        let status_message :=
          if is_stream_chunk then
            VDict [("type", VStr "chunk");
                   ("data", VDict [("status", VStr "in_progress");
                                   ("level", VStr level);
                                   ("description", VStr message);
                                   ("done", VBool false);
                                   ("content", stream_content)])]
          else
            VDict [("type", VStr "status");
                   ("data", VDict [("status",
                                    VStr (if done then "complete" else "in_progress"));
                                   ("level", VStr level);
                                   ("description", VStr message);
                                   ("done", VBool done)])] in
        try_finally
          (try_except (call_emitter e status_message)
                      [(is_Exception, fun _ => ret tt)])
          (sleep (streaming_delay_seconds valves))
      else ret tt
  | None => ret tt
  end.

(** [requests.post(...)], lines 204-211 *)
Definition requests_post (req : request) : M state Response :=
  fun s =>
    match endpoint req with
    | inl e => (Raise e, record (Posted req) s)
    | inr r => (Val r, record (Posted req) s)
    end.

(** The read behind [response.text] and [response.json()]: the request
    is made with [stream=True], so the body is fetched here.  The reads
    made only for a debug print (lines 218 and 244) are not recorded. *)
Definition read_body : M state unit := modify (record BodyRead).

(** [response.json()] *)
Definition response_json (r : Response) : M state value :=
  read_body ;;
  match json_loads (text r) with
  | Some v => ret v
  | None => raise (mkExn RequestsJSONDecodeError "JSONDecodeError"
                         "Expecting value: line 1 column 1 (char 0)")
  end.

(** [json.loads(s)] *)
Definition loads (s : string) : M state value :=
  match json_loads s with
  | Some v => ret v
  | None => raise (mkExn JSONDecodeError "JSONDecodeError"
                         "Expecting value: line 1 column 1 (char 0)")
  end.

(** [response.raise_for_status()] *)
Definition raise_for_status (r : Response) : M state unit :=
  match status_error r with
  | Some e => raise e
  | None => ret tt
  end.

(** The body of the [for line in response.iter_lines()] loop, lines
    295-355; [true] stands for [break]. *)
Definition process_line (line : raw_line) : M state bool :=
  match line with
  | LineText "" => ret false
  | LineUndecodable => raise UnicodeDecodeError
  | LineText decoded_line =>
      if String.prefix "data:" decoded_line then
        try_except
          (let event_data := strip (drop (String.length "data:") decoded_line) in
           event_data_json <- loads event_data ;;
           inner_event_type <- lift (method_get event_data_json "event") ;;
           inner_data_content <- lift (method_get event_data_json "data") ;;
           stop <-
             (if eq_str inner_event_type "token" && is_str inner_data_content then
                c <- gets full_response_content ;;
                modify (set_full_response_content
                          (VStr (str c ++ str inner_data_content))) ;;
                emit_status "info" "" false true inner_data_content ;;
                ret false
              else if eq_str inner_event_type "end" then ret true
              else ret false) ;;
           if (stop : bool) then ret true
           else
             n <- gets chunk_count ;;
             modify (set_chunk_count (n + 1)) ;;
             ret false)
          [(is_JSONDecodeError, fun _ => ret false)]
      else ret false
  end.

(** The [for] loop over [response.iter_lines()], line 294. *)
Fixpoint for_lines (ls : list raw_line) (iter_error : option exn) : M state unit :=
  match ls with
  | [] =>
      match iter_error with
      | Some e => raise e
      | None => ret tt
      end
  | line :: rest =>
      stop <- process_line line ;;
      if (stop : bool) then ret tt else for_lines rest iter_error
  end.

(** The content taken from a JSON object: the first truthy of the
    values under [fields], else [str] of the object (lines 275-280 and
    396-402). *)
Fixpoint first_of (fields : list string) (d : list (string * value)) : value :=
  match fields with
  | [] => VStr (str (VDict d))
  | f :: rest => py_or (dict_get d f) (first_of rest d)
  end.

(** Lines 250-378: [if self.valves.enable_streaming:] *)
Definition streaming_branch (r : Response) : M state unit :=
  emit_status "info" "Processing streaming response (manual SSE parsing)..."
              false false VNone ;;
  try_finally
    (try_except
       (let actual_content_type :=
          match content_type r with Some c => c | None => "" end in
        if negb (contains "text/event-stream" actual_content_type) then
          try_except
            (flowise_response_data <- response_json r ;;
             match flowise_response_data with
             | VDict d =>
                 modify (set_full_response_content
                           (first_of ["text"; "answer"; "response"] d)) ;;
                 emit_status "info" "Received non-streaming response (fallback)."
                             true false VNone
             | v => modify (set_full_response_content (VStr (str v)))
             end)
            [(is_JSONDecodeError,
              fun _ =>
                read_body ;;
                modify (set_full_response_content (VStr (text r))))]
        else
          modify (set_chunk_count 0) ;;
          with_response (for_lines (lines r) (iter_error r)) ;;
          n <- gets chunk_count ;;
          emit_status "info"
            ("Streaming complete. Processed " ++ str_of_nat n ++ " data events.")
            true false VNone)
       [(is_Exception,
         fun e =>
           emit_status "error"
             ("SSE streaming failed: " ++ exn_name e ++ " - " ++ exn_str e)
             true false VNone)])
    close_if_open.

(** Lines 380-434: the [else] of [if self.valves.enable_streaming:] *)
Definition non_streaming_branch (r : Response) : M state unit :=
  emit_status "info" "Processing as NON-STREAMING response (streaming disabled)."
              false false VNone ;;
  try_finally
    (try_except
       (with_response
          (flowise_response_data <- response_json r ;;
           match flowise_response_data with
           | VDict d =>
               modify (set_full_response_content
                         (first_of ["text"; "answer"; "response"; "output"] d)) ;;
               emit_status "info" "Flowise response received (non-streaming)."
                           true false VNone
           | v => modify (set_full_response_content (VStr (str v)))
           end))
       [(is_JSONDecodeError,
         fun _ =>
           read_body ;;
           modify (set_full_response_content (VStr (text r))) ;;
           emit_status "info" "Received raw text response (JSON decode failed)."
                       true false VNone);
        (is_Exception,
         fun e =>
           let msg := "Error in non-streaming processing: "
                      ++ exn_name e ++ " - " ++ exn_str e in
           modify (set_last_error_message msg) ;;
           emit_status "error" msg true false VNone)])
    close_if_open.

(** Lines 166-189: the request headers. *)
Definition headers : list (string * string) :=
  let auth :=
    match flowise_api_key valves with
    | Some k => if negb (String.eqb k "") then [("Authorization", "Bearer " ++ k)]
                else []
    | None => []
    end in
  if enable_streaming valves then
    (auth ++ [("Cache-Control", "no-cache"); ("Connection", "keep-alive");
              ("Content-Type", "application/json")])%list
  else (auth ++ [("Content-Type", "application/json")])%list.

(** Lines 181-187: the JSON payload. *)
Definition payload (user_message : value) : value :=
  if enable_streaming valves then
    VDict (assign "streaming" (VBool true) [("question", user_message)])
  else VDict [("question", user_message)].

(** The arguments of [requests.post], lines 204-211. *)
Definition post_request (user_message : value) : request :=
  mkRequest (flowise_api_url valves) (payload user_message) headers
            (request_timeout_seconds valves) true false.

(** [last_error_message] on an HTTP error status, lines 238-241. *)
Definition http_error_message (r : Response) : string :=
  let error_detail :=
    "HTTP Error " ++ str_of_Z (status_code r) ++ ": " ++ take 200 (text r) ++ "..." in
  "Flowise HTTP error: " ++ error_detail.

(** Lines 213-434: from the response to the end of the outer [try]. *)
Definition handle_response (r : Response) : M state unit :=
  modify (set_response r) ;;
  emit_status "info"
    ("Request complete. HTTP Status: " ++ str_of_Z (status_code r) ++ ".")
    false false VNone ;;
  try_except
    (raise_for_status r ;;
     emit_status "info" "HTTP Status OK (2xx)." false false VNone)
    [(is_HTTPError,
      fun _ =>
        read_body ;;
        modify (set_last_error_message (http_error_message r)) ;;
        emit_status "error" (http_error_message r) true false VNone ;;
        return_ (error_dict (http_error_message r)))] ;;
  if enable_streaming valves then streaming_branch r
  else non_streaming_branch r.

(** Lines 146-434: the body of the outer [try]. *)
Definition try_block : M state unit :=
  b <- gets body ;;
  match b with
  | VDict d =>
      let messages := dict_get_default d "messages" (VList []) in
      if negb (truthy messages) then
        let error_msg := "Error: No messages found in the request body to process." in
        emit_status "error" error_msg true false VNone ;;
        return_ (error_dict error_msg)
      else
        last <- lift (subscript_last messages) ;;
        user_message <- lift (subscript_key last "content") ;;
        shown <- lift (slice_to 50 user_message) ;;
        emit_status "info"
          ("User message: '" ++ str shown ++ "...' (truncated)") false false VNone ;;
        emit_status "info"
          (match flowise_api_key valves with
           | Some k => if negb (String.eqb k "") then "API Key configured for Flowise."
                       else "No API Key configured for Flowise."
           | None => "No API Key configured for Flowise."
           end) false false VNone ;;
        emit_status "info"
          ("Sending POST request to " ++ flowise_api_url valves ++ "...")
          false false VNone ;;
        r <- requests_post (post_request user_message) ;;
        handle_response r
  | _ =>
      let error_msg := "Request body is not a valid dictionary." in
      emit_status "error" error_msg true false VNone ;;
      return_ (error_dict error_msg)
  end.

(** Lines 436-442 *)
Definition on_request_exception (e : exn) : M state unit :=
  let msg := "Network or Request error to Flowise: " ++ exn_name e ++ " - "
             ++ exn_str e ++ ". Check URL/connectivity." in
  modify (set_last_error_message msg) ;;
  emit_status "error" msg true false VNone ;;
  close_if_open.

(** Lines 443-452 *)
Definition on_json_decode_error (e : exn) : M state unit :=
  r <- gets response ;;
  match r with
  | Some r => if ok r then read_body else ret tt
  | None => ret tt
  end ;;
  let error_body :=
    match r with
    | Some r => if ok r then text r else "N/A"
    | None => "N/A"
    end in
  let msg := "JSON decoding error from Flowise: " ++ exn_str e
             ++ ". Raw response: " ++ take 200 error_body ++ "..." in
  modify (set_last_error_message msg) ;;
  emit_status "error" msg true false VNone ;;
  close_if_open.

(** Lines 453-459 *)
Definition on_exception (e : exn) : M state unit :=
  let msg := "An unexpected error occurred: " ++ exn_name e ++ " - "
             ++ exn_str e ++ ". Check pipe code/Flowise." in
  modify (set_last_error_message msg) ;;
  emit_status "error" msg true false VNone ;;
  close_if_open.

(** Lines 461-478: what the call returns once the [try] is left. *)
Definition finish : M state unit :=
  content <- gets full_response_content ;;
  if truthy content then
    b <- gets body ;;
    b' <- lift (setdefault_append b (assistant_message content)) ;;
    modify (set_body b') ;;
    return_ content
  else
    err <- gets last_error_message ;;
    let final_error_message :=
      match err with
      | Some m =>
          if negb (String.eqb m "") then m
          else "Unknown error: No content received and no specific error reported. Check Flowise logs."
      | None =>
          "Unknown error: No content received and no specific error reported. Check Flowise logs."
      end in
    emit_status "error" ("Flowise Pipe Failed: " ++ final_error_message)
                true false VNone ;;
    return_ (error_dict final_error_message).

(** [Pipe.pipe], lines 119-478. *)
Definition pipe_body : M state unit :=
  emit_status "info" "Flowise Pipe: Starting execution..." false false VNone ;;
  try_except try_block
    [(is_RequestException, on_request_exception);
     (is_JSONDecodeError, on_json_decode_error);
     (is_Exception, on_exception)] ;;
  finish.

Definition pipe (body0 : value) : run :=
  let (r, s) := pipe_body (initial body0) in
  mkRun (match r with
         | Val _ => Returned VNone
         | Return v => Returned v
         | Raise e => Raised e
         end)
        (body s) (trace s).

End Pipe.

End Flowise.

(* ================================================================== *)
(** ** src/n8n.py                                                      *)
(* ================================================================== *)

Module N8n.
Import Py Eff Eff.Notations Host.

Record Valves : Type := mkValves {
  n8n_url : string;
  n8n_bearer_token : string;
  input_field : string;
  response_field : string;
  emit_interval : Q;
  enable_status_indicator : bool;
  request_timeout_seconds : Q
}.

(** The field defaults of [Pipe.Valves]. *)
Definition default_valves : Valves := {|
  n8n_url := "https://[your domain]/webhook/[your webhook URL]";
  n8n_bearer_token := "...";
  input_field := "chatInput";
  response_field := "output";
  emit_interval := 2 # 1;
  enable_status_indicator := true;
  request_timeout_seconds := 300 # 1
|}.

(** [self.last_emit_time], the conversation body, the locals of [pipe]
    assigned inside its [try], the number of clock readings taken, and
    the trace of the call. *)
Record state : Type := mkState {
  trace : list event;
  body : value;
  last_emit_time : Q;
  ticks : nat;
  n8n_response_content : value;
  last_error_message : option string
}.

Definition initial (body0 : value) (last : Q) : state := {|
  trace := [];
  body := body0;
  last_emit_time := last;
  ticks := 0;
  n8n_response_content := VNone;
  last_error_message := None
|}.

Definition record (ev : event) (s : state) : state :=
  mkState (trace s ++ [ev]) (body s) (last_emit_time s) (ticks s)
          (n8n_response_content s) (last_error_message s).

Definition set_body (b : value) (s : state) : state :=
  mkState (trace s) b (last_emit_time s) (ticks s)
          (n8n_response_content s) (last_error_message s).

Definition set_last_emit_time (t : Q) (s : state) : state :=
  mkState (trace s) (body s) t (ticks s)
          (n8n_response_content s) (last_error_message s).

Definition tick (s : state) : state :=
  mkState (trace s) (body s) (last_emit_time s) (S (ticks s))
          (n8n_response_content s) (last_error_message s).

Definition set_n8n_response_content (c : value) (s : state) : state :=
  mkState (trace s) (body s) (last_emit_time s) (ticks s) c (last_error_message s).

Definition set_last_error_message (m : string) (s : state) : state :=
  mkState (trace s) (body s) (last_emit_time s) (ticks s)
          (n8n_response_content s) (Some m).

(** How a call of [pipe] ends. *)
Inductive outcome : Type :=
| Returned (v : value)
| Raised (e : exn).

Record run : Type := mkRun {
  result : outcome;
  final_body : value;
  events : list event;
  final_last_emit_time : Q
}.

(** [extract_event_info], lines 26-40: the first closure cell that holds
    a dict decides; reading an empty cell raises [ValueError]. *)
Fixpoint first_request_info (cells : list (option value)) : exn + (value * value) :=
  match cells with
  | [] => inr (VNone, VNone)
  | None :: _ => inl (mkExn ValueError "ValueError" "Cell is empty")
  | Some (VDict request_info) :: _ =>
      inr (dict_get request_info "chat_id", dict_get request_info "message_id")
  | Some _ :: rest => first_request_info rest
  end.

Definition extract_event_info (event_emitter : option emitter)
  : exn + (value * value) :=
  match event_emitter with
  | None => inr (VNone, VNone)
  | Some e =>
      match closure e with
      | None => inr (VNone, VNone)
      | Some cells => first_request_info cells
      end
  end.

(** The items a [for] over [v] visits. *)
Definition iterate (v : value) : exn + list value :=
  match v with
  | VList l => inr l
  | VDict d => inr (keys d)
  | VStr s => inr (map (fun c => VStr (String c EmptyString)) (list_ascii_of_string s))
  | v => inl (TypeError ("'" ++ type_name v ++ "' object is not iterable"))
  end.

(** [next((msg["content"] for msg in msgs if msg.get("role") == "system"), None)],
    lines 180-187 *)
Fixpoint first_system_content (msgs : list value) : exn + value :=
  match msgs with
  | [] => inr VNone
  | msg :: rest =>
      match method_get msg "role" with
      | inl e => inl e
      | inr role =>
          if eq_str role "system" then subscript_key msg "content"
          else first_system_content rest
      end
  end.

(** The [status_message] dict of [emit_status], lines 102-110. *)
Definition status_message (level message : string) (done : bool) : value :=
  VDict [("type", VStr "status");
         ("data", VDict [("status", VStr (if done then "complete" else "in_progress"));
                         ("level", VStr level);
                         ("description", VStr message);
                         ("done", VBool done)])].

Section Pipe.

(** The runtime: [json.loads] ([None] for a [JSONDecodeError]), [repr],
    and the successive readings of [time.time()]. *)
Variable json_loads : string -> option value.
Variable py_repr : value -> string.
Variable clock : nat -> Q.

(** [self.valves], the host's emitter and the n8n webhook. *)
Variable valves : Valves.
Variable __event_emitter__ : option emitter.
Variable endpoint : Host.endpoint.

Definition str (v : value) : string := str_of py_repr v.

(** [time.time()] *)
Definition time_time : M state Q :=
  fun s => (Val (clock (ticks s)), tick s).

(** [await __event_emitter__(status_message)] *)
Definition call_emitter (e : emitter) (status_message : value) : M state unit :=
  fun s =>
    let raised := on_call e (trace s) status_message in
    (match raised with Some x => Raise x | None => Val tt end,
     record (EmitterCalled status_message raised) s).

(** [Pipe.emit_status], lines 82-114.  Times are rationals: the
    difference of line 99 is taken without the rounding of floats. *)
Definition emit_status (level message : string) (done : bool) : M state unit :=
  current_time <- time_time ;;
  last <- gets last_emit_time ;;
  match __event_emitter__ with
  | Some e =>
      if enable_status_indicator valves
         && (Qle_bool (emit_interval valves) (current_time - last)%Q || done)
      then
        call_emitter e (status_message level message done) ;;
        if negb done then modify (set_last_emit_time current_time) else ret tt
      else ret tt
  | None => ret tt
  end.

(** [requests.post(...)], lines 209-214 *)
Definition requests_post (req : request) : M state Response :=
  fun s =>
    match endpoint req with
    | inl e => (Raise e, record (Posted req) s)
    | inr r => (Val r, record (Posted req) s)
    end.

(** [response.json()] *)
Definition response_json (r : Response) : M state value :=
  match json_loads (text r) with
  | Some v => ret v
  | None => raise (mkExn RequestsJSONDecodeError "JSONDecodeError"
                         "Expecting value: line 1 column 1 (char 0)")
  end.

(** [json.loads(s)] *)
Definition loads (s : string) : M state value :=
  match json_loads s with
  | Some v => ret v
  | None => raise (mkExn JSONDecodeError "JSONDecodeError"
                         "Expecting value: line 1 column 1 (char 0)")
  end.

(** [body.setdefault("messages", []).append(msg)] on the body of the call *)
Definition append_message (msg : value) : M state unit :=
  b <- gets body ;;
  b' <- lift (setdefault_append b msg) ;;
  modify (set_body b').

(** Lines 128-138: a body given as a string is parsed first. *)
Definition parse_body : M state unit :=
  b <- gets body ;;
  match b with
  | VStr s =>
      try_except
        (parsed <- loads s ;;
         modify (set_body parsed) ;;
         if negb (is_dict parsed) then
           let error_msg :=
             "Expected 'body' to be a dictionary but got " ++ type_name parsed ++ "." in
           emit_status "error" error_msg true ;;
           return_ (error_dict error_msg)
         else ret tt)
        [(is_JSONDecodeError,
          fun _ =>
            let error_msg := "Invalid JSON string received in 'body'." in
            emit_status "error" error_msg true ;;
            return_ (error_dict error_msg))]
  | _ => ret tt
  end.

(** [last_error_message] when the response field is missing, lines 237-247. *)
Definition missing_field_message (r : Response) (n8n_response_data : value) : string :=
  let available_keys :=
    match n8n_response_data with
    | VDict d => str (VList (keys d))
    | _ => "N/A"
    end in
  "N8N workflow responded successfully (status " ++ str_of_Z (status_code r) ++ ") "
  ++ "but missing expected response field '" ++ response_field valves ++ "'. "
  ++ "Available keys: " ++ available_keys ++ ". "
  ++ "Response snippet: " ++ take 150 (text r) ++ "...".

(** [last_error_message] when the body is not JSON, lines 253-257. *)
Definition invalid_json_message (r : Response) : string :=
  "N8N workflow responded successfully (status " ++ str_of_Z (status_code r) ++ ") "
  ++ "but the response body is not valid JSON. "
  ++ "Response snippet: " ++ take 200 (text r) ++ "...".

(** [last_error_message] on a 4xx status, lines 269-272. *)
Definition client_error_message (r : Response) : string :=
  "Client error: Received status code " ++ str_of_Z (status_code r)
  ++ " from N8N. " ++ "This error (" ++ str_of_Z (status_code r)
  ++ ") is typically not transient. Response: " ++ text r.

(** [last_error_message] on any other status, lines 278-281. *)
Definition unexpected_status_message (r : Response) : string :=
  "Unexpected HTTP error: Received status code " ++ str_of_Z (status_code r)
  ++ " from N8N. " ++ "Response: " ++ text r.

(** Lines 217-266: a 2xx response. *)
Definition on_success_status (r : Response) : M state unit :=
  try_except
    (n8n_response_data <- response_json r ;;
     n8n_response_data <-
       match n8n_response_data with
       | VList [] => raise (mkExn ValueError "ValueError"
                                  "Received an empty list from N8N response.")
       | VList (first :: _) => ret first
       | v => ret v
       end ;;
     let found :=
       match n8n_response_data with
       | VDict d => lookup (response_field valves) d
       | _ => None
       end in
     match found with
     | Some content => modify (set_n8n_response_content content)
     | None =>
         modify (set_last_error_message (missing_field_message r n8n_response_data)) ;;
         emit_status "error" (missing_field_message r n8n_response_data) true
     end)
    [(is_JSONDecodeError,
      fun _ =>
        modify (set_last_error_message (invalid_json_message r)) ;;
        emit_status "error" (invalid_json_message r) true);
     (is_ValueError,
      fun e =>
        let msg := "Error processing N8N response: " ++ exn_str e in
        modify (set_last_error_message msg) ;;
        emit_status "error" msg true)].

(** Lines 189-195: the JSON payload. *)
Definition payload (chat_id question system_prompt : value) : value :=
  let payload :=
    assign (input_field valves) question
      [("sessionId",
        if negb (is_none chat_id) then chat_id else VStr "unknown_session")] in
  if truthy system_prompt then VDict (assign "systemPrompt" system_prompt payload)
  else VDict payload.

(** Lines 172-175: the request headers. *)
Definition headers : list (string * string) :=
  [("Authorization", "Bearer " ++ n8n_bearer_token valves);
   ("Content-Type", "application/json")].

(** The arguments of [requests.post], lines 209-214. *)
Definition post_request (payload : value) : request :=
  mkRequest (n8n_url valves) payload headers
            (request_timeout_seconds valves) false true.

(** Lines 217-284: the classification of the status. *)
Definition handle_response (r : Response) : M state unit :=
  if (200 <=? status_code r)%Z && (status_code r <? 300)%Z then
    on_success_status r
  else if (400 <=? status_code r)%Z && (status_code r <? 500)%Z then
    modify (set_last_error_message (client_error_message r)) ;;
    emit_status "error" (client_error_message r) true
  else
    modify (set_last_error_message (unexpected_status_message r)) ;;
    emit_status "error" (unexpected_status_message r) true.

(** Lines 201-292: the request, inside its [try]. *)
Definition request_block (payload : value) : M state unit :=
  try_except
    (emit_status "info" "Sending request to N8N..." false ;;
     r <- requests_post (post_request payload) ;;
     handle_response r)
    [(is_Exception,
      fun e =>
        let msg := "Request to N8N failed: " ++ exn_name e ++ " - "
                   ++ exn_str e ++ "." in
        modify (set_last_error_message msg) ;;
        emit_status "warning" msg false)].

(** Lines 296-329: what the call returns once the request is over. *)
Definition finish : M state unit :=
  content <- gets n8n_response_content ;;
  if negb (is_none content) then
    append_message (assistant_message content) ;;
    emit_status "info" "N8N workflow completed successfully." true ;;
    return_ content
  else
    err <- gets last_error_message ;;
    let final_error_message :=
      match err with
      | Some m =>
          if negb (String.eqb m "") then m
          else "An unknown error occurred during the N8N request."
      | None => "An unknown error occurred during the N8N request."
      end in
    emit_status "error" ("Final Error calling N8N: " ++ final_error_message) true ;;
    append_message
      (assistant_message
         (VStr ("Error calling N8N workflow: " ++ final_error_message))) ;;
    return_ (error_dict final_error_message).

(** Lines 140-329: the call once the body is parsed; [self.name] is
    ["n8n"]. *)
Definition main_block : M state unit :=
  b <- gets body ;;
  match b with
  | VDict d =>
      let messages := dict_get_default d "messages" (VList []) in
      if negb (truthy messages) then
        let error_msg := "Error: No messages found in the request body to process." in
        emit_status "error" error_msg true ;;
        append_message (assistant_message (VStr error_msg)) ;;
        return_ (error_dict error_msg)
      else
        last <- lift (subscript_last messages) ;;
        question <- lift (subscript_key last "content") ;;
        emit_status "info" "Calling n8n workflow..." false ;;
        ids <- lift (extract_event_info __event_emitter__) ;;
        let chat_id := fst ids in
        msgs <- lift (iterate messages) ;;
        system_prompt <- lift (first_system_content msgs) ;;
        request_block (payload chat_id question system_prompt) ;;
        finish
  | _ =>
      let error_msg := "Request body is not a valid dictionary." in
      emit_status "error" error_msg true ;;
      return_ (error_dict error_msg)
  end.

(** [Pipe.pipe], lines 116-329. *)
Definition pipe_body : M state unit :=
  parse_body ;;
  main_block.

Definition pipe (body0 : value) (last : Q) : run :=
  let (r, s) := pipe_body (initial body0 last) in
  mkRun (match r with
         | Val _ => Returned VNone
         | Return v => Returned v
         | Raise e => Raised e
         end)
        (body s) (trace s) (last_emit_time s).

End Pipe.

End N8n.

(* ================================================================== *)
(** ** A small JSON reader and [repr], to run the adapters on examples *)
(* ================================================================== *)

Module Json.
Import Py.

Definition is_ws (c : ascii) : bool :=
  let n := nat_of_ascii c in
  (n =? 32)%nat || (n =? 9)%nat || (n =? 10)%nat || (n =? 13)%nat.

Fixpoint skip_ws (s : string) : string :=
  match s with
  | String c rest => if is_ws c then skip_ws rest else s
  | EmptyString => EmptyString
  end.

Definition digit_of (c : ascii) : option Z :=
  let n := nat_of_ascii c in
  if (48 <=? n)%nat && (n <=? 57)%nat then Some (Z.of_nat (n - 48)) else None.

(** The digits at the head of [s], read in base ten onto [acc]. *)
Fixpoint read_digits (s : string) (acc : Z) (seen : bool) : option (Z * string) :=
  match s with
  | String c rest =>
      match digit_of c with
      | Some d => read_digits rest (10 * acc + d)%Z true
      | None => if seen then Some (acc, s) else None
      end
  | EmptyString => if seen then Some (acc, s) else None
  end.

Definition dquote : ascii := ascii_of_nat 34.
Definition backslash : ascii := ascii_of_nat 92.

(** The character an escape letter stands for ([\u] is not read). *)
Definition unescape (e : ascii) : option ascii :=
  if Ascii.eqb e dquote then Some dquote
  else if Ascii.eqb e backslash then Some backslash
  else if Ascii.eqb e "/" then Some "/"%char
  else if Ascii.eqb e "n" then Some (ascii_of_nat 10)
  else if Ascii.eqb e "t" then Some (ascii_of_nat 9)
  else if Ascii.eqb e "r" then Some (ascii_of_nat 13)
  else if Ascii.eqb e "b" then Some (ascii_of_nat 8)
  else if Ascii.eqb e "f" then Some (ascii_of_nat 12)
  else None.

(** The characters of a string literal after its opening quote;
    [escaped] says that the previous character was a backslash. *)
Fixpoint read_string (s : string) (escaped : bool) : option (string * string) :=
  match s with
  | EmptyString => None
  | String c rest =>
      if escaped then
        match unescape c, read_string rest false with
        | Some c', Some (t, rest') => Some (String c' t, rest')
        | _, _ => None
        end
      else if Ascii.eqb c dquote then Some (EmptyString, rest)
      else if Ascii.eqb c backslash then read_string rest true
      else
        match read_string rest false with
        | Some (t, rest') => Some (String c t, rest')
        | None => None
        end
  end.

(** JSON text written with ['] where JSON has the double quote. *)
Fixpoint js (s : string) : string :=
  match s with
  | EmptyString => EmptyString
  | String c rest => String (if Ascii.eqb c "'" then dquote else c) (js rest)
  end.

(** One JSON value at the head of [s]: null, true, false, an integer, a
    string, an array or an object. *)
Fixpoint read_value (fuel : nat) (s : string) : option (value * string) :=
  match fuel with
  | O => None
  | S fuel' =>
      match skip_ws s with
      | String "{" rest =>
          match skip_ws rest with
          | String "}" rest' => Some (VDict [], rest')
          | rest' => read_members fuel' rest' []
          end
      | String "[" rest =>
          match skip_ws rest with
          | String "]" rest' => Some (VList [], rest')
          | rest' => read_elements fuel' rest' []
          end
      | String "-" rest =>
          match read_digits rest 0 false with
          | Some (z, rest') => Some (VInt (- z), rest')
          | None => None
          end
      | String c rest as t =>
          if Ascii.eqb c dquote then
            match read_string rest false with
            | Some (t, rest') => Some (VStr t, rest')
            | None => None
            end
          else if String.prefix "null" t then Some (VNone, drop 4 t)
          else if String.prefix "true" t then Some (VBool true, drop 4 t)
          else if String.prefix "false" t then Some (VBool false, drop 5 t)
          else
            match read_digits t 0 false with
            | Some (z, rest') => Some (VInt z, rest')
            | None => None
            end
      | EmptyString => None
      end
  end
with read_elements (fuel : nat) (s : string) (acc : list value)
  : option (value * string) :=
  match fuel with
  | O => None
  | S fuel' =>
      match read_value fuel' s with
      | Some (v, rest) =>
          match skip_ws rest with
          | String "," rest' => read_elements fuel' rest' (acc ++ [v])
          | String "]" rest' => Some (VList (acc ++ [v]), rest')
          | _ => None
          end
      | None => None
      end
  end
with read_members (fuel : nat) (s : string) (acc : list (string * value))
  : option (value * string) :=
  match fuel with
  | O => None
  | S fuel' =>
      match skip_ws s with
      | String c rest =>
          if Ascii.eqb c dquote then
            match read_string rest false with
            | Some (k, rest1) =>
                match skip_ws rest1 with
                | String ":" rest2 =>
                    match read_value fuel' rest2 with
                    | Some (v, rest3) =>
                        match skip_ws rest3 with
                        | String "," rest4 => read_members fuel' rest4 (assign k v acc)
                        | String "}" rest4 => Some (VDict (assign k v acc), rest4)
                        | _ => None
                        end
                    | None => None
                    end
                | _ => None
                end
            | None => None
            end
          else None
      | EmptyString => None
      end
  end.

(** A whole document: one value and nothing but blanks after it. *)
Definition loads (s : string) : option value :=
  match read_value (2 * String.length s + 2) s with
  | Some (v, rest) =>
      match skip_ws rest with
      | EmptyString => Some v
      | _ => None
      end
  | None => None
  end.

Definition join (sep : string) (parts : list string) : string :=
  match parts with
  | [] => ""
  | p :: rest => fold_left (fun acc q => acc ++ sep ++ q) rest p
  end.

(** [repr] of a value whose strings need no escaping. *)
Fixpoint repr (v : value) : string :=
  match v with
  | VNone => "None"
  | VBool true => "True"
  | VBool false => "False"
  | VInt z => str_of_Z z
  | VFloat q => str_of_Z (Qnum q) ++ "/" ++ str_of_Z (Zpos (Qden q))
  | VStr s => "'" ++ s ++ "'"
  | VList l => "[" ++ join ", " (map repr l) ++ "]"
  | VDict d =>
      "{" ++ join ", " (map (fun kv => "'" ++ fst kv ++ "': " ++ repr (snd kv)) d) ++ "}"
  end.

End Json.

(* ================================================================== *)
(** ** Sample hosts, endpoints and conversations                       *)
(* ================================================================== *)

Module Examples.
Import Py Host.

(** An emitter that accepts every status message. *)
Definition emitter_ok : emitter := mkEmitter None (fun _ _ => None).

(** An emitter whose every call raises. *)
Definition emitter_failing : emitter :=
  mkEmitter None (fun _ _ => Some (mkExn OtherException "RuntimeError" "emitter down")).

(** An endpoint that answers every request with [r]. *)
Definition respond (r : Response) : endpoint := fun _ => inr r.

(** An endpoint that cannot be reached. *)
Definition unreachable : endpoint :=
  fun _ => inl (mkExn RequestException "ConnectionError" "connection refused").

Definition message (role content : string) : value :=
  VDict [("role", VStr role); ("content", VStr content)].

Definition conversation (messages : list value) : value :=
  VDict [("messages", VList messages)].

(** A wall clock that advances by a tenth of a second per reading. *)
Definition clock_tenths : nat -> Q := fun n => (1000 + inject_Z (Z.of_nat n) / 10)%Q.

Definition not_found : Response :=
  mkResponse 404 (Some "application/json") "Not Found" [] None.

Definition json_response (body : string) : Response :=
  mkResponse 200 (Some "application/json") body [] None.

Definition event_stream (lines : list string) : Response :=
  mkResponse 200 (Some "text/event-stream") "" (map LineText lines) None.

End Examples.

(* ================================================================== *)
(** ** Running a block: the equations of the control-flow operators    *)
(* ================================================================== *)

Module EffFacts.
Import Py Eff Eff.Notations.

Section Equations.
Context {S : Type}.

Lemma bind_ret {A B : Type} (a : A) (k : A -> M S B) (s : S) :
  bind (ret a) k s = k a s.
Proof. reflexivity. Qed.

Lemma bind_gets {A B : Type} (f : S -> A) (k : A -> M S B) (s : S) :
  bind (gets f) k s = k (f s) s.
Proof. reflexivity. Qed.

Lemma bind_modify {B : Type} (f : S -> S) (k : unit -> M S B) (s : S) :
  bind (modify f) k s = k tt (f s).
Proof. reflexivity. Qed.

Lemma bind_raise {A B : Type} (e : exn) (k : A -> M S B) (s : S) :
  bind (raise e) k s = (Raise e, s).
Proof. reflexivity. Qed.

Lemma bind_return {A B : Type} (v : value) (k : A -> M S B) (s : S) :
  bind (return_ v) k s = (Return v, s).
Proof. reflexivity. Qed.

Lemma bind_lift_inr {A B : Type} (a : A) (k : A -> M S B) (s : S) :
  bind (lift (inr a)) k s = k a s.
Proof. reflexivity. Qed.

Lemma bind_lift_inl {A B : Type} (e : exn) (k : A -> M S B) (s : S) :
  bind (lift (inl e)) k s = (Raise e, s).
Proof. reflexivity. Qed.

Lemma bind_val {A B : Type} (m : M S A) (k : A -> M S B) (s s' : S) (a : A) :
  m s = (Val a, s') -> bind m k s = k a s'.
Proof. intros H. unfold bind. rewrite H. reflexivity. Qed.

Lemma bind_raised {A B : Type} (m : M S A) (k : A -> M S B) (s s' : S) (e : exn) :
  m s = (Raise e, s') -> bind m k s = (Raise e, s').
Proof. intros H. unfold bind. rewrite H. reflexivity. Qed.

Lemma bind_returned {A B : Type} (m : M S A) (k : A -> M S B) (s s' : S) (v : value) :
  m s = (Return v, s') -> bind m k s = (Return v, s').
Proof. intros H. unfold bind. rewrite H. reflexivity. Qed.

Lemma bind_assoc {A B C : Type} (m : M S A) (f : A -> M S B) (g : B -> M S C) (s : S) :
  bind (bind m f) g s = bind m (fun x => bind (f x) g) s.
Proof. unfold bind. destruct (m s) as [[a | e | v] s']; reflexivity. Qed.

Lemma try_except_val {A : Type} (m : M S A) (hs : list (handler A)) (s s' : S) (a : A) :
  m s = (Val a, s') -> try_except m hs s = (Val a, s').
Proof. intros H. unfold try_except. rewrite H. reflexivity. Qed.

Lemma try_except_returned {A : Type} (m : M S A) (hs : list (handler A))
  (s s' : S) (v : value) :
  m s = (Return v, s') -> try_except m hs s = (Return v, s').
Proof. intros H. unfold try_except. rewrite H. reflexivity. Qed.

Lemma try_except_raised {A : Type} (m : M S A) (hs : list (handler A))
  (s s' : S) (e : exn) :
  m s = (Raise e, s') ->
  try_except m hs s =
    match select hs e with
    | Some h => h s'
    | None => (Raise e, s')
    end.
Proof. intros H. unfold try_except. rewrite H. reflexivity. Qed.

End Equations.

(** A quantity of the state that a block leaves as it found it,
    however the block ends. *)
Definition preserves {S A X : Type} (f : S -> X) (m : M S A) : Prop :=
  forall s, f (snd (m s)) = f s.

Section Preservation.
Context {S X : Type} (f : S -> X).

Lemma preserves_ret {A : Type} (a : A) : preserves f (ret a).
Proof. intros s. reflexivity. Qed.

Lemma preserves_raise {A : Type} (e : exn) : preserves f (@raise S A e).
Proof. intros s. reflexivity. Qed.

Lemma preserves_return {A : Type} (v : value) : preserves f (@return_ S A v).
Proof. intros s. reflexivity. Qed.

Lemma preserves_gets {A : Type} (g : S -> A) : preserves f (gets g).
Proof. intros s. reflexivity. Qed.

Lemma preserves_lift {A : Type} (x : exn + A) : preserves f (lift x).
Proof. intros s. destruct x; reflexivity. Qed.

Lemma preserves_modify (g : S -> S) :
  (forall s, f (g s) = f s) -> preserves f (modify g).
Proof. intros H s. apply H. Qed.

Lemma preserves_bind {A B : Type} (m : M S A) (k : A -> M S B) :
  preserves f m -> (forall a, preserves f (k a)) -> preserves f (bind m k).
Proof.
  intros Hm Hk s. unfold bind. specialize (Hm s).
  destruct (m s) as [[a | e | v] s']; cbn in *; try assumption.
  rewrite Hk. assumption.
Qed.

Lemma preserves_select {A : Type} (hs : list (handler A)) (e : exn) (h : M S A) :
  Forall (fun c => forall e, preserves f (snd c e)) hs ->
  select hs e = Some h -> preserves f h.
Proof.
  induction 1 as [| [matches body] rest Hc _ IH]; cbn; [discriminate |].
  destruct (matches e); [| exact IH].
  intros [= <-]. apply Hc.
Qed.

Lemma preserves_try_except {A : Type} (m : M S A) (hs : list (handler A)) :
  preserves f m ->
  Forall (fun c => forall e, preserves f (snd c e)) hs ->
  preserves f (try_except m hs).
Proof.
  intros Hm Hh s. unfold try_except. specialize (Hm s).
  destruct (m s) as [[a | e | v] s']; cbn in *; try assumption.
  destruct (select hs e) as [h |] eqn:E; cbn; [| assumption].
  rewrite (preserves_select hs e h Hh E). assumption.
Qed.

Lemma preserves_try_finally {A : Type} (m : M S A) (fin : M S unit) :
  preserves f m -> preserves f fin -> preserves f (try_finally m fin).
Proof.
  intros Hm Hf s. unfold try_finally. specialize (Hm s).
  destruct (m s) as [r s']. specialize (Hf s'). cbn in *.
  destruct (fin s') as [[a | e | v] s'']; cbn in *; congruence.
Qed.

Lemma preserves_if {A : Type} (b : bool) (m1 m2 : M S A) :
  preserves f m1 -> preserves f m2 -> preserves f (if b then m1 else m2).
Proof. destruct b; auto. Qed.

End Preservation.

(** A block that holds no [return] statement: it falls through or
    raises. *)
Definition no_return {S A : Type} (m : M S A) : Prop :=
  forall s v, fst (m s) <> Return v.

Section NoReturn.
Context {S : Type}.

Lemma no_return_ret {A : Type} (a : A) : no_return (@ret S A a).
Proof. intros s v. discriminate. Qed.

Lemma no_return_raise {A : Type} (e : exn) : no_return (@raise S A e).
Proof. intros s v. discriminate. Qed.

Lemma no_return_gets {A : Type} (g : S -> A) : no_return (gets g).
Proof. intros s v. discriminate. Qed.

Lemma no_return_modify (g : S -> S) : no_return (modify g).
Proof. intros s v. discriminate. Qed.

Lemma no_return_lift {A : Type} (x : exn + A) : no_return (@lift S A x).
Proof. intros s v. destruct x; discriminate. Qed.

Lemma no_return_bind {A B : Type} (m : M S A) (k : A -> M S B) :
  no_return m -> (forall a, no_return (k a)) -> no_return (bind m k).
Proof.
  intros Hm Hk s v. unfold bind. specialize (Hm s).
  destruct (m s) as [[a | e | w] s']; cbn in *.
  - apply Hk.
  - discriminate.
  - exfalso. apply (Hm w). reflexivity.
Qed.

Lemma no_return_select {A : Type} (hs : list (handler A)) (e : exn) (h : M S A) :
  Forall (fun c => forall e, no_return (snd c e)) hs ->
  select hs e = Some h -> no_return h.
Proof.
  induction 1 as [| [matches body] rest Hc _ IH]; cbn; [discriminate |].
  destruct (matches e); [| exact IH].
  intros [= <-]. apply Hc.
Qed.

Lemma no_return_try_except {A : Type} (m : M S A) (hs : list (handler A)) :
  no_return m ->
  Forall (fun c => forall e, no_return (snd c e)) hs ->
  no_return (try_except m hs).
Proof.
  intros Hm Hh s v. unfold try_except. specialize (Hm s).
  destruct (m s) as [[a | e | w] s']; cbn in *.
  - discriminate.
  - destruct (select hs e) as [h |] eqn:E; [| discriminate].
    apply (no_return_select hs e h Hh E).
  - exfalso. apply (Hm w). reflexivity.
Qed.

Lemma no_return_try_finally {A : Type} (m : M S A) (fin : M S unit) :
  no_return m -> no_return fin -> no_return (try_finally m fin).
Proof.
  intros Hm Hf s v. unfold try_finally. specialize (Hm s).
  destruct (m s) as [r s']. specialize (Hf s'). cbn in *.
  destruct (fin s') as [[a | e | w] s'']; cbn in *.
  - apply Hm.
  - discriminate.
  - exfalso. apply (Hf w). reflexivity.
Qed.

Lemma no_return_if {A : Type} (b : bool) (m1 m2 : M S A) :
  no_return m1 -> no_return m2 -> no_return (if b then m1 else m2).
Proof. destruct b; auto. Qed.

End NoReturn.

(** A relation between the state a block starts in and the state it
    ends in, however it ends. *)
Definition steps {S A : Type} (R : S -> S -> Prop) (m : M S A) : Prop :=
  forall s, R s (snd (m s)).

Section Steps.
Context {S : Type} (R : S -> S -> Prop).
Hypothesis R_refl : forall s, R s s.
Hypothesis R_trans : forall s1 s2 s3, R s1 s2 -> R s2 s3 -> R s1 s3.

Lemma steps_ret {A : Type} (a : A) : steps R (ret a).
Proof. intros s. apply R_refl. Qed.

Lemma steps_raise {A : Type} (e : exn) : steps R (@raise S A e).
Proof. intros s. apply R_refl. Qed.

Lemma steps_return {A : Type} (v : value) : steps R (@return_ S A v).
Proof. intros s. apply R_refl. Qed.

Lemma steps_gets {A : Type} (g : S -> A) : steps R (gets g).
Proof. intros s. apply R_refl. Qed.

Lemma steps_lift {A : Type} (x : exn + A) : steps R (lift x).
Proof. intros s. destruct x; apply R_refl. Qed.

Lemma steps_modify (g : S -> S) : (forall s, R s (g s)) -> steps R (modify g).
Proof. intros H s. apply H. Qed.

Lemma steps_bind {A B : Type} (m : M S A) (k : A -> M S B) :
  steps R m -> (forall a, steps R (k a)) -> steps R (bind m k).
Proof.
  intros Hm Hk s. unfold bind. specialize (Hm s).
  destruct (m s) as [[a | e | v] s']; cbn in *; try assumption.
  apply (R_trans _ _ _ Hm), Hk.
Qed.

Lemma steps_select {A : Type} (hs : list (handler A)) (e : exn) (h : M S A) :
  Forall (fun c => forall e, steps R (snd c e)) hs ->
  select hs e = Some h -> steps R h.
Proof.
  induction 1 as [| [matches body] rest Hc _ IH]; cbn; [discriminate |].
  destruct (matches e); [| exact IH].
  intros [= <-]. apply Hc.
Qed.

Lemma steps_try_except {A : Type} (m : M S A) (hs : list (handler A)) :
  steps R m ->
  Forall (fun c => forall e, steps R (snd c e)) hs ->
  steps R (try_except m hs).
Proof.
  intros Hm Hh s. unfold try_except. specialize (Hm s).
  destruct (m s) as [[a | e | v] s']; cbn in *; try assumption.
  destruct (select hs e) as [h |] eqn:E; cbn; [| assumption].
  apply (R_trans _ _ _ Hm), (steps_select hs e h Hh E).
Qed.

Lemma steps_if {A : Type} (b : bool) (m1 m2 : M S A) :
  steps R m1 -> steps R m2 -> steps R (if b then m1 else m2).
Proof. destruct b; auto. Qed.

End Steps.

End EffFacts.

(* ================================================================== *)
(** ** Facts about traces                                              *)
(* ================================================================== *)

Module HostFacts.
Import Py Host.

Lemma posts_app (tr1 tr2 : list event) :
  posts (tr1 ++ tr2) = (posts tr1 ++ posts tr2)%list.
Proof.
  induction tr1 as [| ev tr1 IH]; cbn; [reflexivity |].
  destruct ev; cbn; rewrite IH; reflexivity.
Qed.

Lemma closes_app (tr1 tr2 : list event) :
  closes (tr1 ++ tr2) = closes tr1 + closes tr2.
Proof.
  induction tr1 as [| ev tr1 IH]; cbn; [reflexivity |].
  destruct ev; cbn; rewrite IH; reflexivity.
Qed.

Lemma reads_app (tr1 tr2 : list event) :
  reads (tr1 ++ tr2) = reads tr1 + reads tr2.
Proof.
  induction tr1 as [| ev tr1 IH]; cbn; [reflexivity |].
  destruct ev; cbn; rewrite IH; reflexivity.
Qed.

Lemma emitted_app (tr1 tr2 : list event) :
  emitted (tr1 ++ tr2) = (emitted tr1 ++ emitted tr2)%list.
Proof.
  induction tr1 as [| ev tr1 IH]; cbn; [reflexivity |].
  destruct ev; cbn; rewrite IH; reflexivity.
Qed.

End HostFacts.

(* ================================================================== *)
(** ** Facts about dictionaries and subscripts                         *)
(* ================================================================== *)

Module PyFacts.
Import Py Host.

Lemma lookup_assign_same k v d : lookup k (assign k v d) = Some v.
Proof.
  induction d as [| [k' v'] rest IH]; cbn.
  - rewrite String.eqb_refl. reflexivity.
  - destruct (String.eqb k k') eqn:E; cbn; rewrite E; [reflexivity | exact IH].
Qed.

Lemma lookup_assign_other k k' v d :
  k <> k' -> lookup k (assign k' v d) = lookup k d.
Proof.
  intros N. induction d as [| [k'' v''] rest IH]; cbn.
  - destruct (String.eqb_spec k k'); [contradiction | reflexivity].
  - destruct (String.eqb_spec k' k'') as [-> | N']; cbn.
    + destruct (String.eqb_spec k k''); [contradiction | reflexivity].
    + destruct (String.eqb k k''); [reflexivity | exact IH].
Qed.

(** [x[-1]] of a non-empty list is its last item. *)
Lemma subscript_last_snoc l m : subscript_last (VList (l ++ [m])) = inr m.
Proof. unfold subscript_last. rewrite rev_unit. reflexivity. Qed.

Lemma truthy_snoc l (m : value) : truthy (VList (l ++ [m])) = true.
Proof. destruct l; reflexivity. Qed.

End PyFacts.

(* ================================================================== *)
(** ** Facts about the Flowise adapter                                 *)
(* ================================================================== *)

Module FlowiseFacts.
Import Py Eff Eff.Notations Host EffFacts HostFacts PyFacts Flowise.

Section Facts.
Variable json_loads : string -> option value.
Variable py_repr : value -> string.
Variable valves : Valves.
Variable em : option emitter.
Variable endpoint : Host.endpoint.

Local Notation emit_status := (Flowise.emit_status valves em).
Local Notation try_block := (Flowise.try_block json_loads py_repr valves em endpoint).
Local Notation finish := (Flowise.finish valves em).
Local Notation pipe_body := (Flowise.pipe_body json_loads py_repr valves em endpoint).
Local Notation pipe := (Flowise.pipe json_loads py_repr valves em endpoint).

(** The state [emit_status] leaves behind. *)
Definition after_emit (level message : string) (done chunk : bool) (content : value)
  (s : state) : state :=
  snd (emit_status level message done chunk content s).

(** [emit_status] swallows whatever the emitter raises: it always falls
    through. *)
Lemma emit_status_eq level message done chunk content s :
  emit_status level message done chunk content s
  = (Val tt, after_emit level message done chunk content s).
Proof.
  unfold after_emit, Flowise.emit_status.
  destruct em as [e |]; [| reflexivity].
  destruct (enable_status_indicator valves); [| reflexivity].
  unfold try_finally, try_except, call_emitter, sleep, modify.
  destruct (on_call e (trace s) _); reflexivity.
Qed.

Lemma bind_emit {B : Type} level message done chunk content
  (k : unit -> M state B) s :
  bind (emit_status level message done chunk content) k s
  = k tt (after_emit level message done chunk content s).
Proof. apply bind_val, emit_status_eq. Qed.

(** It touches the trace only, and there neither posts nor closes. *)
Lemma after_emit_spec level message done chunk content s :
  let s' := after_emit level message done chunk content s in
  body s' = body s /\ full_response_content s' = full_response_content s
  /\ last_error_message s' = last_error_message s /\ response s' = response s
  /\ chunk_count s' = chunk_count s
  /\ posts (trace s') = posts (trace s)
  /\ closes (trace s') = closes (trace s).
Proof.
  unfold after_emit, Flowise.emit_status.
  destruct em as [e |]; [| cbn; tauto].
  destruct (enable_status_indicator valves); [| cbn; tauto].
  unfold try_finally, try_except, call_emitter, sleep, modify.
  destruct (on_call e (trace s) _); cbn;
    rewrite <- !app_assoc, ?posts_app, ?closes_app; cbn;
    rewrite ?app_nil_r, ?Nat.add_0_r; tauto.
Qed.

Lemma body_after_emit l m d c x s : body (after_emit l m d c x s) = body s.
Proof. apply after_emit_spec. Qed.
Lemma content_after_emit l m d c x s :
  full_response_content (after_emit l m d c x s) = full_response_content s.
Proof. apply after_emit_spec. Qed.
Lemma error_after_emit l m d c x s :
  last_error_message (after_emit l m d c x s) = last_error_message s.
Proof. apply after_emit_spec. Qed.
Lemma response_after_emit l m d c x s : response (after_emit l m d c x s) = response s.
Proof. apply after_emit_spec. Qed.
Lemma chunks_after_emit l m d c x s :
  chunk_count (after_emit l m d c x s) = chunk_count s.
Proof. apply after_emit_spec. Qed.
Lemma posts_after_emit l m d c x s :
  posts (trace (after_emit l m d c x s)) = posts (trace s).
Proof. apply after_emit_spec. Qed.
Lemma closes_after_emit l m d c x s :
  closes (trace (after_emit l m d c x s)) = closes (trace s).
Proof. apply after_emit_spec. Qed.
Lemma reads_after_emit l m d c x s :
  reads (trace (after_emit l m d c x s)) = reads (trace s).
Proof.
  unfold after_emit, Flowise.emit_status.
  destruct em as [e |]; [| reflexivity].
  destruct (enable_status_indicator valves); [| reflexivity].
  unfold try_finally, try_except, call_emitter, sleep, modify.
  destruct (on_call e (trace s) _); cbn;
    rewrite <- !app_assoc, reads_app; cbn; apply Nat.add_0_r.
Qed.

(** *** Blocks that send nothing *)

Definition sent (s : state) : list request := posts (trace s).

Lemma sent_record_other ev s :
  is_post ev = false -> sent (record ev s) = sent s.
Proof.
  intros H. unfold sent. cbn. rewrite posts_app.
  destruct ev; try discriminate; cbn; apply app_nil_r.
Qed.

Lemma emit_sends_nothing l m d c x : preserves sent (emit_status l m d c x).
Proof. intros s. apply posts_after_emit. Qed.

Lemma emit_keeps_body l m d c x : preserves body (emit_status l m d c x).
Proof. intros s. apply body_after_emit. Qed.

(** Whatever [emit_status], the assignments to the locals, the reads of
    the response body and [response.close()] leave alone is left alone
    by every block of [pipe] that they make up. *)
Section Keeps.
Variable X : Type.
Variable f : state -> X.
Hypothesis f_emit : forall l m d c x, preserves f (emit_status l m d c x).
Hypothesis f_content : forall c s, f (set_full_response_content c s) = f s.
Hypothesis f_error : forall m s, f (set_last_error_message m s) = f s.
Hypothesis f_response : forall r s, f (set_response r s) = f s.
Hypothesis f_chunks : forall n s, f (set_chunk_count n s) = f s.
Hypothesis f_closed : forall s, f (record Closed s) = f s.
Hypothesis f_read : forall s, f (record BodyRead s) = f s.

Ltac keeps_f :=
  repeat first
    [ apply f_emit
    | apply preserves_ret
    | apply preserves_raise
    | apply preserves_return
    | apply preserves_gets
    | apply preserves_lift
    | apply preserves_modify; intros ?;
      first [apply f_content | apply f_error | apply f_response
            | apply f_chunks | apply f_closed | apply f_read]
    | apply preserves_bind; [| intros ?]
    | apply preserves_try_finally
    | apply preserves_try_except;
      [| repeat (apply Forall_cons; [intros ?; cbn [snd] |]); try apply Forall_nil]
    | apply preserves_if
    | match goal with
      | |- preserves _ (match ?x with _ => _ end) => destruct x
      end ].

Lemma close_if_open_keeps : preserves f close_if_open.
Proof. unfold close_if_open, close. keeps_f. Qed.

Lemma process_line_keeps line :
  preserves f (process_line json_loads py_repr valves em line).
Proof.
  unfold process_line, loads.
  destruct line as [decoded |]; [destruct decoded as [| c rest] |]; keeps_f.
Qed.

Lemma for_lines_keeps ls err :
  preserves f (for_lines json_loads py_repr valves em ls err).
Proof.
  induction ls as [| line rest IH]; cbn [for_lines].
  - keeps_f.
  - apply preserves_bind; [apply process_line_keeps |].
    intros stop. destruct stop; [keeps_f | exact IH].
Qed.

Lemma streaming_branch_keeps r :
  preserves f (streaming_branch json_loads py_repr valves em r).
Proof.
  unfold streaming_branch, with_response, response_json, read_body, close.
  keeps_f; first [apply for_lines_keeps | apply close_if_open_keeps].
Qed.

Lemma non_streaming_branch_keeps r :
  preserves f (non_streaming_branch json_loads py_repr valves em r).
Proof.
  unfold non_streaming_branch, with_response, response_json, read_body, close.
  keeps_f; apply close_if_open_keeps.
Qed.

Lemma handle_response_keeps r :
  preserves f (handle_response json_loads py_repr valves em r).
Proof.
  unfold handle_response, raise_for_status, read_body.
  keeps_f;
    first [apply for_lines_keeps | apply close_if_open_keeps
          | unfold response_json, read_body; keeps_f].
Qed.

Lemma outer_handlers_keep :
  Forall (fun c : handler unit => forall e, preserves f (snd c e))
    [(is_RequestException, on_request_exception valves em);
     (is_JSONDecodeError, on_json_decode_error valves em);
     (is_Exception, on_exception valves em)].
Proof.
  repeat (apply Forall_cons; [intros e; cbn [snd] |]); [| | | apply Forall_nil];
    unfold on_request_exception, on_json_decode_error, on_exception, read_body;
    keeps_f; apply close_if_open_keeps.
Qed.

End Keeps.

(** *** Nothing but [requests.post] sends a request *)

Lemma sent_set_content c s : sent (set_full_response_content c s) = sent s.
Proof. reflexivity. Qed.
Lemma sent_set_error m s : sent (set_last_error_message m s) = sent s.
Proof. reflexivity. Qed.
Lemma sent_set_response r s : sent (set_response r s) = sent s.
Proof. reflexivity. Qed.
Lemma sent_set_chunks n s : sent (set_chunk_count n s) = sent s.
Proof. reflexivity. Qed.
Lemma sent_closed s : sent (record Closed s) = sent s.
Proof. apply sent_record_other. reflexivity. Qed.
Lemma sent_read s : sent (record BodyRead s) = sent s.
Proof. apply sent_record_other. reflexivity. Qed.

Lemma handle_response_sends_nothing r :
  preserves sent (handle_response json_loads py_repr valves em r).
Proof.
  apply handle_response_keeps;
    auto using emit_sends_nothing, sent_set_content, sent_set_error,
      sent_set_response, sent_set_chunks, sent_closed, sent_read.
Qed.

Lemma handle_response_keeps_body r :
  preserves body (handle_response json_loads py_repr valves em r).
Proof.
  apply handle_response_keeps; auto using emit_keeps_body.
Qed.

Lemma finish_sends_nothing : preserves sent finish.
Proof.
  unfold Flowise.finish.
  apply preserves_bind; [apply preserves_gets | intros content].
  apply preserves_if.
  - apply preserves_bind; [apply preserves_gets | intros b].
    apply preserves_bind; [apply preserves_lift | intros b'].
    apply preserves_bind; [| intros ?; apply preserves_return].
    apply preserves_modify. reflexivity.
  - apply preserves_bind; [apply preserves_gets | intros err].
    apply preserves_bind; [apply emit_sends_nothing | intros ?].
    apply preserves_return.
Qed.

(** *** Running [pipe] up to the request *)

(** Symbolic execution of straight-line code. *)
Ltac run :=
  repeat (first
    [ rewrite bind_emit
    | rewrite bind_gets
    | rewrite bind_modify
    | rewrite bind_ret
    | rewrite bind_lift_inr
    | rewrite bind_lift_inl
    | rewrite bind_raise
    | rewrite bind_return ]; cbv beta).

(** [s'] differs from [s] by calls to the emitter and by
    [last_error_message] at most. *)
Definition quiet (s s' : state) : Prop :=
  body s' = body s
  /\ full_response_content s' = full_response_content s
  /\ response s' = response s
  /\ sent s' = sent s
  /\ closes (trace s') = closes (trace s).

Lemma quiet_refl s : quiet s s.
Proof. repeat split. Qed.

Lemma quiet_trans s1 s2 s3 : quiet s1 s2 -> quiet s2 s3 -> quiet s1 s3.
Proof. unfold quiet. intuition congruence. Qed.

Lemma quiet_emit l m d c x s : quiet s (after_emit l m d c x s).
Proof.
  pose proof (after_emit_spec l m d c x s) as H. cbn zeta in H.
  unfold quiet, sent. tauto.
Qed.

Lemma quiet_set_error m s : quiet s (set_last_error_message m s).
Proof. repeat split. Qed.

(** The user message [pipe] goes on to send for a body, if any: the
    checks of lines 146-164. *)
Definition question_of (b : value) : option value :=
  match b with
  | VDict d =>
      let messages := dict_get_default d "messages" (VList []) in
      if truthy messages then
        match subscript_last messages with
        | inr last =>
            match subscript_key last "content" with
            | inr user_message =>
                match slice_to 50 user_message with
                | inr _ => Some user_message
                | inl _ => None
                end
            | inl _ => None
            end
        | inl _ => None
        end
      else None
  | _ => None
  end.

(** Without a user message the [try] block ends before the request, by
    [return] of an error value or by an exception. *)
Lemma try_block_no_question s :
  question_of (body s) = None ->
  exists s', quiet s s' /\ last_error_message s' = last_error_message s
    /\ ((exists msg, try_block s = (Return (error_dict msg), s'))
        \/ (exists e, try_block s = (Raise e, s'))).
Proof.
  intros H. unfold Flowise.try_block. rewrite bind_gets.
  unfold question_of in H.
  destruct (body s) as [| | | | | | d];
    try (run; eexists; split; [apply quiet_emit |];
         split; [apply error_after_emit |]; left; eexists; reflexivity).
  cbn zeta in *.
  destruct (truthy (dict_get_default d "messages" (VList []))); cbn [negb].
  2:{ run. eexists. split; [apply quiet_emit |].
      split; [apply error_after_emit |]. left. eexists. reflexivity. }
  destruct (subscript_last _) as [e | last].
  { run. exists s. split; [apply quiet_refl |]. split; [reflexivity |].
    right. eexists. reflexivity. }
  run.
  destruct (subscript_key last "content") as [e | user_message].
  { run. exists s. split; [apply quiet_refl |]. split; [reflexivity |].
    right. eexists. reflexivity. }
  run.
  destruct (slice_to 50 user_message) as [e | shown]; [| discriminate].
  run. exists s. split; [apply quiet_refl |]. split; [reflexivity |].
  right. eexists. reflexivity.
Qed.

(** With one, the block emits three status lines and posts it. *)
Lemma try_block_question s user_message :
  question_of (body s) = Some user_message ->
  exists s', quiet s s' /\ last_error_message s' = last_error_message s
    /\ try_block s
       = bind (requests_post endpoint (post_request valves user_message))
              (handle_response json_loads py_repr valves em) s'.
Proof.
  intros H. unfold Flowise.try_block. rewrite bind_gets.
  unfold question_of in H.
  destruct (body s) as [| | | | | | d]; try discriminate.
  cbn zeta in *.
  destruct (truthy (dict_get_default d "messages" (VList []))); [| discriminate].
  cbn [negb].
  destruct (subscript_last _) as [e | last]; [discriminate |]. run.
  destruct (subscript_key last "content") as [e | um]; [discriminate |]. run.
  destruct (slice_to 50 um) as [e | shown]; [discriminate |].
  injection H as <-.
  run.
  eexists. split; [| split; [| reflexivity]].
  - eapply quiet_trans; [| apply quiet_emit].
    eapply quiet_trans; [| apply quiet_emit]. apply quiet_emit.
  - rewrite !error_after_emit. reflexivity.
Qed.

(** *** The end of the call *)

Definition outer_handlers : list (handler unit) :=
  [(is_RequestException, on_request_exception valves em);
   (is_JSONDecodeError, on_json_decode_error valves em);
   (is_Exception, on_exception valves em)].

Lemma pipe_body_eq s :
  pipe_body s
  = bind (try_except try_block outer_handlers) (fun _ => finish)
         (after_emit "info" "Flowise Pipe: Starting execution..." false false VNone s).
Proof. unfold Flowise.pipe_body. rewrite bind_emit. reflexivity. Qed.

(** What the three [except] clauses of the outer [try] share: set
    [last_error_message], emit it, close the response if there is one. *)
Lemma error_block_runs msg s :
  exists s',
    bind (modify (set_last_error_message msg))
         (fun _ => bind (emit_status "error" msg true false VNone)
                        (fun _ => close_if_open)) s
    = (Val tt, s')
    /\ body s' = body s
    /\ full_response_content s' = full_response_content s
    /\ response s' = response s
    /\ sent s' = sent s
    /\ last_error_message s' = Some msg
    /\ closes (trace s')
       = closes (trace s) + match response s with Some _ => 1 | None => 0 end.
Proof.
  run. unfold close_if_open. rewrite bind_gets, response_after_emit.
  change (response (set_last_error_message msg s)) with (response s).
  pose proof (after_emit_spec "error" msg true false VNone
                (set_last_error_message msg s)) as H.
  cbv zeta in H. destruct H as (Hb & Hc & He & Hr & _ & Hp & Hcl).
  change (body (set_last_error_message msg s)) with (body s) in Hb.
  change (full_response_content (set_last_error_message msg s))
    with (full_response_content s) in Hc.
  change (last_error_message (set_last_error_message msg s)) with (Some msg) in He.
  change (response (set_last_error_message msg s)) with (response s) in Hr.
  change (trace (set_last_error_message msg s)) with (trace s) in Hp, Hcl.
  destruct (response s) as [r |].
  - eexists. split; [reflexivity |].
    unfold sent. change (trace (record Closed ?x)) with (trace x ++ [Closed])%list.
    change (body (record Closed ?x)) with (body x).
    change (full_response_content (record Closed ?x)) with (full_response_content x).
    change (response (record Closed ?x)) with (response x).
    change (last_error_message (record Closed ?x)) with (last_error_message x).
    rewrite posts_app, closes_app, Hb, Hc, He, Hr, Hp, Hcl.
    change (posts [Closed]) with (@nil request). change (closes [Closed]) with 1.
    rewrite app_nil_r. repeat split.
  - eexists. split; [reflexivity |].
    unfold sent. rewrite Hb, Hc, He, Hr, Hp, Hcl, Nat.add_0_r. repeat split.
Qed.

(** The clause for [json.JSONDecodeError] reads the body of the response
    first, when there is one whose status is accepted. *)
Lemma on_json_decode_error_runs e s :
  exists s',
    on_json_decode_error valves em e s = (Val tt, s')
    /\ body s' = body s
    /\ full_response_content s' = full_response_content s
    /\ response s' = response s
    /\ sent s' = sent s
    /\ last_error_message s'
       = Some ("JSON decoding error from Flowise: " ++ exn_str e
               ++ ". Raw response: "
               ++ take 200 match response s with
                           | Some r => if ok r then text r else "N/A"
                           | None => "N/A"
                           end ++ "...")
    /\ closes (trace s')
       = closes (trace s) + match response s with Some _ => 1 | None => 0 end.
Proof.
  set (s0 := match response s with
              | Some r => if ok r then record BodyRead s else s
              | None => s
              end).
  assert (H0 : body s0 = body s
               /\ full_response_content s0 = full_response_content s
               /\ response s0 = response s /\ sent s0 = sent s
               /\ closes (trace s0) = closes (trace s)).
  { unfold s0. destruct (response s) as [r |] eqn:R; [destruct (ok r) |];
      rewrite <- ?R; repeat split; try apply sent_read.
    change (trace (record BodyRead s)) with (trace s ++ [BodyRead])%list.
    rewrite closes_app. apply Nat.add_0_r. }
  destruct H0 as (B0 & C0 & R0 & S0 & Cl0).
  destruct (error_block_runs
              ("JSON decoding error from Flowise: " ++ exn_str e
               ++ ". Raw response: "
               ++ take 200 match response s with
                           | Some r => if ok r then text r else "N/A"
                           | None => "N/A"
                           end ++ "...") s0) as (s' & E & H).
  exists s'. split.
  - unfold on_json_decode_error. rewrite bind_gets. rewrite <- E. unfold s0.
    destruct (response s) as [r |]; [destruct (ok r) |];
      unfold read_body; run; reflexivity.
  - rewrite B0, C0, R0, S0, Cl0 in H. exact H.
Qed.

(** Each [except] clause of the outer [try] falls through, having set
    [last_error_message] and closed the response if there is one. *)
Lemma outer_handler_runs e s :
  exists h s' msg,
    select outer_handlers e = Some h /\ h s = (Val tt, s')
    /\ body s' = body s
    /\ full_response_content s' = full_response_content s
    /\ response s' = response s
    /\ sent s' = sent s
    /\ last_error_message s' = Some msg
    /\ closes (trace s')
       = closes (trace s) + match response s with Some _ => 1 | None => 0 end.
Proof.
  unfold outer_handlers. cbn [select].
  destruct (is_RequestException e);
    [| destruct (is_JSONDecodeError e); [| unfold is_Exception]].
  - destruct (error_block_runs
                ("Network or Request error to Flowise: " ++ exn_name e ++ " - "
                 ++ exn_str e ++ ". Check URL/connectivity.") s) as (s' & E & H).
    exists (on_request_exception valves em e), s'. eexists.
    split; [reflexivity |]. split; [exact E | exact H].
  - destruct (on_json_decode_error_runs e s) as (s' & E & H).
    exists (on_json_decode_error valves em e), s'. eexists.
    split; [reflexivity |]. split; [exact E | exact H].
  - destruct (error_block_runs
                ("An unexpected error occurred: " ++ exn_name e ++ " - "
                 ++ exn_str e ++ ". Check pipe code/Flowise.") s) as (s' & E & H).
    exists (on_exception valves em e), s'. eexists.
    split; [reflexivity |]. split; [exact E | exact H].
Qed.

Definition unknown_error : string :=
  "Unknown error: No content received and no specific error reported. Check Flowise logs.".

(** Lines 466-478: without content the call returns an error value and
    leaves the body alone. *)
Lemma finish_empty s :
  truthy (full_response_content s) = false ->
  exists msg s',
    finish s = (Return (error_dict msg), s') /\ quiet s s'
    /\ msg = match last_error_message s with
             | Some m => if negb (String.eqb m "") then m else unknown_error
             | None => unknown_error
             end.
Proof.
  intros H. unfold Flowise.finish. rewrite bind_gets, H. run.
  eexists. eexists. split; [reflexivity |]. split; [apply quiet_emit |].
  reflexivity.
Qed.

(** Lines 461-465: with content the call appends it to the body and
    returns it. *)
Lemma finish_content s b' :
  truthy (full_response_content s) = true ->
  setdefault_append (body s) (assistant_message (full_response_content s)) = inr b' ->
  finish s = (Return (full_response_content s), set_body b' s).
Proof.
  intros H E. unfold Flowise.finish. rewrite bind_gets, H. run. rewrite E. run.
  reflexivity.
Qed.

Definition run_of (p : res unit * state) : run :=
  mkRun (match fst p with
         | Val _ => Returned VNone
         | Return v => Returned v
         | Raise e => Raised e
         end)
        (body (snd p)) (trace (snd p)).

Lemma pipe_eq body0 : pipe body0 = run_of (pipe_body (initial body0)).
Proof. unfold Flowise.pipe, run_of. destruct (pipe_body _). reflexivity. Qed.

(** A call that finds no user message returns an error value without
    sending anything, and leaves the body alone. *)
Lemma pipe_no_question body0 :
  question_of body0 = None ->
  (exists msg, result (pipe body0) = Returned (error_dict msg))
  /\ final_body (pipe body0) = body0
  /\ posts (events (pipe body0)) = []
  /\ closes (events (pipe body0)) = 0.
Proof.
  intros H. rewrite pipe_eq, pipe_body_eq.
  set (s1 := after_emit _ _ _ _ _ _).
  assert (Q1 : quiet (initial body0) s1) by apply quiet_emit.
  destruct (try_block_no_question s1) as (s2 & Q2 & _ & [(msg & E) | (e & E)]).
  { destruct Q1 as (-> & _). exact H. }
  - rewrite (bind_returned _ _ _ _ _ (try_except_returned _ _ _ _ _ E)).
    pose proof (quiet_trans _ _ _ Q1 Q2) as (Hb & _ & _ & Hs & Hc).
    unfold run_of; cbn [fst snd result final_body events].
    split; [eexists; reflexivity |]. auto.
    
  - destruct (outer_handler_runs e s2)
      as (h & s3 & m & Hsel & Hh & Hb3 & Hc3 & Hr3 & Hs3 & _ & Hcl3).
    pose proof (quiet_trans _ _ _ Q1 Q2) as (Hb & Hcont & Hresp & Hs & Hc).
    destruct (finish_empty s3) as (msg & s4 & Hfin & (Hb4 & _ & _ & Hs4 & Hc4) & _).
    { rewrite Hc3, Hcont. reflexivity. }
    assert (E' : bind (try_except try_block outer_handlers) (fun _ => finish) s1
                 = (Return (error_dict msg), s4)).
    { unfold bind. rewrite (try_except_raised _ _ _ _ _ E), Hsel, Hh. exact Hfin. }
    rewrite E'. unfold run_of; cbn [fst snd result final_body events].
    split; [eexists; reflexivity |].
    unfold sent in *. rewrite Hresp in Hcl3. cbn in Hcl3.
    rewrite Nat.add_0_r in Hcl3. cbn in Hb, Hs, Hc.
    split; [congruence |]. split; congruence.
Qed.

(** *** The request and what follows it *)

(** The state in which the response is handled. *)
Definition posted (body0 user_message : value) (s : state) : Prop :=
  body s = body0
  /\ full_response_content s = VStr ""
  /\ last_error_message s = None
  /\ response s = None
  /\ sent s = [post_request valves user_message]
  /\ closes (trace s) = 0.

(** A call that finds a user message posts it; when the endpoint
    answers, the rest of the call is the handling of the response. *)
Lemma pipe_question body0 user_message :
  question_of body0 = Some user_message ->
  match endpoint (post_request valves user_message) with
  | inl e =>
      (exists msg, result (pipe body0) = Returned (error_dict msg))
      /\ final_body (pipe body0) = body0
      /\ posts (events (pipe body0)) = [post_request valves user_message]
      /\ closes (events (pipe body0)) = 0
  | inr r =>
      exists s,
        posted body0 user_message s
        /\ pipe_body (initial body0)
           = bind (try_except (handle_response json_loads py_repr valves em r)
                              outer_handlers)
                  (fun _ => finish) s
  end.
Proof.
  intros H. rewrite pipe_eq, pipe_body_eq.
  set (s1 := after_emit _ _ _ _ _ _).
  assert (Q1 : quiet (initial body0) s1) by apply quiet_emit.
  assert (He1 : last_error_message s1 = None) by apply error_after_emit.
  destruct (try_block_question s1 user_message) as (s2 & Q2 & He2 & E).
  { destruct Q1 as (-> & _). exact H. }
  pose proof (quiet_trans _ _ _ Q1 Q2) as (Hb & Hcont & Hresp & Hs & Hc).
  unfold sent in Hs. cbn in Hb, Hcont, Hresp, Hs, Hc.
  set (req := post_request valves user_message) in *.
  destruct (endpoint req) as [e | r] eqn:Ep.
  - assert (Er : try_block s1 = (Raise e, record (Posted req) s2)).
    { rewrite E. unfold bind, requests_post. rewrite Ep. reflexivity. }
    destruct (outer_handler_runs e (record (Posted req) s2))
      as (h & s3 & m & Hsel & Hh & Hb3 & Hc3 & Hr3 & Hs3 & _ & Hcl3).
    destruct (finish_empty s3) as (msg & s4 & Hfin & (Hb4 & _ & _ & Hs4 & Hc4) & _).
    { rewrite Hc3. cbn. rewrite Hcont. reflexivity. }
    assert (E' : bind (try_except try_block outer_handlers) (fun _ => finish) s1
                 = (Return (error_dict msg), s4)).
    { unfold bind. rewrite (try_except_raised _ _ _ _ _ Er), Hsel, Hh. exact Hfin. }
    rewrite E'. unfold run_of; cbn [fst snd result final_body events].
    split; [eexists; reflexivity |].
    unfold sent in *. cbn in Hb3, Hs3, Hcl3.
    rewrite Hresp, Nat.add_0_r, closes_app, Hc in Hcl3. cbn in Hcl3.
    rewrite posts_app, Hs in Hs3. cbn in Hs3.
    split; [congruence |]. split; congruence.
  - exists (record (Posted req) s2). split.
    + unfold posted, sent. cbn. rewrite posts_app, closes_app, Hs, Hc.
      cbn. rewrite He2, He1. repeat split; assumption.
    + assert (Et : try_except try_block outer_handlers s1
                   = try_except (handle_response json_loads py_repr valves em r)
                                outer_handlers (record (Posted req) s2)).
      { unfold try_except. rewrite E. unfold bind, requests_post.
        rewrite Ep. reflexivity. }
      unfold bind. rewrite Et. reflexivity.
Qed.

(** Whatever the endpoint does, that request is the only one. *)
Lemma pipe_sends_once body0 user_message :
  question_of body0 = Some user_message ->
  posts (events (pipe body0)) = [post_request valves user_message].
Proof.
  intros H. pose proof (pipe_question body0 user_message H) as P.
  destruct (endpoint _) as [e | r]; [apply P |].
  destruct P as (s & (_ & _ & _ & _ & Hs & _) & E).
  rewrite pipe_eq, E. unfold run_of; cbn [events snd].
  change (sent (snd (bind (try_except (handle_response json_loads py_repr valves em r)
                            outer_handlers) (fun _ => finish) s))
          = [post_request valves user_message]).
  rewrite <- Hs. clear E Hs.
  apply (preserves_bind sent).
  - apply preserves_try_except; [apply handle_response_sends_nothing |].
    apply outer_handlers_keep;
      auto using emit_sends_nothing, sent_set_content, sent_set_error,
        sent_set_response, sent_set_chunks, sent_closed, sent_read.
  - intros _. apply finish_sends_nothing.
Qed.

(** A call sends at most one request, and only with a user message. *)
Lemma pipe_posts body0 :
  posts (events (pipe body0))
  = match question_of body0 with
    | Some user_message => [post_request valves user_message]
    | None => []
    end.
Proof.
  destruct (question_of body0) as [um |] eqn:Q.
  - apply pipe_sends_once, Q.
  - apply pipe_no_question, Q.
Qed.

(** Lines 232-248: on an error status the handler reads the body of the
    response for its message and the call returns at once, with the
    conversation body as it was and without a call of [close()]. *)
Lemma handle_response_error_eq r s :
  ok r = false ->
  handle_response json_loads py_repr valves em r s
  = (Return (error_dict (http_error_message r)),
     after_emit "error" (http_error_message r) true false VNone
       (set_last_error_message (http_error_message r)
          (record BodyRead
             (after_emit "info"
                ("Request complete. HTTP Status: " ++ str_of_Z (status_code r) ++ ".")
                false false VNone (set_response r s))))).
Proof.
  intros H. unfold handle_response. run.
  set (s1 := after_emit _ _ _ _ _ (set_response r s)).
  match goal with
  | |- bind ?m ?k ?s0 = (?res, ?s') => assert (Et : m s0 = (res, s'))
  end.
  { unfold try_except, raise_for_status, status_error. rewrite H.
    rewrite bind_raise. cbn [select is_HTTPError exn_cls fst snd].
    unfold read_body. run. reflexivity. }
  apply (bind_returned _ _ _ _ _ Et).
Qed.

Lemma handle_response_error r s :
  ok r = false ->
  exists s',
    handle_response json_loads py_repr valves em r s
    = (Return (error_dict (http_error_message r)), s')
    /\ body s' = body s /\ sent s' = sent s
    /\ closes (trace s') = closes (trace s).
Proof.
  intros H. rewrite (handle_response_error_eq r s H).
  eexists. split; [reflexivity |].
  unfold sent.
  rewrite !body_after_emit, !posts_after_emit, !closes_after_emit.
  cbn [body trace set_last_error_message record].
  rewrite posts_app, closes_app.
  rewrite !body_after_emit, !posts_after_emit, !closes_after_emit.
  cbn. rewrite app_nil_r, Nat.add_0_r. auto.
Qed.

(** The read of line 239 is recorded. *)
Lemma handle_response_error_reads r s :
  ok r = false ->
  reads (trace (snd (handle_response json_loads py_repr valves em r s)))
  = S (reads (trace s)).
Proof.
  intros H. rewrite (handle_response_error_eq r s H). cbn [snd].
  rewrite reads_after_emit.
  cbn [trace set_last_error_message record].
  rewrite reads_app, reads_after_emit. cbn. lia.
Qed.


(** On an error status the body of the response has been read to its
    end when the call returns. *)
Lemma pipe_error_reads body0 user_message r :
  question_of body0 = Some user_message ->
  endpoint (post_request valves user_message) = inr r ->
  ok r = false ->
  1 <= reads (events (pipe body0)).
Proof.
  intros H Ep Hok. pose proof (pipe_question body0 user_message H) as P.
  rewrite Ep in P. destruct P as (s & _ & E).
  pose proof (handle_response_error_reads r s Hok) as Hr.
  destruct (handle_response_error r s Hok) as (s' & Eh & _).
  rewrite Eh in Hr. cbn [snd] in Hr.
  rewrite pipe_eq, E.
  rewrite (bind_returned _ _ _ _ _ (try_except_returned _ _ _ _ _ Eh)).
  unfold run_of; cbn [fst snd result final_body events].
  rewrite Hr. lia.
Qed.

(** *** A response with a success status *)

Lemma handle_response_ok r s :
  ok r = true ->
  handle_response json_loads py_repr valves em r s
  = (if enable_streaming valves
     then streaming_branch json_loads py_repr valves em r
     else non_streaming_branch json_loads py_repr valves em r)
      (after_emit "info" "HTTP Status OK (2xx)." false false VNone
         (after_emit "info"
            ("Request complete. HTTP Status: " ++ str_of_Z (status_code r) ++ ".")
            false false VNone (set_response r s))).
Proof.
  intros H. unfold handle_response. run.
  set (s1 := after_emit _ _ _ _ _ (set_response r s)).
  match goal with
  | |- bind ?m ?k ?s = _ =>
      assert (Et : m s = (Val tt, after_emit "info" "HTTP Status OK (2xx)."
                                    false false VNone s))
  end.
  { apply try_except_val.
    unfold raise_for_status, status_error. rewrite H. run. apply emit_status_eq. }
  rewrite (bind_val _ _ _ _ _ Et). reflexivity.
Qed.

(** *** The lines of an event stream, lines 295-355 *)

Local Notation process_line := (Flowise.process_line json_loads py_repr valves em).
Local Notation for_lines := (Flowise.for_lines json_loads py_repr valves em).

(** A blank line is skipped. *)
Lemma process_line_blank s : process_line (LineText "") s = (Val false, s).
Proof. reflexivity. Qed.

(** A line that does not start with [data:] is skipped. *)
Lemma process_line_other decoded s :
  String.prefix "data:" decoded = false ->
  process_line (LineText decoded) s = (Val false, s).
Proof.
  intros H. unfold Flowise.process_line.
  destruct decoded as [| c rest]; [reflexivity |]. rewrite H. reflexivity.
Qed.

(** A [data:] line whose payload is not JSON is skipped. *)
Lemma process_line_not_json decoded s :
  String.prefix "data:" decoded = true ->
  json_loads (strip (drop 5 decoded)) = None ->
  process_line (LineText decoded) s = (Val false, s).
Proof.
  intros H J. unfold Flowise.process_line.
  destruct decoded as [| c rest]; [reflexivity |]. rewrite H.
  unfold try_except, loads. cbn [String.length]. rewrite J, bind_raise.
  reflexivity.
Qed.

(** A token event with a string payload is appended to the content,
    forwarded as a chunk and counted. *)
Lemma process_line_token decoded ev token s :
  String.prefix "data:" decoded = true ->
  json_loads (strip (drop 5 decoded)) = Some (VDict ev) ->
  dict_get ev "event" = VStr "token" ->
  dict_get ev "data" = VStr token ->
  process_line (LineText decoded) s
  = (Val false,
     set_chunk_count
       (chunk_count s + 1)
       (after_emit "info" "" false true (VStr token)
          (set_full_response_content
             (VStr (str py_repr (full_response_content s) ++ token)) s))).
Proof.
  intros H J Ev Da. unfold Flowise.process_line.
  destruct decoded as [| c rest]; [discriminate |]. rewrite H.
  apply try_except_val.
  unfold loads. cbn [String.length]. rewrite J. run.
  unfold method_get. run. rewrite Ev, Da.
  cbn [eq_str is_str]. change ("token" =? "token") with true.
  cbn [andb]. cbv iota.
  rewrite bind_assoc. run. rewrite bind_assoc. run. rewrite bind_assoc. run.
  rewrite chunks_after_emit. reflexivity.
Qed.

(** An end event stops the loop; it is not counted. *)
Lemma process_line_end decoded ev s :
  String.prefix "data:" decoded = true ->
  json_loads (strip (drop 5 decoded)) = Some (VDict ev) ->
  dict_get ev "event" = VStr "end" ->
  process_line (LineText decoded) s = (Val true, s).
Proof.
  intros H J Ev. unfold Flowise.process_line.
  destruct decoded as [| c rest]; [discriminate |]. rewrite H.
  apply try_except_val.
  unfold loads. cbn [String.length]. rewrite J. run.
  unfold method_get. run. rewrite Ev.
  cbn [eq_str]. change ("end" =? "token") with false.
  change ("end" =? "end") with true. cbn [andb]. cbv iota.
  run. reflexivity.
Qed.

Lemma for_lines_cons line rest err s :
  for_lines (line :: rest) err s
  = match process_line line s with
    | (Val true, s') => (Val tt, s')
    | (Val false, s') => for_lines rest err s'
    | (Raise e, s') => (Raise e, s')
    | (Return v, s') => (Return v, s')
    end.
Proof.
  cbn [Flowise.for_lines]. unfold bind.
  destruct (process_line line s) as [[[|] | e | v] s']; reflexivity.
Qed.

(** Lines 292-378: when the loop over the lines ends normally, the
    branch falls through with the content the loop accumulated, and the
    response has been closed (by [with] and again by [finally]). *)
Lemma streaming_branch_stream r s ct s' :
  content_type r = Some ct ->
  contains "text/event-stream" ct = true ->
  response s = Some r ->
  for_lines (lines r) (iter_error r)
    (set_chunk_count 0
       (after_emit "info" "Processing streaming response (manual SSE parsing)..."
          false false VNone s))
  = (Val tt, s') ->
  exists s'',
    streaming_branch json_loads py_repr valves em r s = (Val tt, s'')
    /\ full_response_content s'' = full_response_content s'
    /\ body s'' = body s'
    /\ last_error_message s'' = last_error_message s'
    /\ sent s'' = sent s'
    /\ closes (trace s'') = closes (trace s') + 2.
Proof.
  intros Hct Hin Hr Hfor. unfold streaming_branch. rewrite bind_emit.
  set (s1 := after_emit _ _ _ _ _ s) in *.
  assert (Hr' : response s' = Some r).
  { rewrite <- Hr.
    change (response s) with (response (set_chunk_count 0 s)).
    replace (response (set_chunk_count 0 s))
      with (response (set_chunk_count 0 s1))
      by (cbn; apply response_after_emit).
    replace s' with (snd (for_lines (lines r) (iter_error r) (set_chunk_count 0 s1)))
      by (rewrite Hfor; reflexivity).
    apply for_lines_keeps; auto using response_after_emit.
    intros; intros ?; apply response_after_emit. }
  rewrite Hct, Hin. cbn [negb].
  set (s2 := after_emit "info"
               ("Streaming complete. Processed "
                ++ str_of_nat (chunk_count (record Closed s')) ++ " data events.")
               true false VNone (record Closed s')).
  exists (record Closed s2).
  split.
  - unfold try_finally at 1.
    assert (Et : try_except
                   (bind (modify (set_chunk_count 0))
                      (fun _ =>
                         bind (with_response (for_lines (lines r) (iter_error r)))
                           (fun _ =>
                              bind (gets chunk_count)
                                (fun n =>
                                   emit_status "info"
                                     ("Streaming complete. Processed "
                                      ++ str_of_nat n ++ " data events.")
                                     true false VNone))))
                   [(is_Exception,
                     fun e : exn =>
                       emit_status "error"
                         ("SSE streaming failed: " ++ exn_name e ++ " - " ++ exn_str e)
                         true false VNone)] s1
                 = (Val tt, s2)).
    { apply try_except_val. run.
      assert (Ew : with_response (for_lines (lines r) (iter_error r))
                     (set_chunk_count 0 s1) = (Val tt, record Closed s')).
      { unfold with_response, try_finally. rewrite Hfor. reflexivity. }
      rewrite (bind_val _ _ _ _ _ Ew). run. apply emit_status_eq. }
    rewrite Et. unfold close_if_open, close. rewrite bind_gets.
    unfold s2. rewrite response_after_emit. cbn [response record]. rewrite Hr'.
    reflexivity.
  - unfold sent, s2. cbn [full_response_content body last_error_message trace record].
    rewrite content_after_emit, body_after_emit, error_after_emit.
    rewrite !posts_app, !closes_app, posts_after_emit, closes_after_emit.
    cbn [full_response_content body last_error_message trace record].
    rewrite !posts_app, !closes_app. cbn. rewrite !app_nil_r.
    repeat split. lia.
Qed.

(** *** A JSON object in place of a stream, lines 267-290 and 387-410 *)

Lemma non_streaming_branch_object r s d :
  json_loads (text r) = Some (VDict d) ->
  response s = Some r ->
  exists s',
    non_streaming_branch json_loads py_repr valves em r s = (Val tt, s')
    /\ full_response_content s'
       = first_of py_repr ["text"; "answer"; "response"; "output"] d
    /\ body s' = body s
    /\ last_error_message s' = last_error_message s
    /\ sent s' = sent s
    /\ closes (trace s') = closes (trace s) + 2.
Proof.
  intros J Hr. unfold non_streaming_branch. rewrite bind_emit.
  set (s1 := after_emit _ _ _ _ _ s).
  set (c := first_of py_repr ["text"; "answer"; "response"; "output"] d).
  set (s2 := after_emit "info" "Flowise response received (non-streaming)."
               true false VNone (set_full_response_content c (record BodyRead s1))).
  exists (record Closed (record Closed s2)). split.
  - unfold try_finally at 1.
    match goal with
    | |- (let (_, _) := try_except ?m ?hs s1 in _) = _ =>
        assert (Et : try_except m hs s1 = (Val tt, record Closed s2))
    end.
    { apply try_except_val.
      unfold with_response, try_finally, response_json, read_body.
      rewrite J, bind_assoc. run. fold c. rewrite emit_status_eq. reflexivity. }
    rewrite Et. unfold close_if_open, close. rewrite bind_gets.
    unfold s2, s1. cbn [response record].
    rewrite response_after_emit. cbn [response set_full_response_content record].
    rewrite response_after_emit, Hr. reflexivity.
  - unfold sent, s2, s1.
    cbn [full_response_content body last_error_message trace record].
    rewrite content_after_emit, body_after_emit, error_after_emit.
    rewrite !posts_app, !closes_app, posts_after_emit, closes_after_emit.
    cbn [full_response_content body last_error_message trace
           set_full_response_content record].
    rewrite posts_app, closes_app.
    rewrite body_after_emit, error_after_emit, posts_after_emit, closes_after_emit.
    cbn. rewrite !app_nil_r. repeat split; try lia.
Qed.

Lemma streaming_branch_object r s d :
  contains "text/event-stream"
    match content_type r with Some c => c | None => "" end = false ->
  json_loads (text r) = Some (VDict d) ->
  response s = Some r ->
  exists s',
    streaming_branch json_loads py_repr valves em r s = (Val tt, s')
    /\ full_response_content s' = first_of py_repr ["text"; "answer"; "response"] d
    /\ body s' = body s
    /\ last_error_message s' = last_error_message s
    /\ sent s' = sent s
    /\ closes (trace s') = closes (trace s) + 1.
Proof.
  intros Hct J Hr. unfold streaming_branch. rewrite bind_emit.
  set (s1 := after_emit _ _ _ _ _ s).
  set (c := first_of py_repr ["text"; "answer"; "response"] d).
  set (s2 := after_emit "info" "Received non-streaming response (fallback)."
               true false VNone (set_full_response_content c (record BodyRead s1))).
  exists (record Closed s2). split.
  - unfold try_finally at 1. rewrite Hct. cbn [negb].
    match goal with
    | |- (let (_, _) := try_except ?m ?hs s1 in _) = _ =>
        assert (Et : try_except m hs s1 = (Val tt, s2))
    end.
    { apply try_except_val. apply try_except_val. unfold response_json, read_body.
      rewrite J, bind_assoc. run. fold c. apply emit_status_eq. }
    rewrite Et. unfold close_if_open, close. rewrite bind_gets.
    unfold s2, s1.
    rewrite response_after_emit. cbn [response set_full_response_content record].
    rewrite response_after_emit, Hr. reflexivity.
  - unfold sent, s2, s1.
    cbn [full_response_content body last_error_message trace record].
    rewrite content_after_emit, body_after_emit, error_after_emit.
    rewrite !posts_app, !closes_app, posts_after_emit, closes_after_emit.
    cbn [full_response_content body last_error_message trace
           set_full_response_content record].
    rewrite posts_app, closes_app.
    rewrite body_after_emit, error_after_emit, posts_after_emit, closes_after_emit.
    cbn. rewrite !app_nil_r. repeat split; try lia.
Qed.

(** *** From the content to the result of the call *)

(** A body that yields a user message has a list under ["messages"]. *)
Lemma question_appendable body0 user_message msg :
  question_of body0 = Some user_message ->
  exists d l,
    body0 = VDict d /\ lookup "messages" d = Some (VList l)
    /\ setdefault_append body0 msg
       = inr (VDict (assign "messages" (VList (l ++ [msg])) d)).
Proof.
  unfold question_of. destruct body0 as [| | | | | | d]; try discriminate.
  cbn zeta. unfold dict_get_default, setdefault_append.
  destruct (lookup "messages" d) as [[| | | | s | l | d'] |] eqn:L;
    try discriminate.
  - destruct b; discriminate.
  - cbn [truthy]. destruct (negb (z =? 0)%Z); discriminate.
  - cbn [truthy]. destruct (negb (Qeq_bool q 0)); discriminate.
  - cbn [truthy subscript_last]. destruct (negb (s =? "")); [| discriminate].
    destruct (last_char s); discriminate.
  - intros _. exists d, l. auto.
  - cbn [truthy subscript_last]. destruct d'; discriminate.
Qed.

(** Once the response is handled without error, the content decides. *)
Lemma pipe_with_content body0 user_message r c :
  question_of body0 = Some user_message ->
  endpoint (post_request valves user_message) = inr r ->
  (forall s, posted body0 user_message s ->
     exists s',
       handle_response json_loads py_repr valves em r s = (Val tt, s')
       /\ full_response_content s' = c /\ body s' = body s
       /\ last_error_message s' = last_error_message s) ->
  if truthy c then
    result (pipe body0) = Returned c
    /\ setdefault_append body0 (assistant_message c) = inr (final_body (pipe body0))
  else
    result (pipe body0) = Returned (error_dict unknown_error)
    /\ final_body (pipe body0) = body0.
Proof.
  intros Q Ep Hh. pose proof (pipe_question body0 user_message Q) as P.
  rewrite Ep in P. destruct P as (s & Hs & E).
  destruct (Hh s Hs) as (s' & Eh & Hc & Hb & He).
  destruct Hs as (Hb0 & _ & He0 & _).
  rewrite pipe_eq, E.
  rewrite (bind_val _ _ _ _ _ (try_except_val _ _ _ _ _ Eh)).
  destruct (truthy c) eqn:T.
  - destruct (question_appendable body0 user_message (assistant_message c) Q)
      as (d & l & -> & _ & Ea).
    rewrite (finish_content s' (VDict (assign "messages"
                                         (VList (l ++ [assistant_message c])) d))).
    + unfold run_of; cbn [fst snd result final_body events body set_body].
      rewrite Hc. auto.
    + rewrite Hc. exact T.
    + rewrite Hc, Hb, Hb0. exact Ea.
  - destruct (finish_empty s') as (msg & s'' & -> & (Hb' & _) & ->).
    { rewrite Hc. exact T. }
    unfold run_of; cbn [fst snd result final_body events].
    rewrite He, He0, Hb', Hb, Hb0. auto.
Qed.

(** *** Only the HTTP error path returns from inside the [try] *)

Lemma emit_no_return l m d c x : no_return (emit_status l m d c x).
Proof. intros s v. rewrite emit_status_eq. discriminate. Qed.

Ltac falls :=
  repeat first
    [ apply emit_no_return
    | apply no_return_ret
    | apply no_return_raise
    | apply no_return_gets
    | apply no_return_lift
    | apply no_return_modify
    | apply no_return_bind; [| intros ?]
    | apply no_return_try_finally
    | apply no_return_try_except;
      [| repeat (apply Forall_cons; [intros ?; cbn [snd] |]); try apply Forall_nil]
    | apply no_return_if
    | match goal with
      | |- no_return (match ?x with _ => _ end) => destruct x
      end ].

Lemma process_line_no_return line : no_return (process_line line).
Proof.
  unfold Flowise.process_line, loads.
  destruct line as [decoded |]; [destruct decoded as [| c rest] |]; falls.
Qed.

Lemma for_lines_no_return ls err : no_return (for_lines ls err).
Proof.
  induction ls as [| line rest IH]; cbn [Flowise.for_lines].
  - falls.
  - apply no_return_bind; [apply process_line_no_return |].
    intros stop. destruct stop; [falls | exact IH].
Qed.

Lemma branches_no_return r :
  no_return (if enable_streaming valves
             then streaming_branch json_loads py_repr valves em r
             else non_streaming_branch json_loads py_repr valves em r).
Proof.
  apply no_return_if.
  - unfold streaming_branch, with_response, response_json, read_body,
      close_if_open, close.
    falls; apply for_lines_no_return.
  - unfold non_streaming_branch, with_response, response_json, read_body,
      close_if_open, close.
    falls.
Qed.

(** Inside the outer [try], the handling of a response falls through
    with the body untouched, or returns an error value on an error
    status. *)
Lemma handled_response r s :
  exists s',
    body s' = body s
    /\ (try_except (handle_response json_loads py_repr valves em r) outer_handlers s
        = (Val tt, s')
        \/ (ok r = false
            /\ try_except (handle_response json_loads py_repr valves em r)
                          outer_handlers s
               = (Return (error_dict (http_error_message r)), s'))).
Proof.
  destruct (ok r) eqn:Hok.
  - pose proof (handle_response_keeps_body r s) as Hb.
    pose proof (branches_no_return r) as Hn.
    rewrite (handle_response_ok r s Hok) in Hb.
    unfold try_except. rewrite (handle_response_ok r s Hok).
    set (s2 := after_emit _ _ _ _ _ (after_emit _ _ _ _ _ (set_response r s))) in *.
    specialize (Hn s2).
    destruct ((if enable_streaming valves
               then streaming_branch json_loads py_repr valves em r
               else non_streaming_branch json_loads py_repr valves em r) s2)
      as [[[] | e | v] s3]; cbn [fst snd] in *.
    + exists s3. split; [exact Hb | left; reflexivity].
    + destruct (outer_handler_runs e s3) as (h & s4 & m & -> & -> & Hb4 & _).
      exists s4. split; [congruence | left; reflexivity].
    + exfalso. apply (Hn v). reflexivity.
  - destruct (handle_response_error r s Hok) as (s' & E & Hb & _).
    exists s'. split; [exact Hb |]. right. split; [reflexivity |].
    apply try_except_returned, E.
Qed.

(** Every call returns, and in one of two ways: an error value with the
    body as it was, or a truthy content that has been appended to the
    body as one assistant message. *)
Lemma pipe_returns body0 :
  (exists msg, result (pipe body0) = Returned (error_dict msg)
               /\ final_body (pipe body0) = body0)
  \/ (exists content, truthy content = true
                      /\ result (pipe body0) = Returned content
                      /\ setdefault_append body0 (assistant_message content)
                         = inr (final_body (pipe body0))).
Proof.
  destruct (question_of body0) as [um |] eqn:Q.
  2:{ left. destruct (pipe_no_question body0 Q) as ((msg & Hr) & Hb & _).
      exists msg. auto. }
  pose proof (pipe_question body0 um Q) as P.
  destruct (endpoint (post_request valves um)) as [e | r].
  { left. destruct P as ((msg & Hr) & Hb & _). exists msg. auto. }
  destruct P as (s & (Hb0 & _) & E).
  destruct (handled_response r s) as (s' & Hb & [Ev | (_ & Er)]).
  - rewrite pipe_eq, E, (bind_val _ _ _ _ _ Ev).
    destruct (truthy (full_response_content s')) eqn:T.
    + right. exists (full_response_content s').
      destruct (question_appendable body0 um
                  (assistant_message (full_response_content s')) Q)
        as (d & l & -> & _ & Ea).
      rewrite (finish_content s' _ T) by (rewrite Hb, Hb0; exact Ea).
      unfold run_of; cbn [fst snd result final_body body set_body]. auto.
    + left. destruct (finish_empty s' T) as (msg & s'' & -> & (Hb' & _) & _).
      exists msg. unfold run_of; cbn [fst snd result final_body].
      split; [reflexivity | congruence].
  - left. rewrite pipe_eq, E, (bind_returned _ _ _ _ _ Er).
    eexists. unfold run_of; cbn [fst snd result final_body].
    split; [reflexivity | congruence].
Qed.

(** *** The user message is the content of the last message *)

Lemma question_of_last d l m :
  lookup "messages" d = Some (VList (l ++ [m])) ->
  question_of (VDict d)
  = match subscript_key m "content" with
    | inr user_message =>
        match slice_to 50 user_message with
        | inr _ => Some user_message
        | inl _ => None
        end
    | inl _ => None
    end.
Proof.
  intros L. unfold question_of, dict_get_default. rewrite L. cbv zeta.
  rewrite truthy_snoc, subscript_last_snoc. reflexivity.
Qed.

Lemma payload_question user_message :
  subscript_key (payload valves user_message) "question" = inr user_message.
Proof. unfold payload. destruct (enable_streaming valves); reflexivity. Qed.

(** The content taken from a JSON object in the words of Python's
    [or]: the first field whose value is truthy, else [str] of the
    object. *)
Fixpoint first_truthy (fields : list string) (d : list (string * value)) : value :=
  match fields with
  | [] => VStr (str py_repr (VDict d))
  | f :: rest =>
      match lookup f d with
      | Some v => if truthy v then v else first_truthy rest d
      | None => first_truthy rest d
      end
  end.

Lemma first_of_first_truthy fields d :
  first_of py_repr fields d = first_truthy fields d.
Proof.
  induction fields as [| f rest IH]; cbn; [reflexivity |].
  unfold py_or, dict_get. destruct (lookup f d) as [v |]; cbn; rewrite IH; reflexivity.
Qed.

(** *** The response is closed once its status has been accepted *)

Definition closed (s : state) : nat := closes (trace s).

(** A [finally] that closes the response has closed it, if the
    response is there afterwards. *)
Lemma try_finally_closes {A : Type} (m : M state A) s r :
  response (snd (try_finally m close_if_open s)) = Some r ->
  1 <= closed (snd (try_finally m close_if_open s)).
Proof.
  unfold try_finally. destruct (m s) as [res s1].
  unfold close_if_open, close. rewrite bind_gets.
  destruct (response s1) as [r1 |] eqn:R.
  - intros _. unfold closed. cbn. rewrite closes_app. cbn. lia.
  - cbn. rewrite R. discriminate.
Qed.

Lemma response_emit l m d c x : preserves response (emit_status l m d c x).
Proof. intros s. apply response_after_emit. Qed.

Lemma closed_emit l m d c x : preserves closed (emit_status l m d c x).
Proof. intros s. apply closes_after_emit. Qed.

Lemma branches_close r s :
  response s = Some r ->
  1 <= closed (snd ((if enable_streaming valves
                     then streaming_branch json_loads py_repr valves em r
                     else non_streaming_branch json_loads py_repr valves em r) s)).
Proof.
  intros R. destruct (enable_streaming valves).
  - pose proof (streaming_branch_keeps (option Response) response response_emit
                  (fun _ _ => eq_refl) (fun _ _ => eq_refl) (fun _ => eq_refl)
                  (fun _ => eq_refl) r s)
      as K.
    unfold streaming_branch in *. rewrite bind_emit in *.
    apply (try_finally_closes _ _ r). rewrite K. exact R.
  - pose proof (non_streaming_branch_keeps (option Response) response response_emit
                  (fun _ _ => eq_refl) (fun _ _ => eq_refl) (fun _ => eq_refl)
                  (fun _ => eq_refl) r s)
      as K.
    unfold non_streaming_branch in *. rewrite bind_emit in *.
    apply (try_finally_closes _ _ r). rewrite K. exact R.
Qed.

Lemma finish_keeps_closed : preserves closed finish.
Proof.
  unfold Flowise.finish.
  apply preserves_bind; [apply preserves_gets | intros content].
  apply preserves_if.
  - apply preserves_bind; [apply preserves_gets | intros b].
    apply preserves_bind; [apply preserves_lift | intros b'].
    apply preserves_bind; [| intros ?; apply preserves_return].
    apply preserves_modify. reflexivity.
  - apply preserves_bind; [apply preserves_gets | intros err].
    apply preserves_bind; [apply closed_emit | intros ?].
    apply preserves_return.
Qed.

(** Whenever the endpoint answers with a status that
    [raise_for_status] accepts, the response has been closed by the
    time the call ends. *)
Lemma pipe_closes body0 user_message r :
  question_of body0 = Some user_message ->
  endpoint (post_request valves user_message) = inr r ->
  ok r = true ->
  1 <= closes (events (pipe body0)).
Proof.
  intros Q Ep Hok. pose proof (pipe_question body0 user_message Q) as P.
  rewrite Ep in P. destruct P as (s & _ & E).
  rewrite pipe_eq, E. unfold run_of; cbn [events snd].
  change (1 <= closed (snd (bind (try_except
                                    (handle_response json_loads py_repr valves em r)
                                    outer_handlers) (fun _ => finish) s))).
  assert (H : exists s3,
             1 <= closed s3
             /\ (try_except (handle_response json_loads py_repr valves em r)
                            outer_handlers s = (Val tt, s3)
                 \/ exists v,
                     try_except (handle_response json_loads py_repr valves em r)
                                outer_handlers s = (Return v, s3))).
  { unfold try_except. rewrite (handle_response_ok r s Hok).
    set (s2 := after_emit _ _ _ _ _ (after_emit _ _ _ _ _ (set_response r s))).
    assert (R2 : response s2 = Some r).
    { unfold s2. rewrite !response_after_emit. reflexivity. }
    pose proof (branches_close r s2 R2) as C.
    destruct ((if enable_streaming valves
               then streaming_branch json_loads py_repr valves em r
               else non_streaming_branch json_loads py_repr valves em r) s2)
      as [[[] | e | v] s3]; cbn [snd] in C.
    - exists s3. split; [exact C | left; reflexivity].
    - destruct (outer_handler_runs e s3)
        as (h & s4 & m & -> & -> & _ & _ & _ & _ & _ & Hc).
      exists s4. split; [unfold closed in *; lia | left; reflexivity].
    - exists s3. split; [exact C | right; exists v; reflexivity]. }
  destruct H as (s3 & C & [Ev | (v & Er)]).
  - rewrite (bind_val _ _ _ _ _ Ev), finish_keeps_closed. exact C.
  - rewrite (bind_returned _ _ _ _ _ Er). exact C.
Qed.

(** *** Failures inside the outer [try] *)

(** What each [except] clause of the outer [try] stores in
    [last_error_message]. *)
Definition failure_message (e : exn) (r : option Response) : string :=
  if is_RequestException e then
    "Network or Request error to Flowise: " ++ exn_name e ++ " - "
    ++ exn_str e ++ ". Check URL/connectivity."
  else if is_JSONDecodeError e then
    "JSON decoding error from Flowise: " ++ exn_str e ++ ". Raw response: "
    ++ take 200 match r with
                | Some r => if ok r then text r else "N/A"
                | None => "N/A"
                end ++ "..."
  else
    "An unexpected error occurred: " ++ exn_name e ++ " - "
    ++ exn_str e ++ ". Check pipe code/Flowise.".

Lemma failure_message_not_empty e r : (failure_message e r =? "") = false.
Proof.
  unfold failure_message.
  destruct (is_RequestException e); [reflexivity |].
  destruct (is_JSONDecodeError e); reflexivity.
Qed.

(** The clause that catches [e], with the message it stores. *)
Lemma outer_handler_message e s :
  exists h s',
    select outer_handlers e = Some h /\ h s = (Val tt, s')
    /\ body s' = body s
    /\ full_response_content s' = full_response_content s
    /\ sent s' = sent s
    /\ last_error_message s' = Some (failure_message e (response s))
    /\ closes (trace s')
       = closes (trace s) + match response s with Some _ => 1 | None => 0 end.
Proof.
  unfold outer_handlers, failure_message. cbn [select].
  destruct (is_RequestException e);
    [| destruct (is_JSONDecodeError e); [| unfold is_Exception]].
  - destruct (error_block_runs
                ("Network or Request error to Flowise: " ++ exn_name e ++ " - "
                 ++ exn_str e ++ ". Check URL/connectivity.") s)
      as (s' & E & Hb & Hc & _ & Hs & He & Hcl).
    exists (on_request_exception valves em e), s'.
    split; [reflexivity |]. split; [exact E |]. auto.
  - destruct (on_json_decode_error_runs e s)
      as (s' & E & Hb & Hc & _ & Hs & He & Hcl).
    exists (on_json_decode_error valves em e), s'.
    split; [reflexivity |]. split; [exact E |]. auto.
  - destruct (error_block_runs
                ("An unexpected error occurred: " ++ exn_name e ++ " - "
                 ++ exn_str e ++ ". Check pipe code/Flowise.") s)
      as (s' & E & Hb & Hc & _ & Hs & He & Hcl).
    exists (on_exception valves em e), s'.
    split; [reflexivity |]. split; [exact E |]. auto.
Qed.

(** An exception raised in the outer [try] while there is no content
    ends the call with the error value of its clause. *)
Lemma raised_in_try e s1 s2 :
  try_block s1 = (Raise e, s2) ->
  truthy (full_response_content s2) = false ->
  exists s4,
    bind (try_except try_block outer_handlers) (fun _ => finish) s1
    = (Return (error_dict (failure_message e (response s2))), s4)
    /\ body s4 = body s2 /\ sent s4 = sent s2
    /\ closes (trace s4)
       = closes (trace s2) + match response s2 with Some _ => 1 | None => 0 end.
Proof.
  intros Er Hc.
  destruct (outer_handler_message e s2)
    as (h & s3 & Hsel & Hh & Hb3 & Hc3 & Hs3 & He3 & Hcl3).
  destruct (finish_empty s3) as (msg & s4 & Hfin & (Hb4 & _ & _ & Hs4 & Hc4) & Hm).
  { rewrite Hc3. exact Hc. }
  rewrite He3, failure_message_not_empty in Hm. cbn [negb] in Hm. subst msg.
  exists s4. split.
  - unfold bind. rewrite (try_except_raised _ _ _ _ _ Er), Hsel, Hh. exact Hfin.
  - split; [congruence |]. split; congruence.
Qed.

(** The exception of the checks of lines 146-164, if any. *)
Definition question_error (b : value) : option exn :=
  match b with
  | VDict d =>
      let messages := dict_get_default d "messages" (VList []) in
      if truthy messages then
        match subscript_last messages with
        | inr last =>
            match subscript_key last "content" with
            | inr user_message =>
                match slice_to 50 user_message with
                | inr _ => None
                | inl e => Some e
                end
            | inl e => Some e
            end
        | inl e => Some e
        end
      else None
  | _ => None
  end.

Lemma try_block_question_error s e :
  question_error (body s) = Some e -> try_block s = (Raise e, s).
Proof.
  intros H. unfold Flowise.try_block. rewrite bind_gets.
  unfold question_error in H.
  destruct (body s) as [| | | | | | d]; try discriminate.
  cbn zeta in *.
  destruct (truthy (dict_get_default d "messages" (VList []))); [| discriminate].
  cbn [negb].
  destruct (subscript_last _) as [e1 | last].
  { injection H as <-. run. reflexivity. }
  run.
  destruct (subscript_key last "content") as [e1 | user_message].
  { injection H as <-. run. reflexivity. }
  run.
  destruct (slice_to 50 user_message) as [e1 | shown]; [| discriminate].
  injection H as <-. run. reflexivity.
Qed.

(** A body whose last message cannot be read ends the call with the
    error value of the clause that catches the exception; nothing is
    sent and the body is left alone. *)
Lemma pipe_question_error body0 e :
  question_error body0 = Some e ->
  result (pipe body0) = Returned (error_dict (failure_message e None))
  /\ final_body (pipe body0) = body0
  /\ posts (events (pipe body0)) = [].
Proof.
  intros H. rewrite pipe_eq, pipe_body_eq.
  set (s1 := after_emit _ _ _ _ _ _).
  assert (Q1 : quiet (initial body0) s1) by apply quiet_emit.
  destruct Q1 as (Hb & Hc & Hr & Hs & _). cbn in Hb, Hc, Hr, Hs.
  destruct (raised_in_try e s1 s1) as (s4 & E & Hb4 & Hs4 & _).
  { apply try_block_question_error. rewrite Hb. exact H. }
  { rewrite Hc. reflexivity. }
  rewrite E, Hr. unfold run_of; cbn [fst snd result final_body events].
  unfold sent in *. repeat split; congruence.
Qed.

(** A body that is not a dict is turned down at once. *)
Lemma pipe_not_dict body0 :
  is_dict body0 = false ->
  result (pipe body0)
  = Returned (error_dict "Request body is not a valid dictionary.")
  /\ final_body (pipe body0) = body0
  /\ posts (events (pipe body0)) = [].
Proof.
  intros H. rewrite pipe_eq, pipe_body_eq.
  set (s1 := after_emit _ _ _ _ _ _).
  assert (Q1 : quiet (initial body0) s1) by apply quiet_emit.
  destruct Q1 as (Hb & _ & _ & Hs & _). cbn in Hb, Hs.
  assert (Et : try_block s1
               = (Return (error_dict "Request body is not a valid dictionary."),
                  after_emit "error" "Request body is not a valid dictionary."
                             true false VNone s1)).
  { unfold Flowise.try_block. rewrite bind_gets, Hb.
    destruct body0; try discriminate; run; reflexivity. }
  rewrite (bind_returned _ _ _ _ _ (try_except_returned _ _ _ _ _ Et)).
  unfold run_of; cbn [fst snd result final_body events].
  rewrite body_after_emit, posts_after_emit. unfold sent in Hs. auto.
Qed.

(** When [requests.post] raises, the call ends with the error value of
    the clause that catches the exception; there is no response to
    close. *)
Lemma pipe_post_raises body0 user_message e :
  question_of body0 = Some user_message ->
  endpoint (post_request valves user_message) = inl e ->
  result (pipe body0) = Returned (error_dict (failure_message e None))
  /\ final_body (pipe body0) = body0
  /\ closes (events (pipe body0)) = 0.
Proof.
  intros H Ep. rewrite pipe_eq, pipe_body_eq.
  set (s1 := after_emit _ _ _ _ _ _).
  assert (Q1 : quiet (initial body0) s1) by apply quiet_emit.
  destruct (try_block_question s1 user_message) as (s2 & Q2 & _ & E).
  { destruct Q1 as (-> & _). exact H. }
  pose proof (quiet_trans _ _ _ Q1 Q2) as (Hb & Hcont & Hresp & _ & Hc).
  cbn in Hb, Hcont, Hresp, Hc.
  set (req := post_request valves user_message) in *.
  destruct (raised_in_try e s1 (record (Posted req) s2)) as (s4 & E4 & Hb4 & _ & Hc4).
  { rewrite E. unfold bind, requests_post. rewrite Ep. reflexivity. }
  { cbn [full_response_content record]. rewrite Hcont. reflexivity. }
  rewrite E4. unfold run_of; cbn [fst snd result final_body events].
  cbn [response body trace record] in *. rewrite Hresp in *.
  rewrite closes_app, Hc in Hc4. cbn in Hc4.
  repeat split; congruence.
Qed.

(** *** Lines the loop passes over *)

(** A blank line, a line without the [data:] prefix, a [data:] line
    whose payload is not JSON. *)
Definition ignored (line : raw_line) : bool :=
  match line with
  | LineText d =>
      String.eqb d "" || negb (String.prefix "data:" d)
      || match json_loads (strip (drop 5 d)) with
         | None => true
         | Some _ => false
         end
  | LineUndecodable => false
  end.

Lemma process_line_ignored line s :
  ignored line = true -> process_line line s = (Val false, s).
Proof.
  destruct line as [d |]; [| discriminate]. unfold ignored.
  destruct (String.eqb_spec d "") as [-> | _]; [intros _; reflexivity |].
  destruct (String.prefix "data:" d) eqn:P; cbn [negb orb].
  - destruct (json_loads (strip (drop 5 d))) eqn:J; [discriminate |].
    intros _. apply process_line_not_json; assumption.
  - intros _. apply process_line_other, P.
Qed.

Lemma for_lines_ignored ls rest err s :
  forallb ignored ls = true ->
  for_lines (ls ++ rest) err s = for_lines rest err s.
Proof.
  induction ls as [| line ls IH]; intros H; [reflexivity |].
  cbn [forallb] in H. apply andb_prop in H. destruct H as (H1 & H2).
  cbn [app]. rewrite for_lines_cons, (process_line_ignored line s H1).
  apply IH, H2.
Qed.

(** *** Token events *)

(** The line [d] carries a token event with the text [t]. *)
Definition token_event (d t : string) : Prop :=
  String.prefix "data:" d = true
  /\ exists ev,
       json_loads (strip (drop 5 d)) = Some (VDict ev)
       /\ dict_get ev "event" = VStr "token"
       /\ dict_get ev "data" = VStr t.

(** The line [d] carries the end event. *)
Definition final_event (d : string) : Prop :=
  String.prefix "data:" d = true
  /\ exists ev,
       json_loads (strip (drop 5 d)) = Some (VDict ev)
       /\ dict_get ev "event" = VStr "end".

(** The texts of a run of token events, one after the other. *)
Fixpoint tokens_text (toks : list (string * string)) : string :=
  match toks with
  | [] => ""
  | (_, t) :: rest => t ++ tokens_text rest
  end.

Lemma string_app_assoc (a b c : string) : (a ++ b) ++ c = a ++ b ++ c.
Proof. induction a as [| ch a IH]; cbn; [reflexivity | rewrite IH; reflexivity]. Qed.

Lemma string_app_nil_r (a : string) : a ++ "" = a.
Proof. induction a as [| ch a IH]; cbn; [reflexivity | rewrite IH; reflexivity]. Qed.

(** The state the loop has made after a run of token events. *)
Definition accumulated (toks : list (string * string)) (c : string) (s s' : state)
  : Prop :=
  full_response_content s' = VStr (c ++ tokens_text toks)
  /\ chunk_count s' = chunk_count s + length toks
  /\ body s' = body s
  /\ last_error_message s' = last_error_message s
  /\ response s' = response s
  /\ sent s' = sent s
  /\ closes (trace s') = closes (trace s).

Lemma for_lines_tokens toks rest err s c :
  Forall (fun p => token_event (fst p) (snd p)) toks ->
  full_response_content s = VStr c ->
  exists s',
    for_lines (map (fun p => LineText (fst p)) toks ++ rest)%list err s
    = for_lines rest err s'
    /\ accumulated toks c s s'.
Proof.
  intros H. revert s c.
  induction H as [| [d t] toks (P & ev & J & Ev & Da) _ IH]; intros s c Hc.
  - exists s. split; [reflexivity |]. unfold accumulated. cbn.
    rewrite string_app_nil_r, Nat.add_0_r. repeat split. exact Hc.
  - cbn [fst snd] in *. cbn [map app fst snd].
    rewrite for_lines_cons, (process_line_token d ev t s P J Ev Da).
    set (s1 := set_chunk_count _ _).
    destruct (IH s1 (c ++ t)) as (s' & E & A1 & A2 & A3 & A4 & A5 & A6 & A7).
    { unfold s1. cbn [full_response_content set_chunk_count].
      rewrite content_after_emit. cbn [full_response_content set_full_response_content].
      rewrite Hc. reflexivity. }
    exists s'. split; [exact E |]. unfold accumulated. cbn [tokens_text length].
    rewrite A1, A2, A3, A4, A5, A6, A7. unfold s1, sent.
    cbn [chunk_count body last_error_message response trace set_chunk_count].
    rewrite body_after_emit, error_after_emit, response_after_emit,
      posts_after_emit, closes_after_emit.
    cbn [body last_error_message response trace set_full_response_content].
    rewrite string_app_assoc. repeat split. lia.
Qed.

(** Lines 292-378 when the loop over the lines is cut short by an
    exception (the connection breaks, a line is not UTF-8, an event is
    not an object): the branch reports the failure to the emitter only
    and falls through with the content gathered so far. *)
Lemma streaming_branch_broken r s ct e s' :
  content_type r = Some ct ->
  contains "text/event-stream" ct = true ->
  response s = Some r ->
  for_lines (lines r) (iter_error r)
    (set_chunk_count 0
       (after_emit "info" "Processing streaming response (manual SSE parsing)..."
          false false VNone s))
  = (Raise e, s') ->
  exists s'',
    streaming_branch json_loads py_repr valves em r s = (Val tt, s'')
    /\ full_response_content s'' = full_response_content s'
    /\ body s'' = body s'
    /\ last_error_message s'' = last_error_message s'
    /\ sent s'' = sent s'
    /\ closes (trace s'') = closes (trace s') + 2.
Proof.
  intros Hct Hin Hr Hfor. unfold streaming_branch. rewrite bind_emit.
  set (s1 := after_emit _ _ _ _ _ s) in *.
  assert (Hr' : response s' = Some r).
  { rewrite <- Hr.
    change (response s) with (response (set_chunk_count 0 s)).
    replace (response (set_chunk_count 0 s))
      with (response (set_chunk_count 0 s1))
      by (cbn; apply response_after_emit).
    replace s' with (snd (for_lines (lines r) (iter_error r) (set_chunk_count 0 s1)))
      by (rewrite Hfor; reflexivity).
    apply for_lines_keeps; auto using response_after_emit.
    intros; intros ?; apply response_after_emit. }
  rewrite Hct, Hin. cbn [negb].
  set (s2 := after_emit "error"
               ("SSE streaming failed: " ++ exn_name e ++ " - " ++ exn_str e)
               true false VNone (record Closed s')).
  exists (record Closed s2).
  split.
  - unfold try_finally at 1.
    match goal with
    | |- (let (_, _) := try_except ?m ?hs s1 in _) = _ =>
        assert (Et : try_except m hs s1 = (Val tt, s2))
    end.
    { assert (Ew : with_response (for_lines (lines r) (iter_error r))
                     (set_chunk_count 0 s1) = (Raise e, record Closed s')).
      { unfold with_response, try_finally. rewrite Hfor. reflexivity. }
      match goal with
      | |- try_except ?m ?hs s1 = _ =>
          assert (Em : m s1 = (Raise e, record Closed s'))
      end.
      { run. apply bind_raised, Ew. }
      rewrite (try_except_raised _ _ _ _ _ Em). cbn [select is_Exception].
      apply emit_status_eq. }
    rewrite Et. unfold close_if_open, close. rewrite bind_gets.
    unfold s2. rewrite response_after_emit. cbn [response record]. rewrite Hr'.
    reflexivity.
  - unfold sent, s2. cbn [full_response_content body last_error_message trace record].
    rewrite content_after_emit, body_after_emit, error_after_emit.
    rewrite !posts_app, !closes_app, posts_after_emit, closes_after_emit.
    cbn [full_response_content body last_error_message trace record].
    rewrite !posts_app, !closes_app. cbn. rewrite !app_nil_r.
    repeat split. lia.
Qed.

(** *** A body read whole, lines 267-290 and 387-421 *)

(** The content made of a body that is read whole: of a JSON object the
    first truthy field, of any other JSON document its [str], of a
    body that is not JSON the text itself. *)
Definition document_content (fields : list string) (r : Response) : value :=
  match json_loads (text r) with
  | Some (VDict d) => first_of py_repr fields d
  | Some v => VStr (str py_repr v)
  | None => VStr (text r)
  end.

Lemma non_streaming_branch_document r s :
  response s = Some r ->
  exists s',
    non_streaming_branch json_loads py_repr valves em r s = (Val tt, s')
    /\ full_response_content s'
       = document_content ["text"; "answer"; "response"; "output"] r
    /\ body s' = body s
    /\ last_error_message s' = last_error_message s.
Proof.
  intros Hr. unfold document_content.
  destruct (json_loads (text r)) as [doc |] eqn:J.
  - assert (D : (exists d, doc = VDict d) \/ is_dict doc = false).
    { destruct doc; try (right; reflexivity). left. eexists. reflexivity. }
    destruct D as [(d & ->) | D].
    + destruct (non_streaming_branch_object r s d J Hr)
        as (s' & E & Hc & Hb & He & _).
      exists s'. auto.
    + unfold non_streaming_branch. rewrite bind_emit.
      set (s1 := after_emit _ _ _ _ _ s).
      set (c := VStr (str py_repr doc)).
      exists (record Closed
                (record Closed (set_full_response_content c (record BodyRead s1)))).
      split.
      * unfold try_finally at 1.
        match goal with
        | |- (let (_, _) := try_except ?m ?hs s1 in _) = _ =>
            assert (Et : try_except m hs s1
                         = (Val tt,
                            record Closed
                              (set_full_response_content c (record BodyRead s1))))
        end.
        { apply try_except_val.
          unfold with_response, try_finally, response_json, read_body.
          rewrite J, bind_assoc. run. destruct doc; try discriminate; reflexivity. }
        rewrite Et. unfold close_if_open, close. rewrite bind_gets.
        unfold s1. cbn [response record set_full_response_content].
        rewrite response_after_emit, Hr. reflexivity.
      * unfold s1. cbn [full_response_content body last_error_message record
                          set_full_response_content].
        rewrite body_after_emit, error_after_emit.
        destruct doc; try discriminate; auto.
  - unfold non_streaming_branch. rewrite bind_emit.
    set (s1 := after_emit _ _ _ _ _ s).
    set (s2 := after_emit "info" "Received raw text response (JSON decode failed)."
                 true false VNone
                 (set_full_response_content (VStr (text r))
                    (record BodyRead (record Closed (record BodyRead s1))))).
    exists (record Closed s2). split.
    + unfold try_finally at 1.
      match goal with
      | |- (let (_, _) := try_except ?m ?hs s1 in _) = _ =>
          assert (Et : try_except m hs s1 = (Val tt, s2))
      end.
      { match goal with
        | |- try_except ?m ?hs s1 = _ =>
            assert (Em : m s1
                         = (Raise (mkExn RequestsJSONDecodeError "JSONDecodeError"
                                         "Expecting value: line 1 column 1 (char 0)"),
                            record Closed (record BodyRead s1)))
        end.
        { unfold with_response, try_finally, response_json, read_body. rewrite J.
          rewrite bind_assoc. run. reflexivity. }
        rewrite (try_except_raised _ _ _ _ _ Em).
        cbn [select is_JSONDecodeError exn_cls]. unfold read_body. run.
        apply emit_status_eq. }
      rewrite Et. unfold close_if_open, close. rewrite bind_gets.
      unfold s2, s1. rewrite response_after_emit.
      cbn [response record set_full_response_content].
      rewrite response_after_emit, Hr. reflexivity.
    + unfold s2, s1. cbn [full_response_content body last_error_message record].
      rewrite content_after_emit, body_after_emit, error_after_emit.
      cbn [full_response_content body last_error_message record
             set_full_response_content].
      rewrite body_after_emit, error_after_emit. auto.
Qed.

Lemma streaming_branch_document r s :
  contains "text/event-stream"
    match content_type r with Some c => c | None => "" end = false ->
  response s = Some r ->
  exists s',
    streaming_branch json_loads py_repr valves em r s = (Val tt, s')
    /\ full_response_content s' = document_content ["text"; "answer"; "response"] r
    /\ body s' = body s
    /\ last_error_message s' = last_error_message s.
Proof.
  intros Hct Hr. unfold document_content.
  destruct (json_loads (text r)) as [doc |] eqn:J.
  - assert (D : (exists d, doc = VDict d) \/ is_dict doc = false).
    { destruct doc; try (right; reflexivity). left. eexists. reflexivity. }
    destruct D as [(d & ->) | D].
    + destruct (streaming_branch_object r s d Hct J Hr)
        as (s' & E & Hc & Hb & He & _).
      exists s'. auto.
    + unfold streaming_branch. rewrite bind_emit.
      set (s1 := after_emit _ _ _ _ _ s).
      set (c := VStr (str py_repr doc)).
      exists (record Closed (set_full_response_content c (record BodyRead s1))).
      split.
      * unfold try_finally at 1. rewrite Hct. cbn [negb].
        match goal with
        | |- (let (_, _) := try_except ?m ?hs s1 in _) = _ =>
            assert (Et : try_except m hs s1
                         = (Val tt, set_full_response_content c (record BodyRead s1)))
        end.
        { apply try_except_val. apply try_except_val.
          unfold response_json, read_body.
          rewrite J, bind_assoc. run. destruct doc; try discriminate; reflexivity. }
        rewrite Et. unfold close_if_open, close. rewrite bind_gets.
        unfold s1. cbn [response set_full_response_content record].
        rewrite response_after_emit, Hr. reflexivity.
      * unfold s1. cbn [full_response_content body last_error_message record
                          set_full_response_content].
        rewrite body_after_emit, error_after_emit.
        destruct doc; try discriminate; auto.
  - unfold streaming_branch. rewrite bind_emit.
    set (s1 := after_emit _ _ _ _ _ s).
    exists (record Closed
              (set_full_response_content (VStr (text r))
                 (record BodyRead (record BodyRead s1)))).
    split.
    + unfold try_finally at 1. rewrite Hct. cbn [negb].
      match goal with
      | |- (let (_, _) := try_except ?m ?hs s1 in _) = _ =>
          assert (Et : try_except m hs s1
                       = (Val tt,
                          set_full_response_content (VStr (text r))
                            (record BodyRead (record BodyRead s1))))
      end.
      { apply try_except_val.
        match goal with
        | |- try_except ?m ?hs s1 = _ =>
            assert (Em : m s1
                         = (Raise (mkExn RequestsJSONDecodeError "JSONDecodeError"
                                         "Expecting value: line 1 column 1 (char 0)"),
                            record BodyRead s1))
        end.
        { unfold response_json, read_body. rewrite J.
          rewrite bind_assoc. run. reflexivity. }
        rewrite (try_except_raised _ _ _ _ _ Em).
        cbn [select is_JSONDecodeError exn_cls]. unfold read_body. run.
        reflexivity. }
      rewrite Et. unfold close_if_open, close. rewrite bind_gets.
      unfold s1. cbn [response set_full_response_content record].
      rewrite response_after_emit, Hr. reflexivity.
    + unfold s1. cbn [full_response_content body last_error_message record
                        set_full_response_content].
      rewrite body_after_emit, error_after_emit. auto.
Qed.

(** The state in which the branches start, once the status is accepted. *)
Lemma accepted_state r s :
  let s2 := after_emit "info" "HTTP Status OK (2xx)." false false VNone
              (after_emit "info"
                 ("Request complete. HTTP Status: " ++ str_of_Z (status_code r) ++ ".")
                 false false VNone (set_response r s)) in
  body s2 = body s
  /\ full_response_content s2 = full_response_content s
  /\ last_error_message s2 = last_error_message s
  /\ response s2 = Some r.
Proof.
  cbv zeta.
  rewrite !content_after_emit, !body_after_emit, !error_after_emit,
    !response_after_emit.
  cbn. auto.
Qed.

(** *** Only token events touch the content *)

(** The line carries a token event whose data is a string. *)
Definition is_token_line (line : raw_line) : bool :=
  match line with
  | LineText d =>
      String.prefix "data:" d
      && match json_loads (strip (drop 5 d)) with
         | Some (VDict ev) =>
             eq_str (dict_get ev "event") "token" && is_str (dict_get ev "data")
         | _ => false
         end
  | LineUndecodable => false
  end.

Lemma process_line_keeps_content line s :
  is_token_line line = false ->
  full_response_content (snd (process_line line s)) = full_response_content s.
Proof.
  destruct line as [d |]; [| reflexivity].
  destruct d as [| c rest]; [reflexivity |].
  unfold is_token_line, Flowise.process_line.
  destruct (String.prefix "data:" (String c rest)); [| reflexivity].
  cbn [andb]. unfold try_except, loads. cbn [String.length].
  destruct (json_loads (strip (drop 5 (String c rest)))) as [v |]; [| reflexivity].
  rewrite bind_ret.
  destruct v as [| | | | | | ev]; try reflexivity.
  intros H. unfold method_get. run. rewrite H.
  destruct (eq_str (dict_get ev "event") "end"); reflexivity.
Qed.

Lemma for_lines_keeps_content ls err s :
  forallb (fun line => negb (is_token_line line)) ls = true ->
  full_response_content (snd (for_lines ls err s)) = full_response_content s.
Proof.
  revert s. induction ls as [| line ls IH]; intros s H.
  - cbn [Flowise.for_lines]. destruct err; reflexivity.
  - cbn [forallb] in H. apply andb_prop in H. destruct H as (H1 & H2).
    apply negb_true_iff in H1.
    pose proof (process_line_keeps_content line s H1) as K.
    rewrite for_lines_cons.
    destruct (process_line line s) as [[[|] | e | v] s1]; cbn [snd] in K |- *;
      try exact K.
    rewrite (IH s1 H2). exact K.
Qed.

End Facts.

End FlowiseFacts.

(* ================================================================== *)
(** ** Facts about the n8n adapter                                     *)
(* ================================================================== *)

Module N8nFacts.
Import Py Eff Eff.Notations Host EffFacts HostFacts PyFacts N8n.

Section Facts.
Variable json_loads : string -> option value.
Variable py_repr : value -> string.
Variable clock : nat -> Q.
Variable valves : Valves.
Variable em : option emitter.
Variable endpoint : Host.endpoint.

Local Notation emit_status := (N8n.emit_status clock valves em).
Local Notation parse_body := (N8n.parse_body json_loads clock valves em).
Local Notation main_block := (N8n.main_block json_loads py_repr clock valves em endpoint).
Local Notation request_block :=
  (N8n.request_block json_loads py_repr clock valves em endpoint).
Local Notation handle_response := (N8n.handle_response json_loads py_repr clock valves em).
Local Notation on_success_status :=
  (N8n.on_success_status json_loads py_repr clock valves em).
Local Notation finish := (N8n.finish clock valves em).
Local Notation pipe_body := (N8n.pipe_body json_loads py_repr clock valves em endpoint).
Local Notation pipe := (N8n.pipe json_loads py_repr clock valves em endpoint).

Definition sent (s : state) : list request := posts (trace s).

(** The state [emit_status] leaves behind. *)
Definition after_emit (level message : string) (done : bool) (s : state) : state :=
  snd (emit_status level message done s).

(** Whether or not the emitter is called, and however its call ends,
    [emit_status] touches the trace, the clock and [last_emit_time]
    only, and sends nothing. *)
Lemma n8n_after_emit_spec level message done s :
  let s' := after_emit level message done s in
  body s' = body s
  /\ n8n_response_content s' = n8n_response_content s
  /\ last_error_message s' = last_error_message s
  /\ sent s' = sent s.
Proof.
  unfold after_emit, N8n.emit_status, time_time, bind, gets, sent.
  destruct em as [e |]; [| cbn; tauto].
  destruct (enable_status_indicator valves && _); [| cbn; tauto].
  unfold call_emitter.
  destruct (on_call e _ _); cbn; [rewrite posts_app, app_nil_r; tauto |].
  destruct done; cbn; rewrite posts_app, app_nil_r; tauto.
Qed.

Lemma n8n_body_after_emit l m d s : body (after_emit l m d s) = body s.
Proof. apply n8n_after_emit_spec. Qed.
Lemma n8n_content_after_emit l m d s :
  n8n_response_content (after_emit l m d s) = n8n_response_content s.
Proof. apply n8n_after_emit_spec. Qed.
Lemma n8n_error_after_emit l m d s :
  last_error_message (after_emit l m d s) = last_error_message s.
Proof. apply n8n_after_emit_spec. Qed.
Lemma n8n_sent_after_emit l m d s : sent (after_emit l m d s) = sent s.
Proof. apply n8n_after_emit_spec. Qed.

Lemma n8n_emit_sends_nothing l m d : preserves sent (emit_status l m d).
Proof. intros s. apply n8n_sent_after_emit. Qed.

(** When the emitter returns normally, so does [emit_status]. *)
Lemma n8n_emit_status_eq level message done s :
  emitter_returns em ->
  emit_status level message done s = (Val tt, after_emit level message done s).
Proof.
  intros Hem. unfold after_emit, N8n.emit_status, time_time, bind, gets.
  destruct em as [e |]; [| reflexivity].
  destruct (enable_status_indicator valves && _); [| reflexivity].
  unfold call_emitter. cbn in Hem. rewrite Hem.
  destruct done; reflexivity.
Qed.

Lemma n8n_bind_emit {B : Type} level message done (k : unit -> M state B) s :
  emitter_returns em ->
  bind (emit_status level message done) k s = k tt (after_emit level message done s).
Proof. intros Hem. apply bind_val, n8n_emit_status_eq, Hem. Qed.

(** *** Blocks that send nothing *)

Lemma n8n_sent_record_other ev s :
  is_post ev = false -> sent (record ev s) = sent s.
Proof.
  intros H. unfold sent. cbn. rewrite posts_app.
  destruct ev; try discriminate; cbn; apply app_nil_r.
Qed.

Section Keeps.
Variable X : Type.
Variable f : state -> X.
Hypothesis f_emit : forall l m d, preserves f (emit_status l m d).
Hypothesis f_content : forall c s, f (set_n8n_response_content c s) = f s.
Hypothesis f_error : forall m s, f (set_last_error_message m s) = f s.

Ltac keeps_f :=
  repeat first
    [ apply f_emit
    | apply preserves_ret
    | apply preserves_raise
    | apply preserves_return
    | apply preserves_gets
    | apply preserves_lift
    | apply preserves_modify; intros ?; first [apply f_content | apply f_error]
    | apply preserves_bind; [| intros ?]
    | apply preserves_try_except;
      [| repeat (apply Forall_cons; [intros ?; cbn [snd] |]); try apply Forall_nil]
    | apply preserves_if
    | match goal with
      | |- preserves _ (match ?x with _ => _ end) => destruct x
      end ].

Lemma on_success_status_keeps r : preserves f (on_success_status r).
Proof. unfold N8n.on_success_status, response_json. keeps_f. Qed.

Lemma n8n_handle_response_keeps r : preserves f (handle_response r).
Proof.
  unfold N8n.handle_response.
  apply preserves_if; [apply on_success_status_keeps |]. keeps_f.
Qed.

Lemma request_handler_keeps e :
  preserves f
    (let msg := "Request to N8N failed: " ++ exn_name e ++ " - " ++ exn_str e ++ "." in
     bind (modify (set_last_error_message msg))
          (fun _ => emit_status "warning" msg false)).
Proof. cbv zeta. keeps_f. Qed.

End Keeps.

Lemma n8n_handle_response_sends_nothing r : preserves sent (handle_response r).
Proof.
  apply n8n_handle_response_keeps; auto using n8n_emit_sends_nothing.
Qed.

Lemma append_message_sends_nothing msg : preserves sent (append_message msg).
Proof.
  unfold append_message.
  apply preserves_bind; [apply preserves_gets | intros b].
  apply preserves_bind; [apply preserves_lift | intros b'].
  apply preserves_modify. reflexivity.
Qed.

Lemma n8n_finish_sends_nothing : preserves sent finish.
Proof.
  unfold N8n.finish.
  apply preserves_bind; [apply preserves_gets | intros content].
  apply preserves_if.
  - apply preserves_bind; [apply append_message_sends_nothing | intros ?].
    apply preserves_bind; [apply n8n_emit_sends_nothing | intros ?].
    apply preserves_return.
  - apply preserves_bind; [apply preserves_gets | intros err].
    apply preserves_bind; [apply n8n_emit_sends_nothing | intros ?].
    apply preserves_bind; [apply append_message_sends_nothing | intros ?].
    apply preserves_return.
Qed.

Lemma parse_body_sends_nothing : preserves sent parse_body.
Proof.
  unfold N8n.parse_body, loads.
  repeat first
    [ apply n8n_emit_sends_nothing
    | apply preserves_ret
    | apply preserves_raise
    | apply preserves_return
    | apply preserves_gets
    | apply preserves_modify; intros ?; reflexivity
    | apply preserves_bind; [| intros ?]
    | apply preserves_try_except;
      [| repeat (apply Forall_cons; [intros ?; cbn [snd] |]); try apply Forall_nil]
    | apply preserves_if
    | match goal with
      | |- preserves _ (match ?x with _ => _ end) => destruct x
      end ].
Qed.

(** The request block sends its one request or, when the status line
    before it fails, none. *)
Lemma request_block_sent p s :
  sent (snd (request_block p s)) = sent s
  \/ sent (snd (request_block p s)) = (sent s ++ [post_request valves p])%list.
Proof.
  assert (Hh : forall e, preserves sent
                 (let msg := "Request to N8N failed: " ++ exn_name e ++ " - "
                             ++ exn_str e ++ "." in
                  bind (modify (set_last_error_message msg))
                       (fun _ => emit_status "warning" msg false))).
  { intros e. apply request_handler_keeps; auto using n8n_emit_sends_nothing. }
  remember (request_block p s) as R eqn:ER.
  unfold N8n.request_block, try_except, bind, requests_post in ER.
  pose proof (n8n_emit_sends_nothing "info" "Sending request to N8N..." false s) as H1.
  destruct (emit_status "info" "Sending request to N8N..." false s)
    as [[[] | e | v] s1]; cbn [snd] in H1.
  - assert (Hs2 : sent (record (Posted (post_request valves p)) s1)
                  = (sent s ++ [post_request valves p])%list).
    { unfold sent. cbn. rewrite posts_app. unfold sent in H1. rewrite H1.
      reflexivity. }
    destruct (endpoint (post_request valves p)) as [e | r].
    + right. cbn [select is_Exception] in ER. subst R.
      transitivity (sent (record (Posted (post_request valves p)) s1));
        [exact (Hh e _) | exact Hs2].
    + right.
      pose proof (n8n_handle_response_sends_nothing r
                    (record (Posted (post_request valves p)) s1)) as H3.
      destruct (handle_response r _) as [[[] | e | v] s3]; cbn [snd] in H3;
        cbn [select is_Exception] in ER; subst R.
      * cbn [snd]. congruence.
      * transitivity (sent s3); [exact (Hh e _) | congruence].
      * cbn [snd]. congruence.
  - left. cbn [select is_Exception] in ER. subst R.
    transitivity (sent s1); [exact (Hh e _) | exact H1].
  - left. subst R. exact H1.
Qed.

(** *** Up to the request *)

(** The body [pipe] works on: a string is parsed first (line 130). *)
Definition parsed (body0 : value) : option value :=
  match body0 with
  | VStr s => json_loads s
  | b => Some b
  end.

(** The payload [pipe] goes on to send for a parsed body, if any: the
    checks of lines 140-195. *)
Definition payload_of (b : value) : option value :=
  match b with
  | VDict d =>
      let messages := dict_get_default d "messages" (VList []) in
      if truthy messages then
        match subscript_last messages with
        | inr last =>
            match subscript_key last "content" with
            | inr question =>
                match extract_event_info em with
                | inr ids =>
                    match iterate messages with
                    | inr msgs =>
                        match first_system_content msgs with
                        | inr system_prompt =>
                            Some (payload valves (fst ids) question system_prompt)
                        | inl _ => None
                        end
                    | inl _ => None
                    end
                | inl _ => None
                end
            | inl _ => None
            end
        | inl _ => None
        end
      else None
  | _ => None
  end.

(** Whatever the emitter does, the main block sends the request for
    that payload or nothing. *)
Lemma main_block_sent s :
  sent (snd (main_block s)) = sent s
  \/ exists p, payload_of (body s) = Some p
               /\ sent (snd (main_block s)) = (sent s ++ [post_request valves p])%list.
Proof.
  remember (main_block s) as R eqn:ER.
  unfold N8n.main_block in ER. rewrite bind_gets in ER.
  unfold payload_of.
  pose proof (n8n_emit_sends_nothing) as He.
  pose proof (append_message_sends_nothing) as Ha.
  destruct (body s) as [| | | | | | d].
  1-6: left; subst R; apply (preserves_bind sent);
    [apply He | intros ?; apply preserves_return].
  cbn zeta in *.
  destruct (truthy (dict_get_default d "messages" (VList []))); cbn [negb] in ER.
  2:{ left. subst R. apply (preserves_bind sent); [apply He | intros ?].
      apply (preserves_bind sent); [apply Ha | intros ?; apply preserves_return]. }
  destruct (subscript_last _) as [e | last];
    [left; subst R; reflexivity | rewrite bind_lift_inr in ER].
  destruct (subscript_key last "content") as [e | question];
    [left; subst R; reflexivity | rewrite bind_lift_inr in ER].
  unfold bind at 1 in ER.
  specialize (He "info" "Calling n8n workflow..." false s).
  destruct (emit_status "info" "Calling n8n workflow..." false s)
    as [[[] | e | v] s1]; cbn [snd] in He;
    [| left; subst R; exact He | left; subst R; exact He].
  destruct (extract_event_info em) as [e | ids];
    [left; subst R; exact He | rewrite bind_lift_inr in ER].
  destruct (iterate _) as [e | msgs];
    [left; subst R; exact He | rewrite bind_lift_inr in ER].
  destruct (first_system_content msgs) as [e | system_prompt];
    [left; subst R; exact He | rewrite bind_lift_inr in ER].
  set (p := payload valves (fst ids) question system_prompt) in *.
  assert (Hf : sent (snd R) = sent (snd (request_block p s1))).
  { subst R. unfold bind.
    destruct (request_block p s1) as [[[] | e | v] s2]; cbn [snd]; try reflexivity.
    apply n8n_finish_sends_nothing. }
  destruct (request_block_sent p s1) as [H | H].
  - left. congruence.
  - right. exists p. split; [reflexivity | congruence].
Qed.

(** Parsing falls through only with the parsed body in place. *)
Lemma parse_body_val s s' :
  parse_body s = (Val tt, s') ->
  parsed (body s) = Some (body s') /\ sent s' = sent s.
Proof.
  intros H.
  assert (Hs : sent s' = sent s).
  { replace s' with (snd (parse_body s)) by (rewrite H; reflexivity).
    apply parse_body_sends_nothing. }
  split; [| exact Hs]. clear Hs.
  unfold N8n.parse_body in H. rewrite bind_gets in H. unfold parsed.
  destruct (body s) as [| | | | str | |] eqn:B;
    try (injection H as <-; rewrite B; reflexivity).
  unfold try_except, loads in H.
  assert (Hret : forall msg s0, fst (bind (emit_status "error" msg true)
                                      (fun _ => return_ (error_dict msg)) s0)
                                <> Val tt).
  { intros msg s0. unfold bind.
    destruct (emit_status _ _ _ _) as [[[] | e | w] s1]; discriminate. }
  destruct (json_loads str) as [v |].
  - rewrite bind_ret, bind_modify in H.
    destruct (is_dict v); cbn [negb] in H.
    + injection H as <-. reflexivity.
    + match type of H with
      | context [bind (emit_status "error" ?msg true) ?k ?s0] =>
          pose proof (Hret msg s0) as Hn;
          destruct (bind (emit_status "error" msg true) k s0) as [[[] | e | w] s1]
      end; cbn [fst] in Hn; try congruence; try discriminate H.
      cbn [select] in H. destruct (is_JSONDecodeError e); [| discriminate H].
      match type of H with
      | ?x = _ => pose proof (Hret "Invalid JSON string received in 'body'." s1) as Hn';
                  change (fst x <> Val tt) in Hn'; rewrite H in Hn'
      end. cbn in Hn'. congruence.
  - rewrite bind_raise in H. cbn [select is_JSONDecodeError exn_cls] in H.
    pose proof (Hret "Invalid JSON string received in 'body'." s) as Hn.
    match type of H with
    | ?x = _ => change (fst x <> Val tt) in Hn; rewrite H in Hn
    end. cbn in Hn. congruence.
Qed.

Definition n8n_run_of (p : res unit * state) : run :=
  mkRun (match fst p with
         | Val _ => Returned VNone
         | Return v => Returned v
         | Raise e => Raised e
         end)
        (body (snd p)) (trace (snd p)) (last_emit_time (snd p)).

Lemma n8n_pipe_eq body0 last :
  pipe body0 last = n8n_run_of (pipe_body (initial body0 last)).
Proof. unfold N8n.pipe, n8n_run_of. destruct (pipe_body _). reflexivity. Qed.

(** A call sends at most one request: the one for the payload of the
    parsed body. *)
Lemma n8n_pipe_posts body0 last :
  posts (events (pipe body0 last)) = []
  \/ exists b p, parsed body0 = Some b /\ payload_of b = Some p
                 /\ posts (events (pipe body0 last)) = [post_request valves p].
Proof.
  rewrite n8n_pipe_eq. unfold n8n_run_of; cbn [events].
  change (posts (trace ?x)) with (sent x).
  unfold N8n.pipe_body, bind.
  pose proof (parse_body_sends_nothing (initial body0 last)) as Hp.
  change (sent (initial body0 last)) with (@nil request) in Hp.
  destruct (parse_body (initial body0 last)) as [[[] | e | v] s1] eqn:E;
    cbn [snd] in Hp |- *; try (left; exact Hp).
  apply parse_body_val in E. destruct E as (E & _). cbn [body initial] in E.
  destruct (main_block_sent s1) as [H | (p & Hpay & H)].
  - left. congruence.
  - right. exists (body s1), p. rewrite H, Hp. auto.
Qed.

(** *** From the answer to the result of the call *)

(** A body that yields a payload has a list under ["messages"]. *)
Lemma payload_appendable b p msg :
  payload_of b = Some p ->
  exists d l,
    b = VDict d /\ lookup "messages" d = Some (VList l)
    /\ setdefault_append b msg
       = inr (VDict (assign "messages" (VList (l ++ [msg])) d)).
Proof.
  unfold payload_of. destruct b as [| | | | | | d]; try discriminate.
  cbn zeta. unfold dict_get_default, setdefault_append.
  destruct (lookup "messages" d) as [[| | | | s | l | d'] |] eqn:L;
    try discriminate.
  - destruct b; discriminate.
  - cbn [truthy]. destruct (negb (z =? 0)%Z); discriminate.
  - cbn [truthy]. destruct (negb (Qeq_bool q 0)); discriminate.
  - cbn [truthy subscript_last]. destruct (negb (s =? "")); [| discriminate].
    destruct (last_char s); discriminate.
  - intros _. exists d, l. auto.
  - cbn [truthy subscript_last]. destruct d'; discriminate.
Qed.

Lemma payload_of_dict b p : payload_of b = Some p -> is_dict b = true.
Proof. destruct b; try discriminate. reflexivity. Qed.

(** *** The payload carries the content of the last message *)

Lemma payload_of_last d l m p :
  lookup "messages" d = Some (VList (l ++ [m])) ->
  payload_of (VDict d) = Some p ->
  exists question (ids : value * value) system_prompt,
    subscript_key m "content" = inr question
    /\ first_system_content (l ++ [m]) = inr system_prompt
    /\ p = payload valves (fst ids) question system_prompt.
Proof.
  intros L. unfold payload_of, dict_get_default. rewrite L. cbv zeta.
  rewrite truthy_snoc, subscript_last_snoc.
  destruct (subscript_key m "content") as [e | question]; [discriminate |].
  destruct (extract_event_info em) as [e | ids]; [discriminate |].
  cbn [iterate].
  destruct (first_system_content (l ++ [m])) as [e | sp]; [discriminate |].
  intros [= <-]. exists question, ids, sp. auto.
Qed.

(** The question sits under [input_field] unless the system prompt
    is assigned to the same key afterwards. *)
Lemma payload_input_field chat_id question system_prompt :
  input_field valves <> "systemPrompt" \/ truthy system_prompt = false ->
  subscript_key (payload valves chat_id question system_prompt) (input_field valves)
  = inr question.
Proof.
  intros H. unfold payload.
  destruct (truthy system_prompt) eqn:T.
  - destruct H as [H | H]; [| discriminate].
    unfold subscript_key.
    rewrite lookup_assign_other by exact H. rewrite lookup_assign_same. reflexivity.
  - unfold subscript_key. rewrite lookup_assign_same. reflexivity.
Qed.

(** *** The throttle of [emit_status], lines 94-114 *)

(** The emissions of a stretch of the call, in order: level, message
    and [done] of each. *)
Fixpoint emit_all (calls : list (string * string * bool)) : M state unit :=
  match calls with
  | [] => ret tt
  | (level, message, done) :: rest =>
      bind (emit_status level message done) (fun _ => emit_all rest)
  end.

(** The test of lines 95-101. *)
Definition passes (done : bool) (s : state) : bool :=
  enable_status_indicator valves
  && (Qle_bool (emit_interval valves) (clock (ticks s) - last_emit_time s)%Q || done).

(** An emission that passes is handed to the emitter. *)
Lemma emit_passing e level message done s :
  em = Some e -> passes done s = true ->
  emit_status level message done s
  = match on_call e (trace s) (status_message level message done) with
    | Some x =>
        (Raise x,
         record (EmitterCalled (status_message level message done) (Some x)) (tick s))
    | None =>
        (Val tt,
         (if done then fun s' => s' else set_last_emit_time (clock (ticks s)))
           (record (EmitterCalled (status_message level message done) None) (tick s)))
    end.
Proof.
  intros E P. unfold N8n.emit_status, time_time, bind, gets, passes in *.
  rewrite E. cbn [fst snd last_emit_time tick]. rewrite P.
  unfold call_emitter. cbn [trace tick].
  destruct (on_call e (trace s) _); [reflexivity |]. destruct done; reflexivity.
Qed.

(** One that does not pass only reads the clock. *)
Lemma emit_throttled level message done s :
  passes done s = false ->
  emit_status level message done s = (Val tt, tick s).
Proof.
  intros P. unfold N8n.emit_status, time_time, bind, gets, passes in *.
  cbn [fst snd last_emit_time tick].
  destruct em as [e |]; [| reflexivity]. rewrite P. reflexivity.
Qed.

(** With a non-negative interval, [last_emit_time] never moves back. *)
Lemma emit_status_last_emit_time level message done s :
  (0 <= emit_interval valves)%Q ->
  (last_emit_time s <= last_emit_time (snd (emit_status level message done s)))%Q.
Proof.
  intros Hi. destruct (passes done s) eqn:P.
  - pose proof emit_passing as HP. destruct em as [e |].
    + rewrite (HP e _ _ _ _ eq_refl P).
      destruct (on_call e _ _); cbn [snd]; [cbn; lra |].
      destruct done; cbn; [lra |].
      unfold passes in P. rewrite orb_false_r in P.
      apply andb_prop in P. destruct P as (_ & P).
      apply Qle_bool_iff in P. lra.
    + unfold N8n.emit_status, time_time, bind, gets. cbn. lra.
  - rewrite (emit_throttled _ _ _ _ P). cbn. lra.
Qed.

Lemma emit_all_last_emit_time calls s :
  (0 <= emit_interval valves)%Q ->
  (last_emit_time s <= last_emit_time (snd (emit_all calls s)))%Q.
Proof.
  intros Hi. revert s. induction calls as [| [[level message] done] rest IH]; intros s.
  - cbn. lra.
  - cbn [emit_all]. unfold bind.
    pose proof (emit_status_last_emit_time level message done s Hi) as H1.
    destruct (emit_status level message done s) as [[[] | e | v] s1]; cbn [snd] in *.
    + specialize (IH s1). lra.
    + exact H1.
    + exact H1.
Qed.

(** *** Parsing a body given as a string, lines 128-138 *)

Lemma parse_body_other s :
  is_str (body s) = false -> parse_body s = (Val tt, s).
Proof.
  intros H. unfold N8n.parse_body. rewrite bind_gets.
  destruct (body s); try reflexivity. discriminate.
Qed.

Lemma parse_body_dict s str d :
  body s = VStr str -> json_loads str = Some (VDict d) ->
  parse_body s = (Val tt, set_body (VDict d) s).
Proof.
  intros B J. unfold N8n.parse_body. rewrite bind_gets, B.
  apply try_except_val. unfold loads. rewrite J. reflexivity.
Qed.

(** A string body that parses to a dict is that dict's call. *)
Lemma pipe_body_parsed str d last :
  json_loads str = Some (VDict d) ->
  pipe_body (initial (VStr str) last) = pipe_body (initial (VDict d) last).
Proof.
  intros J. unfold N8n.pipe_body.
  rewrite (bind_val _ _ _ _ _ (parse_body_dict (initial (VStr str) last) str d eq_refl J)).
  rewrite (bind_val _ _ _ _ _ (parse_body_other (initial (VDict d) last) eq_refl)).
  reflexivity.
Qed.

Lemma pipe_body_of_parsed body0 b last :
  parsed body0 = Some b -> is_dict b = true ->
  pipe_body (initial body0 last) = main_block (initial b last).
Proof.
  intros P D. destruct b as [| | | | | | d]; try discriminate.
  assert (E : pipe_body (initial (VDict d) last) = main_block (initial (VDict d) last)).
  { unfold N8n.pipe_body.
    rewrite (bind_val _ _ _ _ _ (parse_body_other (initial (VDict d) last) eq_refl)).
    reflexivity. }
  destruct body0; cbn in P; try (injection P as <-; exact E); try discriminate.
  rewrite (pipe_body_parsed _ _ _ P). exact E.
Qed.

(** *** [extract_event_info], lines 26-40 *)

(** A closure cell that holds something other than a dict. *)
Definition skipped_cell (c : option value) : bool :=
  match c with
  | Some v => negb (is_dict v)
  | None => false
  end.

(** The first cell that holds a dict decides, whatever follows it. *)
Lemma first_request_info_dict pre d post :
  forallb skipped_cell pre = true ->
  first_request_info (pre ++ Some (VDict d) :: post)
  = inr (dict_get d "chat_id", dict_get d "message_id").
Proof.
  induction pre as [| c pre IH]; intros H; [reflexivity |].
  cbn [forallb] in H. apply andb_prop in H. destruct H as (H1 & H2).
  destruct c as [v |]; [| discriminate].
  destruct v; try discriminate; cbn; apply IH, H2.
Qed.

(** Without a dict among the cells there is no chat id. *)
Lemma first_request_info_none cells :
  forallb skipped_cell cells = true ->
  first_request_info cells = inr (VNone, VNone).
Proof.
  induction cells as [| c cells IH]; intros H; [reflexivity |].
  cbn [forallb] in H. apply andb_prop in H. destruct H as (H1 & H2).
  destruct c as [v |]; [| discriminate].
  destruct v; try discriminate; cbn; apply IH, H2.
Qed.

(** An empty cell before any dict makes [cell.cell_contents] raise. *)
Lemma first_request_info_empty pre post :
  forallb skipped_cell pre = true ->
  first_request_info (pre ++ None :: post)
  = inl (mkExn ValueError "ValueError" "Cell is empty").
Proof.
  induction pre as [| c pre IH]; intros H; [reflexivity |].
  cbn [forallb] in H. apply andb_prop in H. destruct H as (H1 & H2).
  destruct c as [v |]; [| discriminate].
  destruct v; try discriminate; cbn; apply IH, H2.
Qed.

(** *** The payload, lines 189-195 *)

Lemma payload_session_id chat_id question system_prompt :
  input_field valves <> "sessionId" ->
  subscript_key (payload valves chat_id question system_prompt) "sessionId"
  = inr (if is_none chat_id then VStr "unknown_session" else chat_id).
Proof.
  intros H. unfold payload.
  assert (L : lookup "sessionId"
                (assign (input_field valves) question
                   [("sessionId",
                     if negb (is_none chat_id) then chat_id
                     else VStr "unknown_session")])
              = Some (if is_none chat_id then VStr "unknown_session" else chat_id)).
  { rewrite lookup_assign_other by (intros E; apply H; symmetry; exact E).
    cbn. destruct (is_none chat_id); reflexivity. }
  destruct (truthy system_prompt); unfold subscript_key.
  - rewrite lookup_assign_other by discriminate. rewrite L. reflexivity.
  - rewrite L. reflexivity.
Qed.

Lemma payload_system_prompt chat_id question system_prompt :
  truthy system_prompt = true ->
  subscript_key (payload valves chat_id question system_prompt) "systemPrompt"
  = inr system_prompt.
Proof.
  intros H. unfold payload. rewrite H. unfold subscript_key.
  rewrite lookup_assign_same. reflexivity.
Qed.

(** The payload of a call is built from the chat id of the emitter's
    closure. *)
Lemma payload_of_ids b p :
  payload_of b = Some p ->
  exists question ids system_prompt,
    extract_event_info em = inr ids
    /\ p = payload valves (fst ids) question system_prompt.
Proof.
  unfold payload_of. destruct b as [| | | | | | d]; try discriminate.
  cbv zeta.
  destruct (truthy (dict_get_default d "messages" (VList []))); [| discriminate].
  destruct (subscript_last _) as [e | last]; [discriminate |].
  destruct (subscript_key last "content") as [e | question]; [discriminate |].
  destruct (extract_event_info em) as [e | ids]; [discriminate |].
  destruct (iterate _) as [e | msgs]; [discriminate |].
  destruct (first_system_content msgs) as [e | system_prompt]; [discriminate |].
  intros [= <-]. exists question, ids, system_prompt. auto.
Qed.

(** *** Emissions that do not reach the emitter *)

Lemma emit_without_emitter level message done s :
  em = None -> emit_status level message done s = (Val tt, tick s).
Proof.
  intros E. unfold N8n.emit_status, time_time, bind, gets. rewrite E. reflexivity.
Qed.

Lemma emit_disabled level message done s :
  enable_status_indicator valves = false ->
  emit_status level message done s = (Val tt, tick s).
Proof.
  intros E. apply emit_throttled. unfold passes. rewrite E. reflexivity.
Qed.

(** *** A body whose messages cannot be read, lines 165-187 *)

(** The exception raised between the checks of the body and the
    request, if any: by [messages[-1]["content"]], by the closure of
    the emitter or by the search for the system prompt. *)
Definition payload_error (b : value) : option exn :=
  match b with
  | VDict d =>
      let messages := dict_get_default d "messages" (VList []) in
      if truthy messages then
        match subscript_last messages with
        | inl e => Some e
        | inr last =>
            match subscript_key last "content" with
            | inl e => Some e
            | inr question =>
                match extract_event_info em with
                | inl e => Some e
                | inr ids =>
                    match iterate messages with
                    | inl e => Some e
                    | inr msgs =>
                        match first_system_content msgs with
                        | inl e => Some e
                        | inr _ => None
                        end
                    end
                end
            end
        end
      else None
  | _ => None
  end.

Lemma payload_error_no_payload b e :
  payload_error b = Some e -> payload_of b = None.
Proof.
  unfold payload_error, payload_of. destruct b as [| | | | | | d]; try discriminate.
  cbv zeta.
  destruct (truthy (dict_get_default d "messages" (VList []))); [| discriminate].
  destruct (subscript_last _) as [e1 | last]; [reflexivity |].
  destruct (subscript_key last "content") as [e1 | question]; [reflexivity |].
  destruct (extract_event_info em) as [e1 | ids]; [reflexivity |].
  destruct (iterate _) as [e1 | msgs]; [reflexivity |].
  destruct (first_system_content msgs) as [e1 | system_prompt];
    [reflexivity | discriminate].
Qed.

(** *** [last_emit_time] over a whole call *)

(** The throttle's clock reading has not moved back. *)
Definition later (s s' : state) : Prop := (last_emit_time s <= last_emit_time s')%Q.

Lemma later_refl s : later s s.
Proof. unfold later. lra. Qed.

Lemma later_trans s1 s2 s3 : later s1 s2 -> later s2 s3 -> later s1 s3.
Proof. unfold later. lra. Qed.

Section Later.
Hypothesis interval_not_negative : (0 <= emit_interval valves)%Q.

Lemma emit_later l m d : steps later (emit_status l m d).
Proof. intros s. apply emit_status_last_emit_time, interval_not_negative. Qed.

Ltac moves_on :=
  repeat match goal with
    | |- steps _ (N8n.emit_status _ _ _ _ _ _) => apply emit_later
    | |- steps _ (ret _) => apply (steps_ret later later_refl)
    | |- steps _ (raise _) => apply (steps_raise later later_refl)
    | |- steps _ (return_ _) => apply (steps_return later later_refl)
    | |- steps _ (gets _) => apply (steps_gets later later_refl)
    | |- steps _ (lift _) => apply (steps_lift later later_refl)
    | |- steps _ (modify _) =>
        apply steps_modify; intros ?; unfold later;
        cbn [last_emit_time set_body set_last_error_message set_n8n_response_content];
        apply Qle_refl
    | |- steps _ (bind _ _) => apply (steps_bind later later_trans); [| intros ?]
    | |- steps _ (try_except _ _) =>
        apply (steps_try_except later later_trans);
        [| repeat (apply Forall_cons; [intros ?; cbn [snd] |]); try apply Forall_nil]
    | |- steps _ (if _ then _ else _) => apply steps_if
    | |- steps _ (match ?x with _ => _ end) => destruct x
    | |- steps _ (let _ := _ in _) => cbv zeta
    end.

Lemma requests_post_later req : steps later (requests_post endpoint req).
Proof.
  intros s. unfold requests_post, later.
  destruct (endpoint req); cbn [snd last_emit_time record]; lra.
Qed.

Lemma append_message_later msg : steps later (append_message msg).
Proof. unfold append_message. moves_on. Qed.

Lemma finish_later : steps later finish.
Proof.
  unfold N8n.finish.
  apply (steps_bind later later_trans); [apply (steps_gets later later_refl) |].
  intros content. apply steps_if.
  - apply (steps_bind later later_trans); [apply append_message_later | intros _].
    apply (steps_bind later later_trans); [apply emit_later | intros _].
    apply (steps_return later later_refl).
  - apply (steps_bind later later_trans); [apply (steps_gets later later_refl) |].
    intros err. cbv zeta.
    apply (steps_bind later later_trans); [apply emit_later | intros _].
    apply (steps_bind later later_trans); [apply append_message_later | intros _].
    apply (steps_return later later_refl).
Qed.

Lemma handle_response_later r : steps later (handle_response r).
Proof.
  unfold N8n.handle_response, N8n.on_success_status, response_json. moves_on.
Qed.

Lemma request_block_later p : steps later (request_block p).
Proof.
  unfold N8n.request_block. apply (steps_try_except later later_trans).
  - apply (steps_bind later later_trans); [apply emit_later | intros _].
    apply (steps_bind later later_trans); [apply requests_post_later |].
    intros r. apply handle_response_later.
  - repeat (apply Forall_cons; [intros ?; cbn [snd] |]); [| apply Forall_nil].
    moves_on.
Qed.

Lemma parse_body_later : steps later parse_body.
Proof. unfold N8n.parse_body, loads. moves_on. Qed.

Lemma main_block_later : steps later main_block.
Proof.
  unfold N8n.main_block.
  apply (steps_bind later later_trans); [apply (steps_gets later later_refl) |].
  intros b.
  destruct b as [| | | | | | d];
    try (cbv zeta; apply (steps_bind later later_trans);
         [apply emit_later | intros _; apply (steps_return later later_refl)]).
  cbv zeta. apply steps_if.
  - apply (steps_bind later later_trans); [apply emit_later | intros _].
    apply (steps_bind later later_trans); [apply append_message_later | intros _].
    apply (steps_return later later_refl).
  - apply (steps_bind later later_trans); [apply (steps_lift later later_refl) |].
    intros last.
    apply (steps_bind later later_trans); [apply (steps_lift later later_refl) |].
    intros question.
    apply (steps_bind later later_trans); [apply emit_later | intros _].
    apply (steps_bind later later_trans); [apply (steps_lift later later_refl) |].
    intros ids. cbv zeta.
    apply (steps_bind later later_trans); [apply (steps_lift later later_refl) |].
    intros msgs.
    apply (steps_bind later later_trans); [apply (steps_lift later later_refl) |].
    intros system_prompt.
    apply (steps_bind later later_trans); [apply request_block_later | intros _].
    apply finish_later.
Qed.

(** With a non-negative interval, a call leaves [last_emit_time] where
    it was or later. *)
Lemma pipe_later body0 last :
  (last <= final_last_emit_time (pipe body0 last))%Q.
Proof.
  rewrite n8n_pipe_eq. unfold n8n_run_of; cbn [final_last_emit_time].
  change (later (initial body0 last) (snd (pipe_body (initial body0 last)))).
  unfold N8n.pipe_body.
  apply (steps_bind later later_trans); [apply parse_body_later |].
  intros _. apply main_block_later.
Qed.

End Later.

(** A run of emissions that never reach the emitter. *)
Lemma emit_all_silent calls s :
  em = None \/ enable_status_indicator valves = false ->
  exists s',
    emit_all calls s = (Val tt, s')
    /\ trace s' = trace s
    /\ last_emit_time s' = last_emit_time s
    /\ body s' = body s
    /\ ticks s' = ticks s + length calls.
Proof.
  intros H. revert s. induction calls as [| [[level message] done] rest IH]; intros s.
  - exists s. cbn. rewrite Nat.add_0_r. auto.
  - cbn [emit_all].
    assert (E : emit_status level message done s = (Val tt, tick s)).
    { destruct H as [H | H];
        [apply emit_without_emitter | apply emit_disabled]; exact H. }
    rewrite (bind_val _ _ _ _ _ E).
    destruct (IH (tick s)) as (s' & E' & Ht & Hl & Hb & Hn).
    exists s'. split; [exact E' |]. cbn [length trace last_emit_time body ticks tick] in *.
    repeat split; try assumption. lia.
Qed.

(** *** The system prompt, lines 180-187 *)

(** A message that the search for the system prompt passes over. *)
Definition not_system (msg : value) : bool :=
  match msg with
  | VDict d => negb (eq_str (dict_get d "role") "system")
  | _ => false
  end.

Lemma first_system_content_first pre d post :
  forallb not_system pre = true ->
  eq_str (dict_get d "role") "system" = true ->
  first_system_content (pre ++ VDict d :: post) = subscript_key (VDict d) "content".
Proof.
  intros H R. induction pre as [| m pre IH].
  - cbn [app first_system_content method_get]. rewrite R. reflexivity.
  - cbn [forallb] in H. apply andb_prop in H. destruct H as (H1 & H2).
    destruct m as [| | | | | | md]; try discriminate.
    cbn [not_system] in H1. apply negb_true_iff in H1.
    cbn [app first_system_content method_get]. rewrite H1. apply IH, H2.
Qed.

Lemma first_system_content_none msgs :
  forallb not_system msgs = true -> first_system_content msgs = inr VNone.
Proof.
  induction msgs as [| m msgs IH]; intros H; [reflexivity |].
  cbn [forallb] in H. apply andb_prop in H. destruct H as (H1 & H2).
  destruct m as [| | | | | | md]; try discriminate.
  cbn [not_system] in H1. apply negb_true_iff in H1.
  cbn [first_system_content method_get]. rewrite H1. apply IH, H2.
Qed.

(** The payload of a body is built with the system prompt found in its
    messages. *)
Lemma payload_of_system d msgs p :
  lookup "messages" d = Some (VList msgs) ->
  payload_of (VDict d) = Some p ->
  exists question (ids : value * value) system_prompt,
    first_system_content msgs = inr system_prompt
    /\ p = payload valves (fst ids) question system_prompt.
Proof.
  intros L. unfold payload_of, dict_get_default. rewrite L. cbv zeta.
  destruct (truthy (VList msgs)); [| discriminate].
  destruct (subscript_last _) as [e | last]; [discriminate |].
  destruct (subscript_key last "content") as [e | question]; [discriminate |].
  destruct (extract_event_info em) as [e | ids]; [discriminate |].
  cbn [iterate].
  destruct (first_system_content msgs) as [e | system_prompt]; [discriminate |].
  intros [= <-]. exists question, ids, system_prompt. auto.
Qed.

Lemma payload_without_system_prompt chat_id question system_prompt :
  truthy system_prompt = false ->
  input_field valves <> "systemPrompt" ->
  subscript_key (payload valves chat_id question system_prompt) "systemPrompt"
  = inl (KeyError "'systemPrompt'").
Proof.
  intros T H. unfold payload. rewrite T. unfold subscript_key.
  rewrite lookup_assign_other by (intros E; apply H; symmetry; exact E).
  reflexivity.
Qed.

Section Returns.
Hypothesis Hem : emitter_returns em.

(** Symbolic execution of straight-line code. *)
Ltac run :=
  repeat (first
    [ rewrite (n8n_bind_emit _ _ _ _ _ Hem)
    | rewrite bind_gets
    | rewrite bind_modify
    | rewrite bind_ret
    | rewrite bind_lift_inr
    | rewrite bind_lift_inl
    | rewrite bind_raise
    | rewrite bind_return
    | rewrite bind_assoc ]; cbv beta).

Definition invalid_json_body : string := "Invalid JSON string received in 'body'.".

Definition not_a_dict_body (v : value) : string :=
  "Expected 'body' to be a dictionary but got " ++ type_name v ++ ".".

Lemma parse_body_invalid s str :
  body s = VStr str -> json_loads str = None ->
  parse_body s
  = (Return (error_dict invalid_json_body), after_emit "error" invalid_json_body true s).
Proof.
  intros B J. unfold N8n.parse_body. rewrite bind_gets, B.
  unfold try_except, loads. rewrite J, bind_raise.
  cbn [select is_JSONDecodeError exn_cls]. run. reflexivity.
Qed.

Lemma parse_body_not_dict s str v :
  body s = VStr str -> json_loads str = Some v -> is_dict v = false ->
  parse_body s
  = (Return (error_dict (not_a_dict_body v)),
     after_emit "error" (not_a_dict_body v) true (set_body v s)).
Proof.
  intros B J D. unfold N8n.parse_body. rewrite bind_gets, B.
  apply try_except_returned. unfold loads. rewrite J. run. rewrite D.
  cbn [negb]. run. reflexivity.
Qed.

(** *** The checks of lines 140-162 *)

Definition not_a_dict : string := "Request body is not a valid dictionary.".

Definition no_messages : string :=
  "Error: No messages found in the request body to process.".

Lemma main_block_not_dict s :
  is_dict (body s) = false ->
  main_block s = (Return (error_dict not_a_dict), after_emit "error" not_a_dict true s).
Proof.
  intros H. unfold N8n.main_block. rewrite bind_gets.
  destruct (body s); try discriminate; run; reflexivity.
Qed.

Lemma main_block_no_messages s d b' :
  body s = VDict d ->
  truthy (dict_get_default d "messages" (VList [])) = false ->
  setdefault_append (VDict d) (assistant_message (VStr no_messages)) = inr b' ->
  main_block s
  = (Return (error_dict no_messages),
     set_body b' (after_emit "error" no_messages true s)).
Proof.
  intros B T A. unfold N8n.main_block. rewrite bind_gets, B. cbv zeta.
  rewrite T. cbn [negb]. run. unfold append_message. run.
  rewrite n8n_body_after_emit, B. fold no_messages. rewrite A. run. reflexivity.
Qed.

(** With a payload the block emits one status line and enters the
    request block. *)
Lemma main_block_payload s p :
  payload_of (body s) = Some p ->
  main_block s
  = bind (request_block p) (fun _ => finish)
         (after_emit "info" "Calling n8n workflow..." false s).
Proof.
  intros H. unfold N8n.main_block. rewrite bind_gets. unfold payload_of in H.
  destruct (body s) as [| | | | | | d]; try discriminate.
  cbv zeta in *.
  destruct (truthy (dict_get_default d "messages" (VList []))); [| discriminate].
  cbn [negb].
  destruct (subscript_last _) as [e | last]; [discriminate |]. run.
  destruct (subscript_key last "content") as [e | question]; [discriminate |]. run.
  destruct (extract_event_info em) as [e | ids]; [discriminate |]. run.
  destruct (iterate _) as [e | msgs]; [discriminate |]. run.
  destruct (first_system_content msgs) as [e | system_prompt]; [discriminate |]. run.
  injection H as <-. reflexivity.
Qed.

(** *** The request and the classification of the answer *)

Lemma request_block_answered p s r s' :
  endpoint (post_request valves p) = inr r ->
  handle_response r
    (record (Posted (post_request valves p))
       (after_emit "info" "Sending request to N8N..." false s))
  = (Val tt, s') ->
  request_block p s = (Val tt, s').
Proof.
  intros Ep Hh. unfold N8n.request_block. apply try_except_val. run.
  unfold bind, requests_post. rewrite Ep. exact Hh.
Qed.


Definition empty_list_message : string :=
  "Error processing N8N response: Received an empty list from N8N response.".

(** Lines 222-227: an empty list is an error of its own. *)
Lemma on_success_status_empty_list r s :
  json_loads (text r) = Some (VList []) ->
  on_success_status r s
  = (Val tt,
     after_emit "error" empty_list_message true
       (set_last_error_message empty_list_message s)).
Proof.
  intros J. unfold N8n.on_success_status, try_except, response_json.
  rewrite J. run.
  cbn [select is_JSONDecodeError is_ValueError exn_cls exn_str]. run.
  apply (n8n_emit_status_eq _ _ _ _ Hem).
Qed.

(** The object the response field is looked up in: the document, or
    the first item of a list (lines 222-227). *)
Definition response_object (doc : value) : option value :=
  match doc with
  | VList [] => None
  | VList (first :: _) => Some first
  | v => Some v
  end.

Lemma bind_response_object doc data (k : value -> M state unit) s :
  response_object doc = Some data ->
  bind match doc with
       | VList [] =>
           raise (mkExn ValueError "ValueError"
                        "Received an empty list from N8N response.")
       | VList (first :: _) => ret first
       | v => ret v
       end k s = k data s.
Proof.
  intros O.
  destruct doc as [| | | | | [| first rest] |]; cbn in O; try discriminate;
    injection O as <-; reflexivity.
Qed.

(** Lines 229-235: the field is there. *)
Lemma on_success_status_found r s doc d content :
  json_loads (text r) = Some doc ->
  response_object doc = Some (VDict d) ->
  lookup (response_field valves) d = Some content ->
  on_success_status r s = (Val tt, set_n8n_response_content content s).
Proof.
  intros J O L. unfold N8n.on_success_status, response_json.
  apply try_except_val. rewrite J. run.
  rewrite (bind_response_object doc (VDict d) _ _ O). cbv beta zeta.
  rewrite L. reflexivity.
Qed.

(** Lines 236-250: the field is missing. *)
Lemma on_success_status_missing r s doc data :
  json_loads (text r) = Some doc ->
  response_object doc = Some data ->
  match data with
  | VDict d => lookup (response_field valves) d = None
  | _ => True
  end ->
  on_success_status r s
  = (Val tt,
     after_emit "error" (missing_field_message py_repr valves r data) true
       (set_last_error_message (missing_field_message py_repr valves r data) s)).
Proof.
  intros J O L. unfold N8n.on_success_status, response_json.
  apply try_except_val. rewrite J. run.
  rewrite (bind_response_object doc data _ _ O). cbv beta zeta.
  destruct data as [| | | | | | d]; try rewrite L; run;
    apply (n8n_emit_status_eq _ _ _ _ Hem).
Qed.

(** *** The end of the call, lines 296-329 *)

Lemma n8n_finish_content s b' :
  is_none (n8n_response_content s) = false ->
  setdefault_append (body s) (assistant_message (n8n_response_content s)) = inr b' ->
  finish s
  = (Return (n8n_response_content s),
     after_emit "info" "N8N workflow completed successfully." true (set_body b' s)).
Proof.
  intros H A. unfold N8n.finish. rewrite bind_gets, H. cbn [negb].
  unfold append_message. run. rewrite A. run. reflexivity.
Qed.

Definition unknown_failure : string :=
  "An unknown error occurred during the N8N request.".

(** The message a failed call reports. *)
Definition final_error (err : option string) : string :=
  match err with
  | Some m => if negb (String.eqb m "") then m else unknown_failure
  | None => unknown_failure
  end.

Definition failure_message (err : option string) : value :=
  assistant_message (VStr ("Error calling N8N workflow: " ++ final_error err)).

Lemma n8n_finish_error s b' :
  is_none (n8n_response_content s) = true ->
  setdefault_append (body s) (failure_message (last_error_message s)) = inr b' ->
  finish s
  = (Return (error_dict (final_error (last_error_message s))),
     set_body b'
       (after_emit "error"
          ("Final Error calling N8N: " ++ final_error (last_error_message s)) true s)).
Proof.
  intros H A. unfold N8n.finish. rewrite bind_gets, H. cbn [negb].
  rewrite bind_gets. cbv beta zeta.
  unfold failure_message, final_error, unknown_failure in *.
  run. unfold append_message. run.
  rewrite n8n_body_after_emit, A. run. reflexivity.
Qed.

(** *** The outcome of an answered call *)

(** Once the answer is classified, the content and the error message
    decide: the content is appended and returned, or the failure is
    appended and an error value returned. *)
Lemma pipe_answered body0 last b p r c err :
  parsed body0 = Some b ->
  payload_of b = Some p ->
  endpoint (post_request valves p) = inr r ->
  (forall s, n8n_response_content s = VNone -> last_error_message s = None ->
     exists s',
       handle_response r s = (Val tt, s')
       /\ body s' = body s
       /\ n8n_response_content s' = c /\ last_error_message s' = err) ->
  result (pipe body0 last)
  = Returned (if is_none c then error_dict (final_error err) else c)
  /\ final_body (pipe body0 last)
     = appended b (if is_none c then failure_message err else assistant_message c)
  /\ posts (events (pipe body0 last)) = [post_request valves p].
Proof.
  intros P Q Ep Hh.
  rewrite n8n_pipe_eq, (pipe_body_of_parsed body0 b last P (payload_of_dict b p Q)).
  rewrite (main_block_payload _ p) by exact Q.
  set (s1 := after_emit "info" "Calling n8n workflow..." false (initial b last)).
  set (s2 := record (Posted (post_request valves p))
               (after_emit "info" "Sending request to N8N..." false s1)).
  destruct (Hh s2) as (s3 & Eh & Hb & Hc & He).
  { unfold s2, s1. cbn [n8n_response_content record].
    rewrite !n8n_content_after_emit. reflexivity. }
  { unfold s2, s1. cbn [last_error_message record].
    rewrite !n8n_error_after_emit. reflexivity. }
  assert (Hs3 : sent s3 = [post_request valves p]).
  { replace s3 with (snd (handle_response r s2)) by (rewrite Eh; reflexivity).
    rewrite n8n_handle_response_sends_nothing.
    unfold s2, s1, sent. cbn [trace record]. rewrite posts_app.
    change (posts (trace ?x)) with (sent x). rewrite !n8n_sent_after_emit.
    reflexivity. }
  assert (Hb3 : body s3 = b).
  { rewrite Hb. unfold s2, s1. cbn [body record]. rewrite !n8n_body_after_emit.
    reflexivity. }
  rewrite (bind_val _ _ _ _ _ (request_block_answered p s1 r s3 Ep Eh)).
  destruct (is_none c) eqn:N.
  - destruct (payload_appendable b p (failure_message err) Q) as (d & l & Eb & _ & Ea).
    rewrite (n8n_finish_error s3 (VDict (assign "messages"
                                          (VList (l ++ [failure_message err])) d))).
    + unfold n8n_run_of, appended;
        cbn [fst snd result final_body events body trace set_body].
      rewrite Ea, He.
      change (posts (trace ?x)) with (sent x). rewrite n8n_sent_after_emit. auto.
    + rewrite Hc. exact N.
    + rewrite Hb3, He. exact Ea.
  - destruct (payload_appendable b p (assistant_message c) Q) as (d & l & Eb & _ & Ea).
    rewrite (n8n_finish_content s3 (VDict (assign "messages"
                                            (VList (l ++ [assistant_message c])) d))).
    + unfold n8n_run_of, appended; cbn [fst snd result final_body events].
      rewrite Ea, n8n_body_after_emit, Hc.
      change (posts (trace ?x)) with (sent x). rewrite n8n_sent_after_emit. auto.
    + rewrite Hc. exact N.
    + rewrite Hb3, Hc. exact Ea.
Qed.

(** *** Calls that end before the request *)

Lemma n8n_pipe_no_messages body0 last d :
  parsed body0 = Some (VDict d) ->
  lookup "messages" d = None \/ lookup "messages" d = Some (VList []) ->
  result (pipe body0 last) = Returned (error_dict no_messages)
  /\ final_body (pipe body0 last)
     = VDict (assign "messages" (VList [assistant_message (VStr no_messages)]) d).
Proof.
  intros P L.
  rewrite n8n_pipe_eq, (pipe_body_of_parsed body0 (VDict d) last P eq_refl).
  rewrite (main_block_no_messages (initial (VDict d) last) d
             (VDict (assign "messages"
                       (VList [assistant_message (VStr no_messages)]) d)) eq_refl).
  - unfold n8n_run_of. cbn [fst snd result final_body body set_body]. auto.
  - unfold dict_get_default. destruct L as [-> | ->]; reflexivity.
  - unfold setdefault_append. destruct L as [-> | ->]; reflexivity.
Qed.

Lemma n8n_pipe_invalid_json str last :
  json_loads str = None ->
  result (pipe (VStr str) last) = Returned (error_dict invalid_json_body).
Proof.
  intros J. rewrite n8n_pipe_eq. unfold N8n.pipe_body.
  rewrite (bind_returned _ _ _ _ _
             (parse_body_invalid (initial (VStr str) last) str eq_refl J)).
  reflexivity.
Qed.

Lemma n8n_pipe_parsed_not_dict str v last :
  json_loads str = Some v -> is_dict v = false ->
  result (pipe (VStr str) last) = Returned (error_dict (not_a_dict_body v)).
Proof.
  intros J D. rewrite n8n_pipe_eq. unfold N8n.pipe_body.
  rewrite (bind_returned _ _ _ _ _
             (parse_body_not_dict (initial (VStr str) last) str v eq_refl J D)).
  reflexivity.
Qed.

(** *** The other ways a request ends *)

Lemma handle_response_unexpected r s :
  (200 <=? status_code r)%Z && (status_code r <? 300)%Z = false ->
  (400 <=? status_code r)%Z && (status_code r <? 500)%Z = false ->
  handle_response r s
  = (Val tt,
     after_emit "error" (unexpected_status_message r) true
       (set_last_error_message (unexpected_status_message r) s)).
Proof.
  intros H2 H4. unfold N8n.handle_response. rewrite H2, H4.
  run. apply (n8n_emit_status_eq _ _ _ _ Hem).
Qed.

(** Lines 252-259: the body is not JSON. *)
Lemma on_success_status_invalid r s :
  json_loads (text r) = None ->
  on_success_status r s
  = (Val tt,
     after_emit "error" (invalid_json_message r) true
       (set_last_error_message (invalid_json_message r) s)).
Proof.
  intros J. unfold N8n.on_success_status, try_except, response_json.
  rewrite J. run.
  cbn [select is_JSONDecodeError exn_cls]. run.
  apply (n8n_emit_status_eq _ _ _ _ Hem).
Qed.

(** What [last_error_message] holds when [requests.post] raises,
    lines 286-292. *)
Definition request_failed_message (e : exn) : string :=
  "Request to N8N failed: " ++ exn_name e ++ " - " ++ exn_str e ++ ".".

Lemma request_block_raises p s e :
  endpoint (post_request valves p) = inl e ->
  request_block p s
  = (Val tt,
     after_emit "warning" (request_failed_message e) false
       (set_last_error_message (request_failed_message e)
          (record (Posted (post_request valves p))
             (after_emit "info" "Sending request to N8N..." false s)))).
Proof.
  intros Ep. unfold N8n.request_block.
  match goal with
  | |- try_except ?m ?hs s = _ =>
      assert (Em : m s
                   = (Raise e,
                      record (Posted (post_request valves p))
                        (after_emit "info" "Sending request to N8N..." false s)))
  end.
  { run. unfold bind, requests_post. rewrite Ep. reflexivity. }
  rewrite (try_except_raised _ _ _ _ _ Em). cbn [select is_Exception].
  fold (request_failed_message e). run.
  apply (n8n_emit_status_eq _ _ _ _ Hem).
Qed.

(** A call whose request is not answered appends the failure to the
    body and returns it as an error value. *)
Lemma n8n_pipe_post_raises body0 last b p e :
  parsed body0 = Some b ->
  payload_of b = Some p ->
  endpoint (post_request valves p) = inl e ->
  result (pipe body0 last) = Returned (error_dict (request_failed_message e))
  /\ final_body (pipe body0 last)
     = appended b (failure_message (Some (request_failed_message e)))
  /\ posts (events (pipe body0 last)) = [post_request valves p].
Proof.
  intros P Q Ep.
  rewrite n8n_pipe_eq, (pipe_body_of_parsed body0 b last P (payload_of_dict b p Q)).
  rewrite (main_block_payload _ p) by exact Q.
  set (s1 := after_emit "info" "Calling n8n workflow..." false (initial b last)).
  rewrite (bind_val _ _ _ _ _ (request_block_raises p s1 e Ep)).
  set (msg := request_failed_message e).
  set (s2 := record (Posted (post_request valves p))
               (after_emit "info" "Sending request to N8N..." false s1)).
  set (s3 := after_emit "warning" msg false (set_last_error_message msg s2)).
  assert (Hb3 : body s3 = b).
  { unfold s3. rewrite n8n_body_after_emit. cbn [body set_last_error_message].
    unfold s2. cbn [body record]. unfold s1. rewrite !n8n_body_after_emit.
    reflexivity. }
  assert (Hc3 : n8n_response_content s3 = VNone).
  { unfold s3. rewrite n8n_content_after_emit.
    cbn [n8n_response_content set_last_error_message].
    unfold s2. cbn [n8n_response_content record]. unfold s1.
    rewrite !n8n_content_after_emit. reflexivity. }
  assert (He3 : last_error_message s3 = Some msg).
  { unfold s3. rewrite n8n_error_after_emit. reflexivity. }
  assert (Hs3 : sent s3 = [post_request valves p]).
  { unfold s3. rewrite n8n_sent_after_emit.
    unfold sent, s2. cbn [trace set_last_error_message record]. rewrite posts_app.
    change (posts (trace ?x)) with (sent x). unfold s1.
    rewrite !n8n_sent_after_emit. reflexivity. }
  assert (Hfe : final_error (Some msg) = msg) by reflexivity.
  destruct (payload_appendable b p (failure_message (Some msg)) Q)
    as (d & l & Eb & _ & Ea).
  rewrite (n8n_finish_error s3 (VDict (assign "messages"
                                        (VList (l ++ [failure_message (Some msg)])) d))).
  - unfold n8n_run_of, appended;
      cbn [fst snd result final_body events body trace set_body].
    rewrite Ea, He3, Hfe.
    change (posts (trace ?x)) with (sent x). rewrite n8n_sent_after_emit. auto.
  - rewrite Hc3. reflexivity.
  - rewrite Hb3, He3. exact Ea.
Qed.

(** A body whose messages cannot be read makes [pipe] raise: lines
    165-187 stand outside every [try]. *)
Lemma n8n_pipe_raises body0 last b e :
  parsed body0 = Some b ->
  payload_error b = Some e ->
  result (pipe body0 last) = Raised e
  /\ final_body (pipe body0 last) = b.
Proof.
  intros P H.
  assert (D : is_dict b = true).
  { unfold payload_error in H. destruct b; try discriminate. reflexivity. }
  rewrite n8n_pipe_eq, (pipe_body_of_parsed body0 b last P D).
  assert (E : exists s', main_block (initial b last) = (Raise e, s') /\ body s' = b).
  { unfold N8n.main_block. rewrite bind_gets. unfold payload_error in H.
    cbn [body initial].
    destruct b as [| | | | | | d]; try discriminate.
    cbv zeta in *.
    destruct (truthy (dict_get_default d "messages" (VList []))); [| discriminate].
    cbn [negb].
    destruct (subscript_last _) as [e1 | last'].
    { injection H as <-. run. eexists. split; reflexivity. }
    run.
    destruct (subscript_key last' "content") as [e1 | question].
    { injection H as <-. run. eexists. split; reflexivity. }
    run.
    destruct (extract_event_info em) as [e1 | ids].
    { injection H as <-. run. eexists. split; [reflexivity |].
      apply n8n_body_after_emit. }
    run.
    destruct (iterate _) as [e1 | msgs].
    { injection H as <-. run. eexists. split; [reflexivity |].
      apply n8n_body_after_emit. }
    run.
    destruct (first_system_content msgs) as [e1 | system_prompt]; [| discriminate].
    injection H as <-. run. eexists. split; [reflexivity |].
    apply n8n_body_after_emit. }
  destruct E as (s' & -> & Hb).
  unfold n8n_run_of; cbn [fst snd result final_body]. auto.
Qed.

End Returns.

End Facts.

End N8nFacts.

(* ================================================================== *)
(** ** The properties of the two adapters                              *)
(* ================================================================== *)

Module Claims.
Import Py Eff Host.

(** A body without messages, as far as both adapters turn it down.  For
    a dict body whose ["messages"] list is empty or absent, neither
    adapter issues an HTTP request; the Flowise adapter returns an error
    value (a dict with an ['error'] key) whatever the emitter does, the
    n8n adapter when its emitter returns normally. *)
Theorem empty_messages_rejected :
  forall (json_loads : string -> option value) (py_repr : value -> string)
         (d : list (string * value)),
    lookup "messages" d = None \/ lookup "messages" d = Some (VList []) ->
    (forall valves em endpoint,
       let run := Flowise.pipe json_loads py_repr valves em endpoint (VDict d) in
       (exists msg, Flowise.result run = Flowise.Returned (error_dict msg))
       /\ posts (Flowise.events run) = [])
    /\ (forall clock valves em endpoint last,
          let run := N8n.pipe json_loads py_repr clock valves em endpoint
                              (VDict d) last in
          posts (N8n.events run) = []
          /\ (emitter_returns em ->
              exists msg, N8n.result run = N8n.Returned (error_dict msg))).
Proof.
  intros json_loads py_repr d L.
  assert (T : truthy (dict_get_default d "messages" (VList [])) = false).
  { unfold dict_get_default. destruct L as [-> | ->]; reflexivity. }
  split.
  - intros valves em endpoint run.
    assert (Q : FlowiseFacts.question_of (VDict d) = None).
    { unfold FlowiseFacts.question_of. cbv zeta. rewrite T. reflexivity. }
    destruct (FlowiseFacts.pipe_no_question json_loads py_repr valves em endpoint
                (VDict d) Q) as (Hr & _ & Hp & _).
    split; assumption.
  - intros clock valves em endpoint last run. split.
    + destruct (N8nFacts.n8n_pipe_posts json_loads py_repr clock valves em endpoint
                  (VDict d) last) as [H | (b & p & Hb & Hp & _)]; [exact H |].
      cbn in Hb. injection Hb as <-.
      unfold N8nFacts.payload_of in Hp. cbv zeta in Hp. rewrite T in Hp.
      discriminate.
    + intros Hem. eexists.
      apply (N8nFacts.n8n_pipe_no_messages json_loads py_repr clock valves em
               endpoint Hem (VDict d) last d eq_refl L).
Qed.

Lemma empty_messages_rejected_witness :
  (exists msg,
     Flowise.result
       (Flowise.pipe Json.loads Json.repr Flowise.default_valves
          (Some Examples.emitter_ok) Examples.unreachable (VDict []))
     = Flowise.Returned (error_dict msg))
  /\ (exists msg,
        N8n.result
          (N8n.pipe Json.loads Json.repr Examples.clock_tenths N8n.default_valves
             (Some Examples.emitter_ok) Examples.unreachable (VDict []) 0%Q)
        = N8n.Returned (error_dict msg)).
Proof.
  destruct (empty_messages_rejected Json.loads Json.repr [] (or_introl eq_refl))
    as [HF HN].
  split.
  - apply HF.
  - apply HN. intros tr message. reflexivity.
Defined.

(** C6.  For a body without messages the n8n adapter does not return
    an error value when the emitter raises.  [emit_status] hands the
    error to the emitter as a terminal status (line 151); its call of
    the emitter (line 111) is not guarded, so the emitter's exception
    leaves [pipe]: the call raises, before the error message is
    appended to the body (line 158) and before the [return] of line
    162.  Nothing is sent.  On the same input the Flowise adapter,
    whose [emit_status] catches what the emitter raises
    (src/flowise.py, lines 112-117), returns its error value. *)
Theorem empty_messages_with_failing_emitter :
  let n8n body :=
    N8n.pipe Json.loads Json.repr Examples.clock_tenths N8n.default_valves
      (Some Examples.emitter_failing) Examples.unreachable body 0%Q in
  let flowise body :=
    Flowise.pipe Json.loads Json.repr Flowise.default_valves
      (Some Examples.emitter_failing) Examples.unreachable body in
  let down := mkExn OtherException "RuntimeError" "emitter down" in
  let no_messages := "Error: No messages found in the request body to process." in
  (N8n.result (n8n (VDict [])) = N8n.Raised down
   /\ N8n.final_body (n8n (VDict [])) = VDict []
   /\ posts (N8n.events (n8n (VDict []))) = [])
  /\ (N8n.result (n8n (Examples.conversation [])) = N8n.Raised down
      /\ N8n.final_body (n8n (Examples.conversation [])) = Examples.conversation []
      /\ posts (N8n.events (n8n (Examples.conversation []))) = [])
  /\ Flowise.result (flowise (VDict [])) = Flowise.Returned (error_dict no_messages)
  /\ Flowise.result (flowise (Examples.conversation []))
     = Flowise.Returned (error_dict no_messages).
Proof. vm_compute. repeat split. Qed.

(** A string body, as far as the n8n adapter handles it.  When [pipe]
    is given a string, the string is parsed as JSON: if it parses to a
    dict the call is the call on that dict; if it is not valid JSON, or
    parses to something else, no HTTP request is issued and, when the
    emitter returns normally, an error dict is returned. *)
Theorem string_body_is_parsed :
  forall (json_loads : string -> option value) (py_repr : value -> string)
         (clock : nat -> Q) valves em endpoint (str : string) (last : Q),
    let run := N8n.pipe json_loads py_repr clock valves em endpoint (VStr str) last in
    (forall d, json_loads str = Some (VDict d) ->
       run = N8n.pipe json_loads py_repr clock valves em endpoint (VDict d) last)
    /\ (json_loads str = None ->
        posts (N8n.events run) = []
        /\ (emitter_returns em ->
            N8n.result run
            = N8n.Returned (error_dict "Invalid JSON string received in 'body'.")))
    /\ (forall v, json_loads str = Some v -> is_dict v = false ->
        posts (N8n.events run) = []
        /\ (emitter_returns em ->
            N8n.result run
            = N8n.Returned
                (error_dict ("Expected 'body' to be a dictionary but got "
                             ++ type_name v ++ ".")))).
Proof.
  intros json_loads py_repr clock valves em endpoint str last run.
  split; [| split].
  - intros d J. unfold run, N8n.pipe.
    rewrite (N8nFacts.pipe_body_parsed json_loads py_repr clock valves em endpoint
               str d last J).
    reflexivity.
  - intros J. split.
    + destruct (N8nFacts.n8n_pipe_posts json_loads py_repr clock valves em endpoint
                  (VStr str) last) as [H | (b & p & Hb & _)]; [exact H |].
      cbn in Hb. congruence.
    + intros Hem.
      apply (N8nFacts.n8n_pipe_invalid_json json_loads py_repr clock valves em
               endpoint Hem str last J).
  - intros v J D. split.
    + destruct (N8nFacts.n8n_pipe_posts json_loads py_repr clock valves em endpoint
                  (VStr str) last) as [H | (b & p & Hb & Hp & _)]; [exact H |].
      cbn in Hb. rewrite J in Hb. injection Hb as <-.
      apply N8nFacts.payload_of_dict in Hp. congruence.
    + intros Hem.
      apply (N8nFacts.n8n_pipe_parsed_not_dict json_loads py_repr clock valves em
               endpoint Hem str v last J D).
Qed.

Lemma string_body_is_parsed_witness :
  N8n.pipe Json.loads Json.repr Examples.clock_tenths N8n.default_valves
    (Some Examples.emitter_ok) Examples.unreachable
    (VStr (Json.js "{'messages': []}")) 0%Q
  = N8n.pipe Json.loads Json.repr Examples.clock_tenths N8n.default_valves
      (Some Examples.emitter_ok) Examples.unreachable
      (VDict [("messages", VList [])]) 0%Q
  /\ N8n.result
       (N8n.pipe Json.loads Json.repr Examples.clock_tenths N8n.default_valves
          (Some Examples.emitter_ok) Examples.unreachable (VStr "{oops") 0%Q)
     = N8n.Returned (error_dict "Invalid JSON string received in 'body'.")
  /\ N8n.result
       (N8n.pipe Json.loads Json.repr Examples.clock_tenths N8n.default_valves
          (Some Examples.emitter_ok) Examples.unreachable (VStr "[1, 2]") 0%Q)
     = N8n.Returned
         (error_dict "Expected 'body' to be a dictionary but got list.").
Proof.
  split; [| split].
  - apply (string_body_is_parsed Json.loads Json.repr Examples.clock_tenths
             N8n.default_valves (Some Examples.emitter_ok) Examples.unreachable
             (Json.js "{'messages': []}") 0%Q).
    reflexivity.
  - apply (string_body_is_parsed Json.loads Json.repr Examples.clock_tenths
             N8n.default_valves (Some Examples.emitter_ok) Examples.unreachable
             "{oops" 0%Q).
    + reflexivity.
    + intros tr message. reflexivity.
  - apply (string_body_is_parsed Json.loads Json.repr Examples.clock_tenths
             N8n.default_valves (Some Examples.emitter_ok) Examples.unreachable
             "[1, 2]" 0%Q
             ) with (v := VList [VInt 1; VInt 2]).
    + reflexivity.
    + reflexivity.
    + intros tr message. reflexivity.
Defined.

(** C9.  For a string body that is not valid JSON, or that parses to
    something other than a dict, the n8n adapter does not return an
    error dict when the emitter raises.  The error is handed to the
    emitter as a terminal status (lines 137 and 133) through the
    unguarded call of line 111, so the emitter's exception leaves
    [pipe] before the [return] of line 138 or 134.  Nothing is sent. *)
Theorem string_body_with_failing_emitter :
  let n8n body :=
    N8n.pipe Json.loads Json.repr Examples.clock_tenths N8n.default_valves
      (Some Examples.emitter_failing) Examples.unreachable (VStr body) 0%Q in
  let down := mkExn OtherException "RuntimeError" "emitter down" in
  (Json.loads "{oops" = None
   /\ N8n.result (n8n "{oops") = N8n.Raised down
   /\ posts (N8n.events (n8n "{oops")) = [])
  /\ (Json.loads "[1, 2]" = Some (VList [VInt 1; VInt 2])
      /\ N8n.result (n8n "[1, 2]") = N8n.Raised down
      /\ posts (N8n.events (n8n "[1, 2]")) = []).
Proof. vm_compute. repeat split. Qed.


(** The one request of a Flowise call, read off its trace. *)
Lemma flowise_posted json_loads py_repr valves em endpoint body0 req :
  In req (posts (Flowise.events
                   (Flowise.pipe json_loads py_repr valves em endpoint body0))) ->
  exists user_message,
    FlowiseFacts.question_of body0 = Some user_message
    /\ req = Flowise.post_request valves user_message
    /\ posts (Flowise.events
                (Flowise.pipe json_loads py_repr valves em endpoint body0)) = [req].
Proof.
  rewrite FlowiseFacts.pipe_posts.
  destruct (FlowiseFacts.question_of body0) as [um |]; [| intros []].
  intros [<- | []]. exists um. auto.
Qed.

(** The one request of an n8n call, read off its trace. *)
Lemma n8n_posted json_loads py_repr clock valves em endpoint body0 last req :
  In req (posts (N8n.events
                   (N8n.pipe json_loads py_repr clock valves em endpoint body0 last))) ->
  exists b p,
    N8nFacts.parsed json_loads body0 = Some b
    /\ N8nFacts.payload_of valves em b = Some p
    /\ req = N8n.post_request valves p
    /\ posts (N8n.events
                (N8n.pipe json_loads py_repr clock valves em endpoint body0 last))
       = [req].
Proof.
  destruct (N8nFacts.n8n_pipe_posts json_loads py_repr clock valves em endpoint
              body0 last) as [-> | (b & p & Hb & Hp & ->)]; [intros [] |].
  intros [<- | []]. exists b, p. auto.
Qed.




(** C3.  Whenever the Flowise endpoint answers the POST of a call, the
    response has been released by the time the call ends, whatever the
    emitter does and however the processing of the body goes.  After a
    status that [raise_for_status] accepts, [close()] has been called
    on it: by the [with] statement, by the [finally] clause of the
    branch or by the [except] clause of the outer [try] that is taken.
    After a status from 400 to 599 the call returns from the
    [HTTPError] handler (lines 237-248), which has read the body of the
    response to its end for its message (line 239): the request was
    made with [stream=True], so this read drains the response, which
    releases it. *)
Theorem response_is_released :
  forall (json_loads : string -> option value) (py_repr : value -> string)
         valves em endpoint body0 req r,
    let run := Flowise.pipe json_loads py_repr valves em endpoint body0 in
    In req (posts (Flowise.events run)) ->
    endpoint req = inr r ->
    1 <= releases (Flowise.events run)
    /\ (ok r = true -> 1 <= closes (Flowise.events run))
    /\ (ok r = false -> 1 <= reads (Flowise.events run)).
Proof.
  intros json_loads py_repr valves em endpoint body0 req r run Hin Ep.
  destruct (flowise_posted _ _ _ _ _ _ _ Hin) as (um & Q & -> & _).
  assert (C : ok r = true -> 1 <= closes (Flowise.events run)).
  { intros Hok.
    apply (FlowiseFacts.pipe_closes json_loads py_repr valves em endpoint
             body0 um r Q Ep Hok). }
  assert (R : ok r = false -> 1 <= reads (Flowise.events run)).
  { intros Hok.
    apply (FlowiseFacts.pipe_error_reads json_loads py_repr valves em endpoint
             body0 um r Q Ep Hok). }
  split; [| split; assumption].
  unfold releases. destruct (ok r).
  - specialize (C eq_refl). lia.
  - specialize (R eq_refl). lia.
Qed.

Lemma response_is_released_witness :
  1 <= releases
         (Flowise.events
            (Flowise.pipe Json.loads Json.repr Flowise.default_valves
               (Some Examples.emitter_ok) (Examples.respond Examples.not_found)
               (Examples.conversation [Examples.message "user" "hello"]))).
Proof.
  destruct (response_is_released Json.loads Json.repr
              Flowise.default_valves (Some Examples.emitter_ok)
              (Examples.respond Examples.not_found)
              (Examples.conversation [Examples.message "user" "hello"])
              (Flowise.post_request Flowise.default_valves (VStr "hello"))
              Examples.not_found) as (H & _).
  - vm_compute. left. reflexivity.
  - reflexivity.
  - exact H.
Defined.

(** The requests and the last message.  For a dict body whose messages
    list is not empty, every request the call sends carries the content
    of the last message: under ["question"] for Flowise, and under the
    configured [input_field] for n8n unless that field is
    ["systemPrompt"] and the conversation holds a system message with a
    truthy content, which is assigned to the same key afterwards.  A
    Flowise call whose last message is a dict with a string content does
    send its request. *)
Theorem request_carries_last_message :
  forall (json_loads : string -> option value) (py_repr : value -> string)
         (d : list (string * value)) (l : list value) (m : value),
    lookup "messages" d = Some (VList (l ++ [m])) ->
    (forall valves em endpoint req,
       In req (posts (Flowise.events
                        (Flowise.pipe json_loads py_repr valves em endpoint
                                      (VDict d)))) ->
       exists content,
         subscript_key m "content" = inr content
         /\ subscript_key (req_json req) "question" = inr content)
    /\ (forall valves em endpoint md q,
          m = VDict md -> lookup "content" md = Some (VStr q) ->
          posts (Flowise.events
                   (Flowise.pipe json_loads py_repr valves em endpoint (VDict d)))
          = [Flowise.post_request valves (VStr q)])
    /\ (forall clock valves em endpoint last req,
          N8n.input_field valves <> "systemPrompt"
          \/ (forall system_prompt,
                N8n.first_system_content (l ++ [m]) = inr system_prompt ->
                truthy system_prompt = false) ->
          In req (posts (N8n.events
                           (N8n.pipe json_loads py_repr clock valves em endpoint
                                     (VDict d) last))) ->
          exists content,
            subscript_key m "content" = inr content
            /\ subscript_key (req_json req) (N8n.input_field valves) = inr content).
Proof.
  intros json_loads py_repr d l m L. split; [| split].
  - intros valves em endpoint req Hin.
    destruct (flowise_posted _ _ _ _ _ _ _ Hin) as (um & Q & -> & _).
    rewrite (FlowiseFacts.question_of_last d l m L) in Q.
    destruct (subscript_key m "content") as [e | c]; [discriminate |].
    destruct (slice_to 50 c); [discriminate |]. injection Q as <-.
    exists c. split; [reflexivity |]. apply FlowiseFacts.payload_question.
  - intros valves em endpoint md q -> Hc.
    rewrite FlowiseFacts.pipe_posts, (FlowiseFacts.question_of_last d l _ L).
    cbn [subscript_key]. rewrite Hc. reflexivity.
  - intros clock valves em endpoint last req H Hin.
    destruct (n8n_posted _ _ _ _ _ _ _ _ _ Hin) as (b & p & Hb & Hp & -> & _).
    cbn in Hb. injection Hb as <-.
    destruct (N8nFacts.payload_of_last valves em d l m p L Hp)
      as (question & ids & sp & Hq & Hsp & ->).
    exists question. split; [exact Hq |].
    cbn [req_json N8n.post_request].
    apply N8nFacts.payload_input_field.
    destruct H as [H | H]; [left; exact H | right; apply H, Hsp].
Qed.

Lemma request_carries_last_message_witness :
  (exists content,
     subscript_key (Examples.message "user" "hello") "content" = inr content
     /\ subscript_key
          (req_json (Flowise.post_request Flowise.default_valves (VStr "hello")))
          "question" = inr content)
  /\ (exists content,
        subscript_key (Examples.message "user" "hello") "content" = inr content
        /\ subscript_key
             (req_json
                (N8n.post_request N8n.default_valves
                   (N8n.payload N8n.default_valves VNone (VStr "hello")
                      (VStr "Be brief."))))
             (N8n.input_field N8n.default_valves) = inr content).
Proof.
  destruct (request_carries_last_message Json.loads Json.repr
              [("messages", VList [Examples.message "system" "Be brief.";
                                   Examples.message "user" "hello"])]
              [Examples.message "system" "Be brief."]
              (Examples.message "user" "hello") eq_refl) as (HF & _ & HN).
  split.
  - apply (HF Flowise.default_valves (Some Examples.emitter_ok)
              (Examples.respond Examples.not_found)).
    vm_compute. left. reflexivity.
  - apply (HN Examples.clock_tenths N8n.default_valves (Some Examples.emitter_ok)
              (Examples.respond Examples.not_found) 0%Q).
    + left. discriminate.
    + vm_compute. left. reflexivity.
Defined.

(** Valves that send the question under the key of the system prompt. *)
Definition valves_colliding : N8n.Valves :=
  N8n.mkValves "https://n8n.example/webhook/chat" "token" "systemPrompt" "output"
               (2 # 1) true (300 # 1).

(** C5.  The n8n adapter does not send the content of the last message
    under [input_field] when that valve is ["systemPrompt"] and the
    conversation holds a system message: the payload is built with the
    question under [input_field] (line 191) and the system prompt is
    then assigned to the key ["systemPrompt"] without a check for a
    collision (lines 194-195), so the one request of the call carries
    the system prompt under [input_field] and the question nowhere. *)
Theorem n8n_input_field_overwritten :
  let body := Examples.conversation [Examples.message "system" "Be brief.";
                                     Examples.message "user" "What is Rocq?"] in
  let run := N8n.pipe Json.loads Json.repr Examples.clock_tenths valves_colliding
               (Some Examples.emitter_ok) (Examples.respond Examples.not_found)
               body 0%Q in
  map (fun req => subscript_key (req_json req) (N8n.input_field valves_colliding))
      (posts (N8n.events run))
  = [inr (VStr "Be brief.")]
  /\ map req_json (posts (N8n.events run))
     = [VDict [("sessionId", VStr "unknown_session");
               ("systemPrompt", VStr "Be brief.")]].
Proof. vm_compute. split; reflexivity. Qed.

Lemma append_assoc (a b c : string) : ((a ++ b) ++ c)%string = (a ++ b ++ c)%string.
Proof. induction a as [| ch a IH]; cbn; [reflexivity | rewrite IH; reflexivity]. Qed.

(** A status from 200 to 299 takes the branch of line 217. *)
Lemma success_status_branch json_loads py_repr clock valves em r :
  (200 <= status_code r < 300)%Z ->
  N8n.handle_response json_loads py_repr clock valves em r
  = N8n.on_success_status json_loads py_repr clock valves em r.
Proof.
  intros H. unfold N8n.handle_response.
  replace ((200 <=? status_code r)%Z && (status_code r <? 300)%Z) with true by lia.
  reflexivity.
Qed.

(** The answer of the webhook, when the emitter returns normally.  For
    the n8n adapter and a response with a 2xx status: if the JSON body
    is the list [[{"output": "ok"}]] and [response_field] is ["output"], the call
    returns the string ["ok"]; if the JSON body is the empty list, it
    returns an error dict whose message mentions the empty list; and if
    the object looked into (the document, or the first item of a list)
    is a dict without [response_field], it returns an error dict whose
    message holds the list of the dict's keys after "Available keys: ". *)
Theorem n8n_response_extraction :
  forall (json_loads : string -> option value) (py_repr : value -> string)
         (clock : nat -> Q) valves em endpoint body0 (last : Q) req r,
    let run := N8n.pipe json_loads py_repr clock valves em endpoint body0 last in
    emitter_returns em ->
    In req (posts (N8n.events run)) ->
    endpoint req = inr r ->
    (200 <= status_code r < 300)%Z ->
    (json_loads (text r) = Some (VList [VDict [("output", VStr "ok")]]) ->
     N8n.response_field valves = "output" ->
     N8n.result run = N8n.Returned (VStr "ok"))
    /\ (json_loads (text r) = Some (VList []) ->
        N8n.result run
        = N8n.Returned
            (error_dict ("Error processing N8N response: "
                         ++ "Received an empty list from N8N response.")))
    /\ (forall doc d,
          json_loads (text r) = Some doc ->
          N8nFacts.response_object doc = Some (VDict d) ->
          lookup (N8n.response_field valves) d = None ->
          N8n.result run
          = N8n.Returned
              (error_dict (N8n.missing_field_message py_repr valves r (VDict d)))
          /\ exists before after,
               N8n.missing_field_message py_repr valves r (VDict d)
               = before ++ "Available keys: "
                 ++ py_repr (VList (map (fun kv => VStr (fst kv)) d)) ++ after).
Proof.
  intros json_loads py_repr clock valves em endpoint body0 last req r run
         Hem Hin Ep Hs.
  destruct (n8n_posted _ _ _ _ _ _ _ _ _ Hin) as (b & p & Hb & Hp & -> & _).
  pose proof (N8nFacts.pipe_answered json_loads py_repr clock valves em endpoint Hem
                body0 last b p r) as HA.
  pose proof (success_status_branch json_loads py_repr clock valves em r Hs) as Hh.
  split; [| split].
  - intros J F.
    destruct (HA (VStr "ok") None Hb Hp Ep) as (Hr & _).
    { intros s Hc He. rewrite Hh.
      rewrite (N8nFacts.on_success_status_found json_loads py_repr clock valves em r s
                 (VList [VDict [("output", VStr "ok")]])
                 [("output", VStr "ok")] (VStr "ok") J eq_refl)
        by (rewrite F; reflexivity).
      eexists. split; [reflexivity |]. cbn. auto. }
    exact Hr.
  - intros J.
    destruct (HA VNone (Some N8nFacts.empty_list_message) Hb Hp Ep) as (Hr & _).
    { intros s Hc He. rewrite Hh.
      rewrite (N8nFacts.on_success_status_empty_list json_loads py_repr clock valves
                 em Hem r s J).
      eexists. split; [reflexivity |].
      rewrite (N8nFacts.n8n_body_after_emit json_loads),
        (N8nFacts.n8n_content_after_emit json_loads),
        (N8nFacts.n8n_error_after_emit json_loads).
      auto. }
    exact Hr.
  - intros doc d J O L.
    set (msg := N8n.missing_field_message py_repr valves r (VDict d)).
    assert (Hmsg : exists before after,
               msg = before ++ "Available keys: "
                     ++ py_repr (VList (map (fun kv => VStr (fst kv)) d)) ++ after).
    { exists ("N8N workflow responded successfully (status "
              ++ str_of_Z (status_code r) ++ ") "
              ++ "but missing expected response field '"
              ++ N8n.response_field valves ++ "'. "),
             (". " ++ "Response snippet: " ++ take 150 (text r) ++ "...").
      unfold msg, N8n.missing_field_message. cbv zeta.
      unfold N8n.str, str_of, keys.
      rewrite !append_assoc. reflexivity. }
    split; [| exact Hmsg].
    destruct (HA VNone (Some msg) Hb Hp Ep) as (Hr & _).
    { intros s Hc He. rewrite Hh.
      rewrite (N8nFacts.on_success_status_missing json_loads py_repr clock valves
                 em Hem r s doc (VDict d) J O L).
      eexists. split; [reflexivity |].
      rewrite (N8nFacts.n8n_body_after_emit json_loads),
        (N8nFacts.n8n_content_after_emit json_loads),
        (N8nFacts.n8n_error_after_emit json_loads).
      auto. }
    cbn [is_none] in Hr. unfold run. rewrite Hr.
    unfold N8nFacts.final_error.
    destruct (String.eqb_spec msg "") as [E0 | _]; [| reflexivity].
    exfalso. unfold msg, N8n.missing_field_message in E0. discriminate E0.
Qed.

Lemma n8n_response_extraction_witness :
  N8n.result
    (N8n.pipe Json.loads Json.repr Examples.clock_tenths N8n.default_valves
       (Some Examples.emitter_ok)
       (Examples.respond (Examples.json_response (Json.js "[{'output': 'ok'}]")))
       (Examples.conversation [Examples.message "user" "hello"]) 0%Q)
  = N8n.Returned (VStr "ok").
Proof.
  apply (n8n_response_extraction Json.loads Json.repr Examples.clock_tenths
           N8n.default_valves (Some Examples.emitter_ok)
           (Examples.respond (Examples.json_response (Json.js "[{'output': 'ok'}]")))
           (Examples.conversation [Examples.message "user" "hello"]) 0%Q
           (N8n.post_request N8n.default_valves
              (N8n.payload N8n.default_valves VNone (VStr "hello") VNone))
           (Examples.json_response (Json.js "[{'output': 'ok'}]"))).
  - intros tr message. reflexivity.
  - vm_compute. left. reflexivity.
  - reflexivity.
  - cbn. lia.
  - reflexivity.
  - reflexivity.
Defined.

(** A host whose emitter fails once the request has been sent (the
    client went away while the workflow ran). *)
Definition emitter_lost_after_post : emitter :=
  mkEmitter None
    (fun tr _ =>
       match posts tr with
       | [] => None
       | _ => Some (mkExn OtherException "RuntimeError" "emitter down")
       end).

(** C7.  After a 2xx answer the n8n adapter returns neither the content
    nor an error when the emitter raises on the terminal status that
    every path emits before its [return] (lines 303, 315, 248 and 264,
    through the unguarded call of line 111): the call raises.  For the
    body [[{"output": "ok"}]] the assistant message has been appended
    already (line 299) and the call raises instead of returning
    ["ok"]; for the body [[]] and for an object without the response
    field it raises instead of returning the error. *)
Theorem response_extraction_with_failing_emitter :
  let n8n text :=
    N8n.pipe Json.loads Json.repr Examples.clock_tenths N8n.default_valves
      (Some emitter_lost_after_post)
      (Examples.respond (Examples.json_response (Json.js text)))
      (Examples.conversation [Examples.message "user" "hello"]) 0%Q in
  let down := mkExn OtherException "RuntimeError" "emitter down" in
  let sent := [N8n.post_request N8n.default_valves
                 (N8n.payload N8n.default_valves VNone (VStr "hello") VNone)] in
  (N8n.result (n8n "[{'output': 'ok'}]") = N8n.Raised down
   /\ posts (N8n.events (n8n "[{'output': 'ok'}]")) = sent
   /\ N8n.final_body (n8n "[{'output': 'ok'}]")
      = Examples.conversation [Examples.message "user" "hello";
                               assistant_message (VStr "ok")])
  /\ (N8n.result (n8n "[]") = N8n.Raised down
      /\ posts (N8n.events (n8n "[]")) = sent)
  /\ (N8n.result (n8n "{'result': 'ok'}") = N8n.Raised down
      /\ posts (N8n.events (n8n "{'result': 'ok'}")) = sent).
Proof. vm_compute. repeat split. Qed.

Lemma success_status_ok r : (200 <= status_code r < 300)%Z -> ok r = true.
Proof.
  intros H. unfold ok.
  replace ((400 <=? status_code r)%Z) with false by lia. reflexivity.
Qed.

(** The three lines of the stream of C2. *)
Definition token_A : string := Json.js "data: {'event':'token','data':'A'}".
Definition token_B : string := Json.js "data: {'event':'token','data':'B'}".
Definition end_event : string := Json.js "data: {'event':'end'}".

(** What [json.loads] makes of their payloads. *)
Definition loads_events (json_loads : string -> option value) : Prop :=
  json_loads (Json.js "{'event':'token','data':'A'}")
  = Some (VDict [("event", VStr "token"); ("data", VStr "A")])
  /\ json_loads (Json.js "{'event':'token','data':'B'}")
     = Some (VDict [("event", VStr "token"); ("data", VStr "B")])
  /\ json_loads (Json.js "{'event':'end'}") = Some (VDict [("event", VStr "end")]).

(** The loop over the three lines: two tokens appended, then the break. *)
Lemma sse_loop json_loads py_repr valves em rest err s c :
  loads_events json_loads ->
  Flowise.full_response_content s = VStr c ->
  exists s',
    Flowise.for_lines json_loads py_repr valves em
      (LineText token_A :: LineText token_B :: LineText end_event :: rest) err s
    = (Val tt, s')
    /\ Flowise.full_response_content s' = VStr ((c ++ "A") ++ "B")
    /\ Flowise.body s' = Flowise.body s
    /\ Flowise.last_error_message s' = Flowise.last_error_message s.
Proof.
  intros (JA & JB & JE) Hc.
  rewrite FlowiseFacts.for_lines_cons.
  rewrite (FlowiseFacts.process_line_token json_loads py_repr valves em token_A
             [("event", VStr "token"); ("data", VStr "A")] "A" s
             eq_refl JA eq_refl eq_refl).
  rewrite FlowiseFacts.for_lines_cons.
  rewrite (FlowiseFacts.process_line_token json_loads py_repr valves em token_B
             [("event", VStr "token"); ("data", VStr "B")] "B" _
             eq_refl JB eq_refl eq_refl).
  rewrite FlowiseFacts.for_lines_cons.
  rewrite (FlowiseFacts.process_line_end json_loads py_repr valves em end_event
             [("event", VStr "end")] _ eq_refl JE eq_refl).
  eexists. split; [reflexivity |].
  repeat first
    [ rewrite (FlowiseFacts.content_after_emit json_loads py_repr)
    | rewrite (FlowiseFacts.body_after_emit json_loads py_repr)
    | rewrite (FlowiseFacts.error_after_emit json_loads py_repr)
    | progress cbn [Flowise.full_response_content Flowise.body
                      Flowise.last_error_message Flowise.set_full_response_content
                      Flowise.set_chunk_count] ].
  rewrite Hc. auto.
Qed.

(** C2.  For the Flowise adapter with streaming enabled and a 2xx
    response whose Content-Type contains ["text/event-stream"]: if the
    lines of the body are a token event with data ["A"], a token event
    with data ["B"] and an end event, followed by any further lines
    (and whatever failure of the connection after them), the call
    returns exactly ["AB"]; and the loop over such lines, from any
    state, is the loop over the first three alone, so that nothing
    after the end event is processed.  [json_loads] stands for Python's
    [json.loads], of which only its values on the three payloads are
    assumed. *)
Theorem sse_tokens_until_end :
  forall (json_loads : string -> option value) (py_repr : value -> string)
         valves em endpoint body0 req r ct rest,
    let run := Flowise.pipe json_loads py_repr valves em endpoint body0 in
    loads_events json_loads ->
    Flowise.enable_streaming valves = true ->
    In req (posts (Flowise.events run)) ->
    endpoint req = inr r ->
    (200 <= status_code r < 300)%Z ->
    content_type r = Some ct ->
    contains "text/event-stream" ct = true ->
    lines r = LineText token_A :: LineText token_B :: LineText end_event :: rest ->
    Flowise.result run = Flowise.Returned (VStr "AB")
    /\ forall s,
         Flowise.for_lines json_loads py_repr valves em (lines r) (iter_error r) s
         = Flowise.for_lines json_loads py_repr valves em
             [LineText token_A; LineText token_B; LineText end_event] None s.
Proof.
  intros json_loads py_repr valves em endpoint body0 req r ct rest run
         HJ Hst Hin Ep Hs Hct Hes Hl.
  split.
  - destruct (flowise_posted _ _ _ _ _ _ _ Hin) as (um & Q & -> & _).
    pose proof (FlowiseFacts.pipe_with_content json_loads py_repr valves em endpoint
                  body0 um r (VStr "AB") Q Ep) as HP.
    cbn [truthy] in HP. apply HP.
    intros s (Hb & Hc & He & _).
    rewrite (FlowiseFacts.handle_response_ok json_loads py_repr valves em r s
               (success_status_ok r Hs)), Hst.
    set (s2 := FlowiseFacts.after_emit valves em "info" "HTTP Status OK (2xx)."
                 false false VNone _).
    assert (B2 : Flowise.body s2 = Flowise.body s
                 /\ Flowise.full_response_content s2 = VStr ""
                 /\ Flowise.last_error_message s2 = Flowise.last_error_message s
                 /\ Flowise.response s2 = Some r).
    { unfold s2.
      rewrite !(FlowiseFacts.content_after_emit json_loads py_repr),
        !(FlowiseFacts.body_after_emit json_loads py_repr),
        !(FlowiseFacts.error_after_emit json_loads py_repr),
        !(FlowiseFacts.response_after_emit json_loads py_repr).
      cbn. auto. }
    destruct B2 as (Hb2 & Hc2 & He2 & Hr2).
    destruct (sse_loop json_loads py_repr valves em rest (iter_error r)
                (Flowise.set_chunk_count 0
                   (FlowiseFacts.after_emit valves em "info"
                      "Processing streaming response (manual SSE parsing)..."
                      false false VNone s2)) "" HJ)
      as (s3 & Hfor & Hc3 & Hb3 & He3).
    { cbn [Flowise.full_response_content Flowise.set_chunk_count].
      rewrite (FlowiseFacts.content_after_emit json_loads py_repr). exact Hc2. }
    rewrite <- Hl in Hfor.
    destruct (FlowiseFacts.streaming_branch_stream json_loads py_repr valves em r s2
                ct s3 Hct Hes Hr2 Hfor) as (s4 & E4 & Hc4 & Hb4 & He4 & _).
    exists s4. split; [exact E4 |].
    cbn [Flowise.body Flowise.last_error_message Flowise.set_chunk_count] in Hb3, He3.
    rewrite (FlowiseFacts.body_after_emit json_loads py_repr) in Hb3.
    rewrite (FlowiseFacts.error_after_emit json_loads py_repr) in He3.
    rewrite Hc4, Hc3, Hb4, Hb3, He4, He3. auto.
  - intros s. rewrite Hl.
    pose proof HJ as (JA & JB & JE).
    rewrite !FlowiseFacts.for_lines_cons.
    rewrite (FlowiseFacts.process_line_token json_loads py_repr valves em token_A
               [("event", VStr "token"); ("data", VStr "A")] "A" s
               eq_refl JA eq_refl eq_refl).
    rewrite !FlowiseFacts.for_lines_cons.
    rewrite (FlowiseFacts.process_line_token json_loads py_repr valves em token_B
               [("event", VStr "token"); ("data", VStr "B")] "B" _
               eq_refl JB eq_refl eq_refl).
    rewrite !FlowiseFacts.for_lines_cons.
    rewrite (FlowiseFacts.process_line_end json_loads py_repr valves em end_event
               [("event", VStr "end")] _ eq_refl JE eq_refl).
    reflexivity.
Qed.

Lemma sse_tokens_until_end_witness :
  Flowise.result
    (Flowise.pipe Json.loads Json.repr Flowise.default_valves
       (Some Examples.emitter_ok)
       (Examples.respond
          (Examples.event_stream
             [token_A; token_B; end_event;
              Json.js "data: {'event':'token','data':'C'}"]))
       (Examples.conversation [Examples.message "user" "hello"]))
  = Flowise.Returned (VStr "AB").
Proof.
  apply (sse_tokens_until_end Json.loads Json.repr Flowise.default_valves
           (Some Examples.emitter_ok)
           (Examples.respond
              (Examples.event_stream
                 [token_A; token_B; end_event;
                  Json.js "data: {'event':'token','data':'C'}"]))
           (Examples.conversation [Examples.message "user" "hello"])
           (Flowise.post_request Flowise.default_valves (VStr "hello"))
           (Examples.event_stream
              [token_A; token_B; end_event;
               Json.js "data: {'event':'token','data':'C'}"])
           "text/event-stream"
           [LineText (Json.js "data: {'event':'token','data':'C'}")]).
  - repeat split; vm_compute; reflexivity.
  - reflexivity.
  - vm_compute. left. reflexivity.
  - reflexivity.
  - cbn. lia.
  - reflexivity.
  - reflexivity.
  - reflexivity.
Defined.

(** Throttling, when the emitter accepts the first emission.  The n8n
    adapter's [emit_status], with an event emitter present and the
    status indicator enabled.  Take a non-terminal emission that passes
    the throttle at time [t1] and that the emitter accepts, then any
    emissions whatever, then a non-terminal emission at a time [t2]
    with [t1 <= t2 < t1 + emit_interval]: the first is handed to the
    emitter, the second is not (it returns having only read the clock).
    And a terminal emission is handed to the emitter in every state.
    Times are rationals, so the difference of line 99 is taken without
    rounding; [clock] gives the successive readings of [time.time()]. *)
Theorem status_throttling :
  forall (clock : nat -> Q) valves e,
    N8n.enable_status_indicator valves = true ->
    (forall s level1 message1 between level2 message2,
       let first := N8n.emit_status clock valves (Some e) level1 message1 false s in
       let s2 := snd (N8nFacts.emit_all clock valves (Some e) between (snd first)) in
       let second := N8n.emit_status clock valves (Some e) level2 message2 false s2 in
       (N8n.emit_interval valves <= clock (N8n.ticks s) - N8n.last_emit_time s)%Q ->
       on_call e (N8n.trace s) (N8n.status_message level1 message1 false) = None ->
       (clock (N8n.ticks s) <= clock (N8n.ticks s2))%Q ->
       (clock (N8n.ticks s2) - clock (N8n.ticks s) < N8n.emit_interval valves)%Q ->
       N8n.trace (snd first)
       = (N8n.trace s
          ++ [EmitterCalled (N8n.status_message level1 message1 false) None])%list
       /\ second = (Val tt, N8n.tick s2)
       /\ N8n.trace (snd second) = N8n.trace s2)
    /\ (forall s level message,
          emitted (N8n.trace
                     (snd (N8n.emit_status clock valves (Some e) level message true s)))
          = (emitted (N8n.trace s) ++ [N8n.status_message level message true])%list).
Proof.
  intros clock valves e En. split.
  - intros s level1 message1 between level2 message2 first s2 second
           Hpass Hcall Hmono Hnear.
    assert (P1 : N8nFacts.passes clock valves false s = true).
    { unfold N8nFacts.passes. rewrite En, orb_false_r. cbn [andb].
      apply Qle_bool_iff. exact Hpass. }
    assert (E1 : first
                 = (Val tt,
                    N8n.set_last_emit_time (clock (N8n.ticks s))
                      (N8n.record
                         (EmitterCalled (N8n.status_message level1 message1 false) None)
                         (N8n.tick s)))).
    { unfold first.
      rewrite (N8nFacts.emit_passing clock valves (Some e) e level1 message1 false s
                 eq_refl P1), Hcall.
      reflexivity. }
    assert (Hi : (0 <= N8n.emit_interval valves)%Q) by lra.
    pose proof (N8nFacts.emit_all_last_emit_time clock valves (Some e) between
                  (snd first) Hi) as Hlast.
    fold s2 in Hlast. rewrite E1 in Hlast. cbn [snd N8n.last_emit_time
                                                  N8n.set_last_emit_time] in Hlast.
    assert (P2 : N8nFacts.passes clock valves false s2 = false).
    { unfold N8nFacts.passes. rewrite En, orb_false_r. cbn [andb].
      destruct (Qle_bool (N8n.emit_interval valves)
                  (clock (N8n.ticks s2) - N8n.last_emit_time s2)) eqn:B;
        [| reflexivity].
      apply Qle_bool_iff in B. lra. }
    assert (E2 : second = (Val tt, N8n.tick s2)).
    { unfold second.
      apply (N8nFacts.emit_throttled clock valves (Some e) level2 message2 false s2 P2). }
    split; [rewrite E1; reflexivity |].
    split; [exact E2 | rewrite E2; reflexivity].
  - intros s level message.
    assert (P : N8nFacts.passes clock valves true s = true).
    { unfold N8nFacts.passes. rewrite En, orb_true_r. reflexivity. }
    rewrite (N8nFacts.emit_passing clock valves (Some e) e level message true s
               eq_refl P).
    destruct (on_call e (N8n.trace s) _); cbn [snd N8n.trace N8n.record N8n.tick];
      rewrite HostFacts.emitted_app; reflexivity.
Qed.

Lemma status_throttling_witness :
  N8n.emit_status Examples.clock_tenths N8n.default_valves (Some Examples.emitter_ok)
    "info" "Sending request to N8N..." false
    (snd (N8nFacts.emit_all Examples.clock_tenths N8n.default_valves
            (Some Examples.emitter_ok) [("info", "Halfway.", true)]
            (snd (N8n.emit_status Examples.clock_tenths N8n.default_valves
                    (Some Examples.emitter_ok) "info" "Calling n8n workflow..." false
                    (N8n.initial (VDict []) (-5)%Q)))))
  = (Val tt,
     N8n.tick
       (snd (N8nFacts.emit_all Examples.clock_tenths N8n.default_valves
               (Some Examples.emitter_ok) [("info", "Halfway.", true)]
               (snd (N8n.emit_status Examples.clock_tenths N8n.default_valves
                       (Some Examples.emitter_ok) "info" "Calling n8n workflow..."
                       false (N8n.initial (VDict []) (-5)%Q)))))).
Proof.
  destruct (status_throttling Examples.clock_tenths N8n.default_valves
              Examples.emitter_ok eq_refl) as [H _].
  apply (H (N8n.initial (VDict []) (-5)%Q) "info" "Calling n8n workflow..."
           [("info", "Halfway.", true)] "info" "Sending request to N8N...").
  - vm_compute. discriminate.
  - reflexivity.
  - vm_compute. discriminate.
  - vm_compute. reflexivity.
Defined.

(** A host whose emitter fails on its first call and accepts every
    later one. *)
Definition emitter_failing_once : emitter :=
  mkEmitter None
    (fun tr _ =>
       match emitted tr with
       | [] => Some (mkExn OtherException "RuntimeError" "emitter down")
       | _ => None
       end).

(** A wall clock that advances by half a second per reading. *)
Definition clock_halves : nat -> Q := fun n => (1000 + inject_Z (Z.of_nat n) / 2)%Q.

(** C4.  The throttle of the n8n adapter's [emit_status] does not hold
    back a non-terminal emission that follows one on which the emitter
    raised.  The first emission passes the throttle and is handed to
    the emitter (line 111); the emitter's exception leaves
    [emit_status] before [last_emit_time] is set (lines 113-114), so
    the next non-terminal emission, half a second later with
    [emit_interval] two seconds, passes the throttle too and is
    delivered.  The readings 1000 and 1000.5 and the interval 2 are
    floats whose differences are exact. *)
Theorem throttle_after_failed_emission :
  let emit := N8n.emit_status clock_halves N8n.default_valves
                (Some emitter_failing_once) in
  let s0 := N8n.initial (VDict []) 0%Q in
  let first := emit "info" "Calling n8n workflow..." false s0 in
  let second := emit "info" "Calling n8n workflow..." false (snd first) in
  let message := N8n.status_message "info" "Calling n8n workflow..." false in
  let down := mkExn OtherException "RuntimeError" "emitter down" in
  (clock_halves (N8n.ticks (snd first)) - clock_halves (N8n.ticks s0)
   < N8n.emit_interval N8n.default_valves)%Q
  /\ fst first = Raise down
  /\ N8n.last_emit_time (snd first) = 0%Q
  /\ fst second = Val tt
  /\ N8n.trace (snd second)
     = [EmitterCalled message (Some down); EmitterCalled message None].
Proof. vm_compute. repeat split. Qed.

(** The extraction in the words of the specification: the value of the
    first of [fields] that is present in the document, else the
    stringified document. *)
Fixpoint first_present (py_repr : value -> string) (fields : list string)
         (d : list (string * value)) : value :=
  match fields with
  | [] => VStr (str_of py_repr (VDict d))
  | f :: rest =>
      match lookup f d with
      | Some v => v
      | None => first_present py_repr rest d
      end
  end.

(** The code's [or] chain and the specification's "first present" agree
    on a document whose listed fields, where present, are truthy. *)
Lemma first_of_first_present py_repr fields d :
  (forall f v, In f fields -> lookup f d = Some v -> truthy v = true) ->
  Flowise.first_of py_repr fields d = first_present py_repr fields d.
Proof.
  induction fields as [| f rest IH]; intros H; cbn [Flowise.first_of first_present];
    [reflexivity |].
  unfold py_or, dict_get.
  destruct (lookup f d) as [v |] eqn:L.
  - rewrite (H f v (or_introl eq_refl) L). reflexivity.
  - cbn [truthy]. apply IH. intros f' v' Hin. apply H. right. exact Hin.
Qed.

(** The fields each branch reads: lines 275-280 leave out ["output"],
    lines 396-402 have it. *)
Definition fields_read (valves : Flowise.Valves) : list string :=
  if Flowise.enable_streaming valves then ["text"; "answer"; "response"]
  else ["text"; "answer"; "response"; "output"].

(** C8, as the code has it.  For the Flowise adapter and a 2xx response
    whose body is a JSON object, processed without the line loop
    (streaming disabled, or streaming requested and a Content-Type that
    does not contain ["text/event-stream"]), the content is the first
    truthy value among the fields the branch reads, else the stringified
    document: ["text"], ["answer"], ["response"], ["output"] when
    streaming is disabled, the first three only in the fallback of the
    streaming branch.  The call returns that content when it is truthy
    and an error dict otherwise.  Where the fields present are truthy
    the content is the first present one; and with streaming requested
    and such a Content-Type the body [{"answer": "hi"}] yields ["hi"]. *)
Theorem json_object_extraction :
  forall (json_loads : string -> option value) (py_repr : value -> string)
         valves em endpoint body0 req r d,
    let run := Flowise.pipe json_loads py_repr valves em endpoint body0 in
    let content := Flowise.first_of py_repr (fields_read valves) d in
    In req (posts (Flowise.events run)) ->
    endpoint req = inr r ->
    (200 <= status_code r < 300)%Z ->
    (Flowise.enable_streaming valves = true ->
     contains "text/event-stream"
       match content_type r with Some c => c | None => "" end = false) ->
    json_loads (text r) = Some (VDict d) ->
    Flowise.result run
    = Flowise.Returned
        (if truthy content then content else error_dict FlowiseFacts.unknown_error)
    /\ content = FlowiseFacts.first_truthy py_repr (fields_read valves) d
    /\ ((forall f v, In f (fields_read valves) -> lookup f d = Some v ->
                     truthy v = true) ->
        content = first_present py_repr (fields_read valves) d)
    /\ (d = [("answer", VStr "hi")] -> Flowise.result run = Flowise.Returned (VStr "hi")).
Proof.
  intros json_loads py_repr valves em endpoint body0 req r d run content
         Hin Ep Hs Hct J.
  destruct (flowise_posted _ _ _ _ _ _ _ Hin) as (um & Q & -> & _).
  assert (Hres : Flowise.result run
                 = Flowise.Returned
                     (if truthy content then content
                      else error_dict FlowiseFacts.unknown_error)).
  { pose proof (FlowiseFacts.pipe_with_content json_loads py_repr valves em endpoint
                  body0 um r content Q Ep) as HP.
    assert (Hh : forall s,
               FlowiseFacts.posted valves body0 um s ->
               exists s',
                 Flowise.handle_response json_loads py_repr valves em r s = (Val tt, s')
                 /\ Flowise.full_response_content s' = content
                 /\ Flowise.body s' = Flowise.body s
                 /\ Flowise.last_error_message s' = Flowise.last_error_message s).
    { intros s _.
      rewrite (FlowiseFacts.handle_response_ok json_loads py_repr valves em r s
                 (success_status_ok r Hs)).
      set (s2 := FlowiseFacts.after_emit valves em "info" "HTTP Status OK (2xx)."
                   false false VNone _).
      assert (B2 : Flowise.body s2 = Flowise.body s
                   /\ Flowise.last_error_message s2 = Flowise.last_error_message s
                   /\ Flowise.response s2 = Some r).
      { unfold s2.
        rewrite !(FlowiseFacts.body_after_emit json_loads py_repr),
          !(FlowiseFacts.error_after_emit json_loads py_repr),
          !(FlowiseFacts.response_after_emit json_loads py_repr).
        cbn. auto. }
      destruct B2 as (Hb2 & He2 & Hr2).
      unfold content, fields_read.
      destruct (Flowise.enable_streaming valves).
      - destruct (FlowiseFacts.streaming_branch_object json_loads py_repr valves em
                    r s2 d (Hct eq_refl) J Hr2) as (s3 & E & Hc & Hb & He & _).
        exists s3. rewrite Hb, He. auto.
      - destruct (FlowiseFacts.non_streaming_branch_object json_loads py_repr valves
                    em r s2 d J Hr2) as (s3 & E & Hc & Hb & He & _).
        exists s3. rewrite Hb, He. auto. }
    specialize (HP Hh). fold run in HP.
    destruct (truthy content); destruct HP as (HP & _); exact HP. }
  split; [exact Hres |].
  split; [apply FlowiseFacts.first_of_first_truthy |].
  split; [apply first_of_first_present |].
  intros ->. rewrite Hres. unfold content, fields_read.
  destruct (Flowise.enable_streaming valves); reflexivity.
Qed.

Lemma json_object_extraction_witness :
  Flowise.result
    (Flowise.pipe Json.loads Json.repr Flowise.default_valves
       (Some Examples.emitter_ok)
       (Examples.respond (Examples.json_response (Json.js "{'answer': 'hi'}")))
       (Examples.conversation [Examples.message "user" "hello"]))
  = Flowise.Returned (VStr "hi").
Proof.
  apply (json_object_extraction Json.loads Json.repr Flowise.default_valves
           (Some Examples.emitter_ok)
           (Examples.respond (Examples.json_response (Json.js "{'answer': 'hi'}")))
           (Examples.conversation [Examples.message "user" "hello"])
           (Flowise.post_request Flowise.default_valves (VStr "hello"))
           (Examples.json_response (Json.js "{'answer': 'hi'}"))
           [("answer", VStr "hi")]).
  - vm_compute. left. reflexivity.
  - reflexivity.
  - cbn. lia.
  - intros _. reflexivity.
  - reflexivity.
  - reflexivity.
Defined.

(** The default valves with streaming disabled. *)
Definition valves_not_streaming : Flowise.Valves := {|
  Flowise.flowise_api_url := Flowise.flowise_api_url Flowise.default_valves;
  Flowise.test_direct_connection := false;
  Flowise.flowise_api_key := None;
  Flowise.request_timeout_seconds := 300 # 1;
  Flowise.enable_status_indicator := true;
  Flowise.enable_streaming := false;
  Flowise.stream_event_name := "text";
  Flowise.debug_mode := true;
  Flowise.streaming_delay_seconds := 5 # 100
|}.

(** C8 as stated fails twice.  With streaming disabled, the body
    [{"text": "", "answer": "hi"}] yields ["hi"], not the value of the
    first present field, which is the empty string.  With streaming
    requested and a JSON Content-Type, the body [{"output": "hi"}]
    yields the stringified document, not ["hi"]: the fallback of the
    streaming branch does not read ["output"]. *)
Lemma first_present_is_not_returned :
  let fields := ["text"; "answer"; "response"; "output"] in
  let body := Examples.conversation [Examples.message "user" "hello"] in
  let empty_text := Json.js "{'text': '', 'answer': 'hi'}" in
  let only_output := Json.js "{'output': 'hi'}" in
  (Json.loads empty_text = Some (VDict [("text", VStr ""); ("answer", VStr "hi")])
   /\ first_present Json.repr fields [("text", VStr ""); ("answer", VStr "hi")]
      = VStr ""
   /\ Flowise.result
        (Flowise.pipe Json.loads Json.repr valves_not_streaming
           (Some Examples.emitter_ok)
           (Examples.respond (Examples.json_response empty_text)) body)
      = Flowise.Returned (VStr "hi"))
  /\ (Json.loads only_output = Some (VDict [("output", VStr "hi")])
      /\ first_present Json.repr fields [("output", VStr "hi")] = VStr "hi"
      /\ Flowise.result
           (Flowise.pipe Json.loads Json.repr Flowise.default_valves
              (Some Examples.emitter_ok)
              (Examples.respond (Examples.json_response only_output)) body)
         = Flowise.Returned (VStr "{'output': 'hi'}")).
Proof. cbv zeta. repeat split; vm_compute; reflexivity. Qed.

(** The loop over a stream that opens with the end event stops there. *)
Lemma sse_loop_end json_loads py_repr valves em rest err s :
  json_loads (Json.js "{'event':'end'}") = Some (VDict [("event", VStr "end")]) ->
  Flowise.for_lines json_loads py_repr valves em (LineText end_event :: rest) err s
  = (Val tt, s).
Proof.
  intros JE. rewrite FlowiseFacts.for_lines_cons.
  rewrite (FlowiseFacts.process_line_end json_loads py_repr valves em end_event
             [("event", VStr "end")] _ eq_refl JE eq_refl).
  reflexivity.
Qed.

(** C10.  When the Flowise adapter reaches the end of [pipe] with an
    empty content string, it returns an error dict and leaves the body
    as it is; with a non-empty content string it appends the content as
    an assistant message and returns it.  So every call returns either
    an error dict with the body unchanged, or a truthy content that it
    has appended; and a stream that holds an end event and no token
    before it gives the error dict of the unknown error with the body
    unchanged. *)
Theorem empty_content_is_an_error :
  forall (json_loads : string -> option value) (py_repr : value -> string)
         valves em endpoint,
    (forall s,
       Flowise.full_response_content s = VStr "" ->
       exists msg s',
         Flowise.finish valves em s = (Return (error_dict msg), s')
         /\ Flowise.body s' = Flowise.body s)
    /\ (forall s c b',
          Flowise.full_response_content s = VStr c -> c <> "" ->
          setdefault_append (Flowise.body s) (assistant_message (VStr c)) = inr b' ->
          Flowise.finish valves em s = (Return (VStr c), Flowise.set_body b' s))
    /\ (forall body0,
          let run := Flowise.pipe json_loads py_repr valves em endpoint body0 in
          (exists msg,
             Flowise.result run = Flowise.Returned (error_dict msg)
             /\ Flowise.final_body run = body0)
          \/ (exists content,
                truthy content = true
                /\ Flowise.result run = Flowise.Returned content
                /\ setdefault_append body0 (assistant_message content)
                   = inr (Flowise.final_body run)))
    /\ (forall body0 req r ct rest,
          let run := Flowise.pipe json_loads py_repr valves em endpoint body0 in
          json_loads (Json.js "{'event':'end'}") = Some (VDict [("event", VStr "end")]) ->
          Flowise.enable_streaming valves = true ->
          In req (posts (Flowise.events run)) ->
          endpoint req = inr r ->
          (200 <= status_code r < 300)%Z ->
          content_type r = Some ct ->
          contains "text/event-stream" ct = true ->
          lines r = LineText end_event :: rest ->
          Flowise.result run
          = Flowise.Returned (error_dict FlowiseFacts.unknown_error)
          /\ Flowise.final_body run = body0).
Proof.
  intros json_loads py_repr valves em endpoint. split; [| split; [| split]].
  - intros s Hc.
    destruct (FlowiseFacts.finish_empty json_loads py_repr valves em s)
      as (msg & s' & E & (Hb & _) & _).
    { rewrite Hc. reflexivity. }
    exists msg, s'. auto.
  - intros s c b' Hc Hne Ha.
    rewrite <- Hc. apply FlowiseFacts.finish_content.
    + rewrite Hc. cbn [truthy]. destruct (String.eqb_spec c ""); [contradiction |].
      reflexivity.
    + rewrite Hc. exact Ha.
  - intros body0 run. apply FlowiseFacts.pipe_returns.
  - intros body0 req r ct rest run JE Hst Hin Ep Hs Hct Hes Hl.
    destruct (flowise_posted _ _ _ _ _ _ _ Hin) as (um & Q & -> & _).
    pose proof (FlowiseFacts.pipe_with_content json_loads py_repr valves em endpoint
                  body0 um r (VStr "") Q Ep) as HP.
    cbn [truthy String.eqb negb] in HP. apply HP.
    intros s (Hb & Hc & He & _).
    rewrite (FlowiseFacts.handle_response_ok json_loads py_repr valves em r s
               (success_status_ok r Hs)), Hst.
    set (s2 := FlowiseFacts.after_emit valves em "info" "HTTP Status OK (2xx)."
                 false false VNone _).
    assert (B2 : Flowise.body s2 = Flowise.body s
                 /\ Flowise.full_response_content s2 = VStr ""
                 /\ Flowise.last_error_message s2 = Flowise.last_error_message s
                 /\ Flowise.response s2 = Some r).
    { unfold s2.
      rewrite !(FlowiseFacts.content_after_emit json_loads py_repr),
        !(FlowiseFacts.body_after_emit json_loads py_repr),
        !(FlowiseFacts.error_after_emit json_loads py_repr),
        !(FlowiseFacts.response_after_emit json_loads py_repr).
      cbn. auto. }
    destruct B2 as (Hb2 & Hc2 & He2 & Hr2).
    pose proof (sse_loop_end json_loads py_repr valves em rest (iter_error r)
                  (Flowise.set_chunk_count 0
                     (FlowiseFacts.after_emit valves em "info"
                        "Processing streaming response (manual SSE parsing)..."
                        false false VNone s2)) JE) as Hfor.
    rewrite <- Hl in Hfor.
    destruct (FlowiseFacts.streaming_branch_stream json_loads py_repr valves em r s2
                ct _ Hct Hes Hr2 Hfor) as (s4 & E4 & Hc4 & Hb4 & He4 & _).
    exists s4. split; [exact E4 |].
    cbn [Flowise.full_response_content Flowise.body Flowise.last_error_message
           Flowise.set_chunk_count] in Hc4, Hb4, He4.
    rewrite (FlowiseFacts.content_after_emit json_loads py_repr) in Hc4.
    rewrite (FlowiseFacts.body_after_emit json_loads py_repr) in Hb4.
    rewrite (FlowiseFacts.error_after_emit json_loads py_repr) in He4.
    rewrite Hc4, Hb4, He4. auto.
Qed.

Lemma empty_content_is_an_error_witness :
  let run := Flowise.pipe Json.loads Json.repr Flowise.default_valves
               (Some Examples.emitter_ok)
               (Examples.respond (Examples.event_stream [end_event]))
               (Examples.conversation [Examples.message "user" "hello"]) in
  Flowise.result run = Flowise.Returned (error_dict FlowiseFacts.unknown_error)
  /\ Flowise.final_body run = Examples.conversation [Examples.message "user" "hello"].
Proof.
  cbv zeta.
  destruct (empty_content_is_an_error Json.loads Json.repr Flowise.default_valves
              (Some Examples.emitter_ok)
              (Examples.respond (Examples.event_stream [end_event])))
    as (_ & _ & _ & H).
  apply (H (Examples.conversation [Examples.message "user" "hello"])
           (Flowise.post_request Flowise.default_valves (VStr "hello"))
           (Examples.event_stream [end_event]) "text/event-stream" []).
  - vm_compute. reflexivity.
  - reflexivity.
  - vm_compute. left. reflexivity.
  - reflexivity.
  - cbn. lia.
  - reflexivity.
  - reflexivity.
  - reflexivity.
Defined.

End Claims.

(* ================================================================== *)
(** ** Further properties of the two adapters                          *)
(* ================================================================== *)

Module Coverage.
Import Py Eff Host.

(** Lines of an event stream, for the examples. *)
Definition line_A : string := Json.js "data: {'event':'token','data':'A'}".
Definition line_B : string := Json.js "data: {'event':'token','data':'B'}".
Definition line_end : string := Json.js "data: {'event':'end'}".

(** The one request of a Flowise call, read off its trace. *)
Lemma flowise_request json_loads py_repr valves em endpoint body0 req :
  In req (posts (Flowise.events
                   (Flowise.pipe json_loads py_repr valves em endpoint body0))) ->
  exists user_message,
    FlowiseFacts.question_of body0 = Some user_message
    /\ req = Flowise.post_request valves user_message.
Proof.
  rewrite FlowiseFacts.pipe_posts.
  destruct (FlowiseFacts.question_of body0) as [um |]; [| intros []].
  intros [<- | []]. exists um. auto.
Qed.

(** The one request of an n8n call, read off its trace. *)
Lemma n8n_request json_loads py_repr clock valves em endpoint body0 last req :
  In req (posts (N8n.events
                   (N8n.pipe json_loads py_repr clock valves em endpoint body0 last))) ->
  exists b p,
    N8nFacts.parsed json_loads body0 = Some b
    /\ N8nFacts.payload_of valves em b = Some p
    /\ req = N8n.post_request valves p.
Proof.
  destruct (N8nFacts.n8n_pipe_posts json_loads py_repr clock valves em endpoint
              body0 last) as [-> | (b & p & Hb & Hp & ->)]; [intros [] |].
  intros [<- | []]. exists b, p. auto.
Qed.

Lemma accepted_status_ok r :
  (status_code r < 400 \/ 600 <= status_code r)%Z -> ok r = true.
Proof.
  intros H. unfold ok.
  destruct (Z.leb_spec 400 (status_code r)); [| reflexivity].
  destruct (Z.ltb_spec (status_code r) 600); [lia | reflexivity].
Qed.

(** Flowise [emit_status] (src/flowise.py:72-117) never raises and
    always falls through, whatever the emitter does.  With an emitter
    and the status indicator enabled it calls the emitter once, with a
    message of type ["chunk"] or ["status"], and then sleeps
    [streaming_delay_seconds] once, also when the emitter raised;
    otherwise it does nothing.  The body is never touched. *)
Theorem flowise_emit_status_never_raises :
  forall valves em level message done chunk content s,
    exists s',
      Flowise.emit_status valves em level message done chunk content s = (Val tt, s')
      /\ Flowise.body s' = Flowise.body s
      /\ match em with
         | Some e =>
             if Flowise.enable_status_indicator valves then
               exists status_message,
                 Flowise.trace s'
                 = (Flowise.trace s
                    ++ [EmitterCalled status_message
                          (on_call e (Flowise.trace s) status_message);
                        Slept (Flowise.streaming_delay_seconds valves)])%list
                 /\ subscript_key status_message "type"
                    = inr (VStr (if chunk then "chunk" else "status"))
             else Flowise.trace s' = Flowise.trace s
         | None => Flowise.trace s' = Flowise.trace s
         end.
Proof.
  intros valves em level message done chunk content s.
  unfold Flowise.emit_status.
  destruct em as [e |]; [| exists s; repeat split].
  destruct (Flowise.enable_status_indicator valves); [| exists s; repeat split].
  unfold try_finally, try_except, Flowise.call_emitter, Flowise.sleep, modify.
  destruct chunk;
    (match goal with
     | |- context [on_call e (Flowise.trace s) ?m] => set (msg := m)
     end;
     destruct (on_call e (Flowise.trace s) msg) eqn:C; cbn [select is_Exception];
     eexists; (split; [reflexivity |]); (split; [reflexivity |]);
     exists msg; (split; [| reflexivity]);
     rewrite C; cbn [Flowise.trace Flowise.record]; rewrite <- app_assoc;
     reflexivity).
Qed.

(** Whenever the Flowise endpoint answers the POST with a status that
    [raise_for_status] accepts (below 400 or from 600 on), the response
    has been closed at least once when [pipe] returns
    (src/flowise.py:250-459): by the [finally] clause of the branch
    taken, whatever happens inside it. *)
Theorem accepted_response_is_closed :
  forall (json_loads : string -> option value) (py_repr : value -> string)
         valves em endpoint body0 req r,
    let run := Flowise.pipe json_loads py_repr valves em endpoint body0 in
    In req (posts (Flowise.events run)) ->
    endpoint req = inr r ->
    (status_code r < 400 \/ 600 <= status_code r)%Z ->
    1 <= closes (Flowise.events run).
Proof.
  intros json_loads py_repr valves em endpoint body0 req r run Hin Ep Hs.
  destruct (flowise_request _ _ _ _ _ _ _ Hin) as (um & Q & ->).
  apply (FlowiseFacts.pipe_closes json_loads py_repr valves em endpoint body0 um r
           Q Ep (accepted_status_ok r Hs)).
Qed.

Lemma accepted_response_is_closed_witness :
  1 <= closes
         (Flowise.events
            (Flowise.pipe Json.loads Json.repr Flowise.default_valves
               (Some Examples.emitter_failing)
               (Examples.respond
                  (mkResponse 302 (Some "text/event-stream") ""
                              [LineUndecodable] None))
               (Examples.conversation [Examples.message "user" "hello"]))).
Proof.
  apply (accepted_response_is_closed Json.loads Json.repr Flowise.default_valves
           (Some Examples.emitter_failing)
           (Examples.respond
              (mkResponse 302 (Some "text/event-stream") "" [LineUndecodable] None))
           (Examples.conversation [Examples.message "user" "hello"])
           (Flowise.post_request Flowise.default_valves (VStr "hello"))
           (mkResponse 302 (Some "text/event-stream") "" [LineUndecodable] None)).
  - vm_compute. left. reflexivity.
  - reflexivity.
  - left. cbn. lia.
Defined.

(** A Flowise call sends at most one request, and every request it
    sends (src/flowise.py:166-211) goes to [flowise_api_url] with the
    configured timeout, [stream=True] and [allow_redirects=False],
    carries the header [Content-Type: application/json], carries an
    [Authorization] header exactly when an API key is configured (then
    ["Bearer "] followed by the key), and has ["streaming": True] in its
    payload exactly when streaming is enabled. *)
Theorem flowise_request_shape :
  forall (json_loads : string -> option value) (py_repr : value -> string)
         valves em endpoint body0,
    let run := Flowise.pipe json_loads py_repr valves em endpoint body0 in
    length (posts (Flowise.events run)) <= 1
    /\ forall req,
         In req (posts (Flowise.events run)) ->
         req_url req = Flowise.flowise_api_url valves
         /\ req_timeout req = Flowise.request_timeout_seconds valves
         /\ req_stream req = true
         /\ req_allow_redirects req = false
         /\ In ("Content-Type", "application/json") (req_headers req)
         /\ (forall v,
               In ("Authorization", v) (req_headers req)
               <-> exists k, Flowise.flowise_api_key valves = Some k
                             /\ k <> "" /\ v = "Bearer " ++ k)
         /\ subscript_key (req_json req) "streaming"
            = (if Flowise.enable_streaming valves then inr (VBool true)
               else inl (KeyError "'streaming'")).
Proof.
  intros json_loads py_repr valves em endpoint body0 run. split.
  - unfold run. rewrite FlowiseFacts.pipe_posts.
    destruct (FlowiseFacts.question_of body0); cbn; lia.
  - intros req Hin.
    destruct (flowise_request _ _ _ _ _ _ _ Hin) as (um & _ & ->).
    cbn [req_url req_timeout req_stream req_allow_redirects req_headers req_json
           Flowise.post_request].
    repeat (split; [reflexivity |]).
    unfold Flowise.headers, Flowise.payload.
    split; [| split].
    + destruct (Flowise.enable_streaming valves); apply in_or_app; right; cbn; auto.
    + intros v.
      assert (A : forall (tail : list (string * string)),
                 ~ In ("Authorization", v) tail ->
                 In ("Authorization", v)
                    (match Flowise.flowise_api_key valves with
                     | Some k => if negb (k =? "")
                                 then [("Authorization", ("Bearer " ++ k)%string)]
                                 else []
                     | None => []
                     end ++ tail)%list
                 <-> exists k, Flowise.flowise_api_key valves = Some k
                               /\ k <> "" /\ v = "Bearer " ++ k).
      { intros tail Ht. rewrite in_app_iff.
        destruct (Flowise.flowise_api_key valves) as [k |].
        - destruct (String.eqb_spec k "") as [E | N]; cbn [negb].
          + split.
            * intros [[] | H]; contradiction.
            * intros (k' & [= <-] & N' & _). contradiction.
          + split.
            * intros [[[= <-] | []] | H]; [| contradiction].
              exists k. auto.
            * intros (k' & [= <-] & _ & ->). left. left. reflexivity.
        - split.
          + intros [[] | H]; contradiction.
          + intros (k' & [=] & _). }
      destruct (Flowise.enable_streaming valves); apply A; cbn;
        intros H; repeat (destruct H as [H | H]; [discriminate H |]); exact H.
    + destruct (Flowise.enable_streaming valves); reflexivity.
Qed.

Lemma flowise_request_shape_witness :
  req_stream (Flowise.post_request Flowise.default_valves (VStr "hello")) = true
  /\ req_allow_redirects (Flowise.post_request Flowise.default_valves (VStr "hello"))
     = false.
Proof.
  destruct (flowise_request_shape Json.loads Json.repr Flowise.default_valves
              (Some Examples.emitter_ok) Examples.unreachable
              (Examples.conversation [Examples.message "user" "hello"]))
    as (_ & H).
  destruct (H (Flowise.post_request Flowise.default_valves (VStr "hello")))
    as (_ & _ & Hs & Hr & _).
  - vm_compute. left. reflexivity.
  - split; assumption.
Defined.

(** A body the Flowise adapter cannot take a question from is turned
    down before anything is sent, with the body left as it was
    (src/flowise.py:146-164, 453-459): a body that is not a dict gets
    the error "Request body is not a valid dictionary."; a last message
    without ["content"], or a content that cannot be sliced, raises
    inside the [try] and gets the error of the clause that catches the
    exception. *)
Theorem flowise_rejects_unreadable_body :
  forall (json_loads : string -> option value) (py_repr : value -> string)
         valves em endpoint,
    (forall body0,
       let run := Flowise.pipe json_loads py_repr valves em endpoint body0 in
       is_dict body0 = false ->
       Flowise.result run
       = Flowise.Returned (error_dict "Request body is not a valid dictionary.")
       /\ Flowise.final_body run = body0
       /\ posts (Flowise.events run) = [])
    /\ (forall d l m e,
          let run := Flowise.pipe json_loads py_repr valves em endpoint (VDict d) in
          lookup "messages" d = Some (VList (l ++ [m])) ->
          subscript_key m "content" = inl e
          \/ (exists content, subscript_key m "content" = inr content
                              /\ slice_to 50 content = inl e) ->
          Flowise.result run
          = Flowise.Returned (error_dict (FlowiseFacts.failure_message e None))
          /\ Flowise.final_body run = VDict d
          /\ posts (Flowise.events run) = []).
Proof.
  intros json_loads py_repr valves em endpoint. split.
  - intros body0 run H. apply FlowiseFacts.pipe_not_dict, H.
  - intros d l m e run L H.
    apply FlowiseFacts.pipe_question_error.
    unfold FlowiseFacts.question_error, dict_get_default. rewrite L. cbv zeta.
    rewrite PyFacts.truthy_snoc, PyFacts.subscript_last_snoc.
    destruct H as [-> | (content & -> & ->)]; reflexivity.
Qed.

Lemma flowise_rejects_unreadable_body_witness :
  Flowise.result
    (Flowise.pipe Json.loads Json.repr Flowise.default_valves
       (Some Examples.emitter_ok) Examples.unreachable
       (VDict [("messages", VList [VDict [("role", VStr "user")]])]))
  = Flowise.Returned
      (error_dict
         "An unexpected error occurred: KeyError - 'content'. Check pipe code/Flowise.")
  /\ Flowise.result
       (Flowise.pipe Json.loads Json.repr Flowise.default_valves
          (Some Examples.emitter_ok) Examples.unreachable (VList []))
     = Flowise.Returned (error_dict "Request body is not a valid dictionary.").
Proof.
  destruct (flowise_rejects_unreadable_body Json.loads Json.repr
              Flowise.default_valves (Some Examples.emitter_ok) Examples.unreachable)
    as (H1 & H2).
  split.
  - apply (H2 [("messages", VList [VDict [("role", VStr "user")]])] []
              (VDict [("role", VStr "user")]) (KeyError "'content'") eq_refl).
    left. reflexivity.
  - apply (H1 (VList [])). reflexivity.
Defined.

(** When [requests.post] raises in the Flowise adapter
    (src/flowise.py:204-211, 436-459), the call returns the error value
    of the [except] clause that catches the exception, with the body as
    it was, that one request sent and nothing closed (there is no
    response).  For a [RequestException] the message is
    "Network or Request error to Flowise: <class> - <text>. Check
    URL/connectivity.". *)
Theorem flowise_transport_failure :
  forall (json_loads : string -> option value) (py_repr : value -> string)
         valves em endpoint body0 req e,
    let run := Flowise.pipe json_loads py_repr valves em endpoint body0 in
    In req (posts (Flowise.events run)) ->
    endpoint req = inl e ->
    Flowise.result run
    = Flowise.Returned (error_dict (FlowiseFacts.failure_message e None))
    /\ Flowise.final_body run = body0
    /\ posts (Flowise.events run) = [req]
    /\ closes (Flowise.events run) = 0
    /\ (is_RequestException e = true ->
        FlowiseFacts.failure_message e None
        = "Network or Request error to Flowise: " ++ exn_name e ++ " - "
          ++ exn_str e ++ ". Check URL/connectivity.").
Proof.
  intros json_loads py_repr valves em endpoint body0 req e run Hin Ep.
  destruct (flowise_request _ _ _ _ _ _ _ Hin) as (um & Q & ->).
  destruct (FlowiseFacts.pipe_post_raises json_loads py_repr valves em endpoint
              body0 um e Q Ep) as (Hr & Hb & Hc).
  split; [exact Hr |]. split; [exact Hb |].
  split; [apply FlowiseFacts.pipe_sends_once, Q |].
  split; [exact Hc |].
  intros R. unfold FlowiseFacts.failure_message. rewrite R. reflexivity.
Qed.

Lemma flowise_transport_failure_witness :
  Flowise.result
    (Flowise.pipe Json.loads Json.repr Flowise.default_valves
       (Some Examples.emitter_ok) Examples.unreachable
       (Examples.conversation [Examples.message "user" "hello"]))
  = Flowise.Returned
      (error_dict
         ("Network or Request error to Flowise: ConnectionError - "
          ++ "connection refused. Check URL/connectivity.")).
Proof.
  apply (flowise_transport_failure Json.loads Json.repr Flowise.default_valves
           (Some Examples.emitter_ok) Examples.unreachable
           (Examples.conversation [Examples.message "user" "hello"])
           (Flowise.post_request Flowise.default_valves (VStr "hello"))
           (mkExn RequestException "ConnectionError" "connection refused")).
  - vm_compute. left. reflexivity.
  - reflexivity.
Defined.

(** In the Flowise line loop (src/flowise.py:294-355), blank lines,
    lines without the [data:] prefix and [data:] lines whose payload is
    not JSON are passed over: a run of such lines in front of any
    stream changes neither the state nor what the loop does with the
    rest. *)
Theorem ignored_lines_are_skipped :
  forall (json_loads : string -> option value) (py_repr : value -> string)
         valves em ls rest err s,
    forallb (FlowiseFacts.ignored json_loads) ls = true ->
    Flowise.for_lines json_loads py_repr valves em (ls ++ rest) err s
    = Flowise.for_lines json_loads py_repr valves em rest err s.
Proof.
  intros json_loads py_repr valves em ls rest err s H.
  apply FlowiseFacts.for_lines_ignored, H.
Qed.

Lemma ignored_lines_are_skipped_witness :
  Flowise.for_lines Json.loads Json.repr Flowise.default_valves
    (Some Examples.emitter_ok)
    ([LineText ""; LineText ": keep-alive"; LineText "data: {oops"]
     ++ [LineText line_end])
    None (Flowise.initial VNone)
  = Flowise.for_lines Json.loads Json.repr Flowise.default_valves
      (Some Examples.emitter_ok) [LineText line_end] None
      (Flowise.initial VNone).
Proof.
  apply (ignored_lines_are_skipped Json.loads Json.repr Flowise.default_valves
           (Some Examples.emitter_ok)
           [LineText ""; LineText ": keep-alive"; LineText "data: {oops"]).
  vm_compute. reflexivity.
Defined.

(** How the loop over the rest of a stream ends, after its tokens. *)
Definition loop_ends (json_loads : string -> option value) (r : Response)
  (tail : list raw_line) : Prop :=
  (exists d rest, tail = LineText d :: rest /\ FlowiseFacts.final_event json_loads d)
  \/ (tail = [] /\ iter_error r = None).

(** The handling of an accepted event stream that holds a run of token
    events and then ends, by an end event, by the end of the body or by
    an exception of the iterator. *)
Lemma stream_handled json_loads py_repr valves em r ct toks tail s :
  Flowise.enable_streaming valves = true ->
  ok r = true ->
  content_type r = Some ct ->
  contains "text/event-stream" ct = true ->
  Forall (fun p => FlowiseFacts.token_event json_loads (fst p) (snd p)) toks ->
  lines r = (map (fun p => LineText (fst p)) toks ++ tail)%list ->
  loop_ends json_loads r tail \/ (tail = [] /\ exists e, iter_error r = Some e) ->
  Flowise.full_response_content s = VStr "" ->
  exists s',
    Flowise.handle_response json_loads py_repr valves em r s = (Val tt, s')
    /\ Flowise.full_response_content s' = VStr (FlowiseFacts.tokens_text toks)
    /\ Flowise.body s' = Flowise.body s
    /\ Flowise.last_error_message s' = Flowise.last_error_message s.
Proof.
  intros Hst Hok Hct Hes Htok Hl Hend Hc.
  rewrite (FlowiseFacts.handle_response_ok json_loads py_repr valves em r s Hok), Hst.
  destruct (FlowiseFacts.accepted_state json_loads py_repr valves em r s) as (Hb2 & Hc2 & He2 & Hr2).
  set (s2 := FlowiseFacts.after_emit valves em "info" "HTTP Status OK (2xx)."
               false false VNone _) in *.
  set (s0 := Flowise.set_chunk_count 0
               (FlowiseFacts.after_emit valves em "info"
                  "Processing streaming response (manual SSE parsing)..."
                  false false VNone s2)).
  destruct (FlowiseFacts.for_lines_tokens json_loads py_repr valves em toks tail
              (iter_error r) s0 "" Htok)
    as (s3 & Efor & Hc3 & _ & Hb3 & He3 & _).
  { unfold s0. cbn [Flowise.full_response_content Flowise.set_chunk_count].
    rewrite (FlowiseFacts.content_after_emit json_loads py_repr), Hc2. exact Hc. }
  rewrite <- Hl in Efor.
  assert (B0 : Flowise.body s0 = Flowise.body s
               /\ Flowise.last_error_message s0 = Flowise.last_error_message s).
  { unfold s0. cbn [Flowise.body Flowise.last_error_message Flowise.set_chunk_count].
    rewrite (FlowiseFacts.body_after_emit json_loads py_repr),
      (FlowiseFacts.error_after_emit json_loads py_repr). auto. }
  destruct B0 as (Hb0 & He0).
  cbn [append] in Hc3.
  destruct Hend as [[(d & rest & -> & P & ev & J & Ev) | (-> & Hn)]
                   | (-> & e & Hn)].
  - rewrite FlowiseFacts.for_lines_cons,
      (FlowiseFacts.process_line_end json_loads py_repr valves em d ev s3 P J Ev)
      in Efor.
    destruct (FlowiseFacts.streaming_branch_stream json_loads py_repr valves em r s2
                ct s3 Hct Hes Hr2 Efor) as (s4 & E4 & Hc4 & Hb4 & He4 & _).
    exists s4. split; [exact E4 |]. rewrite Hc4, Hb4, He4. split; [exact Hc3 |].
    split; congruence.
  - assert (Et : Flowise.for_lines json_loads py_repr valves em [] (iter_error r) s3
                 = (Val tt, s3)) by (rewrite Hn; reflexivity).
    rewrite Et in Efor.
    destruct (FlowiseFacts.streaming_branch_stream json_loads py_repr valves em r s2
                ct s3 Hct Hes Hr2 Efor) as (s4 & E4 & Hc4 & Hb4 & He4 & _).
    exists s4. split; [exact E4 |]. rewrite Hc4, Hb4, He4. split; [exact Hc3 |].
    split; congruence.
  - assert (Et : Flowise.for_lines json_loads py_repr valves em [] (iter_error r) s3
                 = (Raise e, s3)) by (rewrite Hn; reflexivity).
    rewrite Et in Efor.
    destruct (FlowiseFacts.streaming_branch_broken json_loads py_repr valves em r s2
                ct e s3 Hct Hes Hr2 Efor) as (s4 & E4 & Hc4 & Hb4 & He4 & _).
    exists s4. split; [exact E4 |]. rewrite Hc4, Hb4, He4. split; [exact Hc3 |].
    split; congruence.
Qed.

(** For the Flowise adapter with streaming enabled and an accepted
    event-stream response (src/flowise.py:292-378): when the body holds
    any number of token events and then an end event (whatever follows
    it) or simply ends, the call returns the texts of the tokens joined
    in order, provided that is not empty, and appends it to the body as
    one assistant message. *)
Theorem token_events_accumulate :
  forall (json_loads : string -> option value) (py_repr : value -> string)
         valves em endpoint body0 req r ct toks tail,
    let run := Flowise.pipe json_loads py_repr valves em endpoint body0 in
    Flowise.enable_streaming valves = true ->
    In req (posts (Flowise.events run)) ->
    endpoint req = inr r ->
    (status_code r < 400 \/ 600 <= status_code r)%Z ->
    content_type r = Some ct ->
    contains "text/event-stream" ct = true ->
    Forall (fun p => FlowiseFacts.token_event json_loads (fst p) (snd p)) toks ->
    lines r = (map (fun p => LineText (fst p)) toks ++ tail)%list ->
    loop_ends json_loads r tail ->
    FlowiseFacts.tokens_text toks <> "" ->
    Flowise.result run = Flowise.Returned (VStr (FlowiseFacts.tokens_text toks))
    /\ Flowise.final_body run
       = appended body0 (assistant_message (VStr (FlowiseFacts.tokens_text toks))).
Proof.
  intros json_loads py_repr valves em endpoint body0 req r ct toks tail run
         Hst Hin Ep Hs Hct Hes Htok Hl Hend Hne.
  destruct (flowise_request _ _ _ _ _ _ _ Hin) as (um & Q & ->).
  pose proof (FlowiseFacts.pipe_with_content json_loads py_repr valves em endpoint
                body0 um r (VStr (FlowiseFacts.tokens_text toks)) Q Ep) as HP.
  cbn [truthy] in HP.
  destruct (String.eqb_spec (FlowiseFacts.tokens_text toks) "") as [E | _];
    [contradiction |].
  cbn [negb] in HP. fold run in HP.
  destruct HP as (Hr & Ha).
  { intros s (_ & Hc & _).
    apply (stream_handled json_loads py_repr valves em r ct toks tail s Hst
             (accepted_status_ok r Hs) Hct Hes Htok Hl (or_introl Hend) Hc). }
  split; [exact Hr |]. unfold appended. rewrite Ha. reflexivity.
Qed.

Lemma token_events_accumulate_witness :
  Flowise.result
    (Flowise.pipe Json.loads Json.repr Flowise.default_valves
       (Some Examples.emitter_ok)
       (Examples.respond (Examples.event_stream [line_A; line_B]))
       (Examples.conversation [Examples.message "user" "hello"]))
  = Flowise.Returned (VStr "AB").
Proof.
  apply (token_events_accumulate Json.loads Json.repr Flowise.default_valves
           (Some Examples.emitter_ok)
           (Examples.respond (Examples.event_stream [line_A; line_B]))
           (Examples.conversation [Examples.message "user" "hello"])
           (Flowise.post_request Flowise.default_valves (VStr "hello"))
           (Examples.event_stream [line_A; line_B])
           "text/event-stream"
           [(line_A, "A"); (line_B, "B")] []).
  - reflexivity.
  - vm_compute. left. reflexivity.
  - reflexivity.
  - left. cbn. lia.
  - reflexivity.
  - reflexivity.
  - repeat constructor; cbn [fst snd]; eexists; repeat split; vm_compute; reflexivity.
  - reflexivity.
  - right. split; reflexivity.
  - discriminate.
Defined.

(** For the Flowise adapter with streaming enabled and an accepted
    event-stream response (src/flowise.py:292-378): when the iterator
    over the lines raises after a run of token events (the connection
    breaks in mid-stream), the failure is reported to the emitter only.
    The call then returns the tokens gathered so far as its result; with
    no token gathered it returns the error value of the unknown error,
    since [last_error_message] was not set. *)
Theorem broken_stream_keeps_tokens :
  forall (json_loads : string -> option value) (py_repr : value -> string)
         valves em endpoint body0 req r ct toks e,
    let run := Flowise.pipe json_loads py_repr valves em endpoint body0 in
    Flowise.enable_streaming valves = true ->
    In req (posts (Flowise.events run)) ->
    endpoint req = inr r ->
    (status_code r < 400 \/ 600 <= status_code r)%Z ->
    content_type r = Some ct ->
    contains "text/event-stream" ct = true ->
    Forall (fun p => FlowiseFacts.token_event json_loads (fst p) (snd p)) toks ->
    lines r = map (fun p => LineText (fst p)) toks ->
    iter_error r = Some e ->
    Flowise.result run
    = Flowise.Returned
        (if FlowiseFacts.tokens_text toks =? "" then
           error_dict FlowiseFacts.unknown_error
         else VStr (FlowiseFacts.tokens_text toks)).
Proof.
  intros json_loads py_repr valves em endpoint body0 req r ct toks e run
         Hst Hin Ep Hs Hct Hes Htok Hl Herr.
  destruct (flowise_request _ _ _ _ _ _ _ Hin) as (um & Q & ->).
  pose proof (FlowiseFacts.pipe_with_content json_loads py_repr valves em endpoint
                body0 um r (VStr (FlowiseFacts.tokens_text toks)) Q Ep) as HP.
  cbn [truthy] in HP. fold run in HP.
  assert (Hh : forall s,
             FlowiseFacts.posted valves body0 um s ->
             exists s',
               Flowise.handle_response json_loads py_repr valves em r s = (Val tt, s')
               /\ Flowise.full_response_content s'
                  = VStr (FlowiseFacts.tokens_text toks)
               /\ Flowise.body s' = Flowise.body s
               /\ Flowise.last_error_message s' = Flowise.last_error_message s).
  { intros s (_ & Hc & _).
    apply (stream_handled json_loads py_repr valves em r ct toks [] s Hst
             (accepted_status_ok r Hs) Hct Hes Htok); [| | exact Hc].
    - rewrite app_nil_r. exact Hl.
    - right. split; [reflexivity |]. exists e. exact Herr. }
  specialize (HP Hh).
  destruct (FlowiseFacts.tokens_text toks =? ""); cbn [negb] in HP; apply HP.
Qed.

Lemma broken_stream_keeps_tokens_witness :
  Flowise.result
    (Flowise.pipe Json.loads Json.repr Flowise.default_valves
       (Some Examples.emitter_ok)
       (Examples.respond
          (mkResponse 200 (Some "text/event-stream") "" [LineText line_A]
             (Some (mkExn RequestException "ChunkedEncodingError"
                          "Connection broken"))))
       (Examples.conversation [Examples.message "user" "hello"]))
  = Flowise.Returned (VStr "A").
Proof.
  apply (broken_stream_keeps_tokens Json.loads Json.repr Flowise.default_valves
           (Some Examples.emitter_ok)
           (Examples.respond
              (mkResponse 200 (Some "text/event-stream") "" [LineText line_A]
                 (Some (mkExn RequestException "ChunkedEncodingError"
                              "Connection broken"))))
           (Examples.conversation [Examples.message "user" "hello"])
           (Flowise.post_request Flowise.default_valves (VStr "hello"))
           (mkResponse 200 (Some "text/event-stream") "" [LineText line_A]
              (Some (mkExn RequestException "ChunkedEncodingError"
                           "Connection broken")))
           "text/event-stream" [(line_A, "A")]
           (mkExn RequestException "ChunkedEncodingError" "Connection broken")).
  - reflexivity.
  - vm_compute. left. reflexivity.
  - reflexivity.
  - left. cbn. lia.
  - reflexivity.
  - reflexivity.
  - repeat constructor; cbn [fst snd]; eexists; repeat split; vm_compute; reflexivity.
  - reflexivity.
  - reflexivity.
Defined.

(** The fields each branch of the Flowise adapter reads in a JSON
    object: lines 275-280 and lines 396-402. *)
Definition fields_of_branch (valves : Flowise.Valves) : list string :=
  if Flowise.enable_streaming valves then ["text"; "answer"; "response"]
  else ["text"; "answer"; "response"; "output"].

(** For the Flowise adapter and a response with an accepted status
    (any status below 400 or from 600 on: redirects are not followed
    and a 3xx answer is processed like a 2xx one) whose body is read
    whole (src/flowise.py:267-290, 387-421): the content is the first
    truthy field of a JSON object, the [str] of any other JSON
    document, and the text itself of a body that is not JSON.  The call
    returns the content and appends it when it is truthy; otherwise it
    returns the error value of the unknown error and leaves the body
    alone. *)
Theorem whole_body_content :
  forall (json_loads : string -> option value) (py_repr : value -> string)
         valves em endpoint body0 req r,
    let run := Flowise.pipe json_loads py_repr valves em endpoint body0 in
    let content :=
      FlowiseFacts.document_content json_loads py_repr (fields_of_branch valves) r in
    In req (posts (Flowise.events run)) ->
    endpoint req = inr r ->
    (status_code r < 400 \/ 600 <= status_code r)%Z ->
    (Flowise.enable_streaming valves = true ->
     contains "text/event-stream"
       match content_type r with Some c => c | None => "" end = false) ->
    Flowise.result run
    = Flowise.Returned
        (if truthy content then content else error_dict FlowiseFacts.unknown_error)
    /\ Flowise.final_body run
       = (if truthy content then appended body0 (assistant_message content)
          else body0)
    /\ (json_loads (text r) = None -> content = VStr (text r)).
Proof.
  intros json_loads py_repr valves em endpoint body0 req r run content
         Hin Ep Hs Hct.
  destruct (flowise_request _ _ _ _ _ _ _ Hin) as (um & Q & ->).
  pose proof (FlowiseFacts.pipe_with_content json_loads py_repr valves em endpoint
                body0 um r content Q Ep) as HP.
  fold run in HP.
  assert (Hh : forall s,
             FlowiseFacts.posted valves body0 um s ->
             exists s',
               Flowise.handle_response json_loads py_repr valves em r s = (Val tt, s')
               /\ Flowise.full_response_content s' = content
               /\ Flowise.body s' = Flowise.body s
               /\ Flowise.last_error_message s' = Flowise.last_error_message s).
  { intros s _.
    rewrite (FlowiseFacts.handle_response_ok json_loads py_repr valves em r s
               (accepted_status_ok r Hs)).
    destruct (FlowiseFacts.accepted_state json_loads py_repr valves em r s) as (Hb2 & _ & He2 & Hr2).
    set (s2 := FlowiseFacts.after_emit valves em "info" "HTTP Status OK (2xx)."
                 false false VNone _) in *.
    unfold content, fields_of_branch.
    destruct (Flowise.enable_streaming valves).
    - destruct (FlowiseFacts.streaming_branch_document json_loads py_repr valves em
                  r s2 (Hct eq_refl) Hr2) as (s3 & E & Hc & Hb & He).
      exists s3. rewrite Hb, He. auto.
    - destruct (FlowiseFacts.non_streaming_branch_document json_loads py_repr valves
                  em r s2 Hr2) as (s3 & E & Hc & Hb & He).
      exists s3. rewrite Hb, He. auto. }
  specialize (HP Hh).
  split; [| split].
  - destruct (truthy content); apply HP.
  - destruct (truthy content); destruct HP as (_ & HP); [| exact HP].
    unfold appended. rewrite HP. reflexivity.
  - intros J. unfold content, FlowiseFacts.document_content. rewrite J. reflexivity.
Qed.

Lemma whole_body_content_witness :
  Flowise.result
    (Flowise.pipe Json.loads Json.repr Flowise.default_valves
       (Some Examples.emitter_ok)
       (Examples.respond (mkResponse 302 (Some "text/html") "Moved" [] None))
       (Examples.conversation [Examples.message "user" "hello"]))
  = Flowise.Returned (VStr "Moved").
Proof.
  apply (whole_body_content Json.loads Json.repr Flowise.default_valves
           (Some Examples.emitter_ok)
           (Examples.respond (mkResponse 302 (Some "text/html") "Moved" [] None))
           (Examples.conversation [Examples.message "user" "hello"])
           (Flowise.post_request Flowise.default_valves (VStr "hello"))
           (mkResponse 302 (Some "text/html") "Moved" [] None)).
  - vm_compute. left. reflexivity.
  - reflexivity.
  - left. cbn. lia.
  - intros _. reflexivity.
Defined.

(** [extract_event_info] (src/n8n.py:26-40) is decided by the first
    cell of the emitter's closure that holds a dict: cells before it
    that hold something else are skipped, and whatever comes after it
    is not looked at.  Without a dict among the cells the result is
    [(None, None)]; an empty cell met before any dict makes the read of
    [cell.cell_contents] raise [ValueError]. *)
Theorem closure_chat_id :
  forall pre d post calls,
    forallb N8nFacts.skipped_cell pre = true ->
    N8n.extract_event_info
      (Some (mkEmitter (Some (pre ++ Some (VDict d) :: post)%list) calls))
    = inr (dict_get d "chat_id", dict_get d "message_id")
    /\ N8n.extract_event_info (Some (mkEmitter (Some pre) calls)) = inr (VNone, VNone)
    /\ N8n.extract_event_info (Some (mkEmitter (Some (pre ++ None :: post)%list) calls))
       = inl (mkExn ValueError "ValueError" "Cell is empty").
Proof.
  intros pre d post calls H. unfold N8n.extract_event_info. cbn [closure].
  split; [apply N8nFacts.first_request_info_dict, H |].
  split; [apply N8nFacts.first_request_info_none, H |].
  apply N8nFacts.first_request_info_empty, H.
Qed.

Lemma closure_chat_id_witness :
  N8n.extract_event_info
    (Some (mkEmitter
             (Some ([Some (VStr "self"); Some (VInt 3)]
                    ++ Some (VDict [("chat_id", VStr "c1"); ("message_id", VStr "m1")])
                    :: [None])%list)
             (fun _ _ => None)))
  = inr (VStr "c1", VStr "m1").
Proof.
  apply (closure_chat_id [Some (VStr "self"); Some (VInt 3)]
           [("chat_id", VStr "c1"); ("message_id", VStr "m1")] [None]
           (fun _ _ => None)).
  reflexivity.
Defined.

(** An n8n call sends at most one request, whatever the emitter does,
    and every request it sends (src/n8n.py:171-214) goes to [n8n_url]
    with the configured timeout and the two headers [Authorization:
    Bearer <token>] and [Content-Type: application/json].  Unless
    [input_field] is ["sessionId"], its payload holds under
    ["sessionId"] the chat id found in the emitter's closure, or
    ["unknown_session"] when there is none. *)
Theorem n8n_request_shape :
  forall (json_loads : string -> option value) (py_repr : value -> string)
         (clock : nat -> Q) valves em endpoint body0 (last : Q),
    let run := N8n.pipe json_loads py_repr clock valves em endpoint body0 last in
    length (posts (N8n.events run)) <= 1
    /\ forall req,
         In req (posts (N8n.events run)) ->
         req_url req = N8n.n8n_url valves
         /\ req_timeout req = N8n.request_timeout_seconds valves
         /\ req_headers req
            = [("Authorization", "Bearer " ++ N8n.n8n_bearer_token valves);
               ("Content-Type", "application/json")]
         /\ exists ids,
              N8n.extract_event_info em = inr ids
              /\ (N8n.input_field valves <> "sessionId" ->
                  subscript_key (req_json req) "sessionId"
                  = inr (if is_none (fst ids) then VStr "unknown_session"
                         else fst ids)).
Proof.
  intros json_loads py_repr clock valves em endpoint body0 last run. split.
  - unfold run.
    destruct (N8nFacts.n8n_pipe_posts json_loads py_repr clock valves em endpoint
                body0 last) as [-> | (b & p & _ & _ & ->)]; cbn; lia.
  - intros req Hin.
    destruct (n8n_request _ _ _ _ _ _ _ _ _ Hin) as (b & p & _ & Hp & ->).
    cbn [req_url req_timeout req_headers req_json N8n.post_request].
    repeat (split; [reflexivity |]).
    destruct (N8nFacts.payload_of_ids valves em b p Hp)
      as (question & ids & system_prompt & Hids & ->).
    exists ids. split; [exact Hids |].
    intros H. apply N8nFacts.payload_session_id, H.
Qed.

Lemma n8n_request_shape_witness :
  subscript_key
    (req_json
       (N8n.post_request N8n.default_valves
          (N8n.payload N8n.default_valves VNone (VStr "hello") VNone)))
    "sessionId"
  = inr (VStr "unknown_session").
Proof.
  destruct (n8n_request_shape Json.loads Json.repr Examples.clock_tenths
              N8n.default_valves (Some Examples.emitter_ok) Examples.unreachable
              (Examples.conversation [Examples.message "user" "hello"]) 0%Q)
    as (_ & H).
  destruct (H (N8n.post_request N8n.default_valves
                 (N8n.payload N8n.default_valves VNone (VStr "hello") VNone)))
    as (_ & _ & _ & ids & Hids & Hs).
  - vm_compute. left. reflexivity.
  - injection Hids as <-. apply Hs. discriminate.
Defined.

Lemma n8n_success_branch json_loads py_repr clock valves em r :
  (200 <= status_code r < 300)%Z ->
  N8n.handle_response json_loads py_repr clock valves em r
  = N8n.on_success_status json_loads py_repr clock valves em r.
Proof.
  intros H. unfold N8n.handle_response.
  replace ((200 <=? status_code r)%Z && (status_code r <? 300)%Z) with true by lia.
  reflexivity.
Qed.

(** The state an emission leaves keeps the body, the content and the
    error message. *)
Ltac emitted_state json_loads :=
  rewrite (N8nFacts.n8n_body_after_emit json_loads),
    (N8nFacts.n8n_content_after_emit json_loads),
    (N8nFacts.n8n_error_after_emit json_loads).

(** When the n8n endpoint answers with a status that is neither 2xx nor
    4xx (src/n8n.py:277-284, 308-329), the call (its emitter returning
    normally) returns the error value "Unexpected HTTP error: Received
    status code <n> from N8N. Response: <text>" and appends one
    assistant message that records it. *)
Theorem n8n_unexpected_status :
  forall (json_loads : string -> option value) (py_repr : value -> string)
         (clock : nat -> Q) valves em endpoint body0 (last : Q) req r,
    let run := N8n.pipe json_loads py_repr clock valves em endpoint body0 last in
    emitter_returns em ->
    In req (posts (N8n.events run)) ->
    endpoint req = inr r ->
    (status_code r < 200 \/ 300 <= status_code r < 400 \/ 500 <= status_code r)%Z ->
    N8n.result run = N8n.Returned (error_dict (N8n.unexpected_status_message r))
    /\ exists b,
         N8nFacts.parsed json_loads body0 = Some b
         /\ N8n.final_body run
            = appended b
                (assistant_message
                   (VStr ("Error calling N8N workflow: "
                          ++ N8n.unexpected_status_message r))).
Proof.
  intros json_loads py_repr clock valves em endpoint body0 last req r run
         Hem Hin Ep Hs.
  destruct (n8n_request _ _ _ _ _ _ _ _ _ Hin) as (b & p & Hb & Hp & ->).
  destruct (N8nFacts.pipe_answered json_loads py_repr clock valves em endpoint Hem
              body0 last b p r VNone (Some (N8n.unexpected_status_message r))
              Hb Hp Ep) as (Hr & Hf & _).
  { intros s Hc He.
    rewrite (N8nFacts.handle_response_unexpected json_loads py_repr clock valves
               em Hem r s) by lia.
    eexists. split; [reflexivity |]. emitted_state json_loads. auto. }
  cbn [is_none] in Hr, Hf.
  assert (Hfe : N8nFacts.final_error (Some (N8n.unexpected_status_message r))
                = N8n.unexpected_status_message r) by reflexivity.
  rewrite Hfe in Hr. unfold N8nFacts.failure_message in Hf. rewrite Hfe in Hf.
  split; [exact Hr |]. exists b. split; [exact Hb | exact Hf].
Qed.

Lemma n8n_unexpected_status_witness :
  N8n.result
    (N8n.pipe Json.loads Json.repr Examples.clock_tenths N8n.default_valves
       (Some Examples.emitter_ok)
       (Examples.respond (mkResponse 503 None "busy" [] None))
       (Examples.conversation [Examples.message "user" "hello"]) 0%Q)
  = N8n.Returned
      (error_dict
         "Unexpected HTTP error: Received status code 503 from N8N. Response: busy").
Proof.
  apply (n8n_unexpected_status Json.loads Json.repr Examples.clock_tenths
           N8n.default_valves (Some Examples.emitter_ok)
           (Examples.respond (mkResponse 503 None "busy" [] None))
           (Examples.conversation [Examples.message "user" "hello"]) 0%Q
           (N8n.post_request N8n.default_valves
              (N8n.payload N8n.default_valves VNone (VStr "hello") VNone))
           (mkResponse 503 None "busy" [] None)).
  - intros tr message. reflexivity.
  - vm_compute. left. reflexivity.
  - reflexivity.
  - right. right. cbn. lia.
Defined.

(** When [requests.post] raises in the n8n adapter (src/n8n.py:201-214,
    286-329), the call (its emitter returning normally) returns the
    error value "Request to N8N failed: <class> - <text>." and appends
    one assistant message that records it; that request is the only
    one. *)
Theorem n8n_transport_failure :
  forall (json_loads : string -> option value) (py_repr : value -> string)
         (clock : nat -> Q) valves em endpoint body0 (last : Q) req e,
    let run := N8n.pipe json_loads py_repr clock valves em endpoint body0 last in
    let msg := "Request to N8N failed: " ++ exn_name e ++ " - " ++ exn_str e ++ "." in
    emitter_returns em ->
    In req (posts (N8n.events run)) ->
    endpoint req = inl e ->
    N8n.result run = N8n.Returned (error_dict msg)
    /\ posts (N8n.events run) = [req]
    /\ exists b,
         N8nFacts.parsed json_loads body0 = Some b
         /\ N8n.final_body run
            = appended b
                (assistant_message (VStr ("Error calling N8N workflow: " ++ msg))).
Proof.
  intros json_loads py_repr clock valves em endpoint body0 last req e run msg
         Hem Hin Ep.
  destruct (n8n_request _ _ _ _ _ _ _ _ _ Hin) as (b & p & Hb & Hp & ->).
  destruct (N8nFacts.n8n_pipe_post_raises json_loads py_repr clock valves em
              endpoint Hem body0 last b p e Hb Hp Ep) as (Hr & Hf & Hposts).
  split; [exact Hr |]. split; [exact Hposts |].
  exists b. split; [exact Hb | exact Hf].
Qed.

Lemma n8n_transport_failure_witness :
  N8n.result
    (N8n.pipe Json.loads Json.repr Examples.clock_tenths N8n.default_valves
       (Some Examples.emitter_ok) Examples.unreachable
       (Examples.conversation [Examples.message "user" "hello"]) 0%Q)
  = N8n.Returned
      (error_dict "Request to N8N failed: ConnectionError - connection refused.").
Proof.
  apply (n8n_transport_failure Json.loads Json.repr Examples.clock_tenths
           N8n.default_valves (Some Examples.emitter_ok) Examples.unreachable
           (Examples.conversation [Examples.message "user" "hello"]) 0%Q
           (N8n.post_request N8n.default_valves
              (N8n.payload N8n.default_valves VNone (VStr "hello") VNone))
           (mkExn RequestException "ConnectionError" "connection refused")).
  - intros tr message. reflexivity.
  - vm_compute. left. reflexivity.
  - reflexivity.
Defined.

(** When the n8n endpoint answers 2xx with an ASCII body that is not
    JSON (src/n8n.py:217-260), the call (its emitter returning
    normally) returns an error value that gives the status and the
    first 200 characters of the body. *)
Theorem n8n_invalid_json_response :
  forall (json_loads : string -> option value) (py_repr : value -> string)
         (clock : nat -> Q) valves em endpoint body0 (last : Q) req r,
    let run := N8n.pipe json_loads py_repr clock valves em endpoint body0 last in
    emitter_returns em ->
    In req (posts (N8n.events run)) ->
    endpoint req = inr r ->
    (200 <= status_code r < 300)%Z ->
    isascii (text r) = true ->
    json_loads (text r) = None ->
    N8n.result run
    = N8n.Returned
        (error_dict
           ("N8N workflow responded successfully (status "
            ++ str_of_Z (status_code r) ++ ") "
            ++ "but the response body is not valid JSON. "
            ++ "Response snippet: " ++ take 200 (text r) ++ "...")).
Proof.
  intros json_loads py_repr clock valves em endpoint body0 last req r run
         Hem Hin Ep Hs _ J.
  destruct (n8n_request _ _ _ _ _ _ _ _ _ Hin) as (b & p & Hb & Hp & ->).
  destruct (N8nFacts.pipe_answered json_loads py_repr clock valves em endpoint Hem
              body0 last b p r VNone (Some (N8n.invalid_json_message r))
              Hb Hp Ep) as (Hr & _).
  { intros s Hc He.
    rewrite (n8n_success_branch json_loads py_repr clock valves em r Hs).
    rewrite (N8nFacts.on_success_status_invalid json_loads py_repr clock valves
               em Hem r s J).
    eexists. split; [reflexivity |]. emitted_state json_loads. auto. }
  exact Hr.
Qed.

Lemma n8n_invalid_json_response_witness :
  N8n.result
    (N8n.pipe Json.loads Json.repr Examples.clock_tenths N8n.default_valves
       (Some Examples.emitter_ok)
       (Examples.respond (Examples.json_response "<html>"))
       (Examples.conversation [Examples.message "user" "hello"]) 0%Q)
  = N8n.Returned
      (error_dict
         ("N8N workflow responded successfully (status 200) "
          ++ "but the response body is not valid JSON. "
          ++ "Response snippet: <html>...")).
Proof.
  apply (n8n_invalid_json_response Json.loads Json.repr Examples.clock_tenths
           N8n.default_valves (Some Examples.emitter_ok)
           (Examples.respond (Examples.json_response "<html>"))
           (Examples.conversation [Examples.message "user" "hello"]) 0%Q
           (N8n.post_request N8n.default_valves
              (N8n.payload N8n.default_valves VNone (VStr "hello") VNone))
           (Examples.json_response "<html>")).
  - intros tr message. reflexivity.
  - vm_compute. left. reflexivity.
  - reflexivity.
  - cbn. lia.
  - reflexivity.
  - reflexivity.
Defined.

(** When the n8n endpoint answers 2xx with a JSON object (or a list
    whose first item is one) that has the configured [response_field]
    (src/n8n.py:228-235, 296-329), the call (its emitter returning
    normally) returns the value of that field, whatever it is, and
    appends it as one assistant message: also an empty string.  Only
    JSON [null] counts as no content: the call then returns the error
    value "An unknown error occurred during the N8N request." and
    appends that failure. *)
Theorem n8n_field_value_is_returned :
  forall (json_loads : string -> option value) (py_repr : value -> string)
         (clock : nat -> Q) valves em endpoint body0 (last : Q) req r doc d content,
    let run := N8n.pipe json_loads py_repr clock valves em endpoint body0 last in
    emitter_returns em ->
    In req (posts (N8n.events run)) ->
    endpoint req = inr r ->
    (200 <= status_code r < 300)%Z ->
    json_loads (text r) = Some doc ->
    N8nFacts.response_object doc = Some (VDict d) ->
    lookup (N8n.response_field valves) d = Some content ->
    N8n.result run
    = N8n.Returned
        (if is_none content
         then error_dict "An unknown error occurred during the N8N request."
         else content)
    /\ exists b,
         N8nFacts.parsed json_loads body0 = Some b
         /\ N8n.final_body run
            = appended b
                (assistant_message
                   (if is_none content
                    then VStr ("Error calling N8N workflow: "
                               ++ "An unknown error occurred during the N8N request.")
                    else content)).
Proof.
  intros json_loads py_repr clock valves em endpoint body0 last req r doc d content
         run Hem Hin Ep Hs J O L.
  destruct (n8n_request _ _ _ _ _ _ _ _ _ Hin) as (b & p & Hb & Hp & ->).
  destruct (N8nFacts.pipe_answered json_loads py_repr clock valves em endpoint Hem
              body0 last b p r content None Hb Hp Ep) as (Hr & Hf & _).
  { intros s Hc He.
    rewrite (n8n_success_branch json_loads py_repr clock valves em r Hs).
    rewrite (N8nFacts.on_success_status_found json_loads py_repr clock valves em r s
               doc d content J O L).
    eexists. split; [reflexivity |]. cbn. auto. }
  split.
  - unfold run. rewrite Hr. destruct (is_none content); reflexivity.
  - exists b. split; [exact Hb |]. unfold run. rewrite Hf.
    destruct (is_none content); reflexivity.
Qed.

Lemma n8n_field_value_is_returned_witness :
  N8n.result
    (N8n.pipe Json.loads Json.repr Examples.clock_tenths N8n.default_valves
       (Some Examples.emitter_ok)
       (Examples.respond (Examples.json_response (Json.js "{'output': ''}")))
       (Examples.conversation [Examples.message "user" "hello"]) 0%Q)
  = N8n.Returned (VStr "").
Proof.
  apply (n8n_field_value_is_returned Json.loads Json.repr Examples.clock_tenths
           N8n.default_valves (Some Examples.emitter_ok)
           (Examples.respond (Examples.json_response (Json.js "{'output': ''}")))
           (Examples.conversation [Examples.message "user" "hello"]) 0%Q
           (N8n.post_request N8n.default_valves
              (N8n.payload N8n.default_valves VNone (VStr "hello") VNone))
           (Examples.json_response (Json.js "{'output': ''}"))
           (VDict [("output", VStr "")]) [("output", VStr "")] (VStr "")).
  - intros tr message. reflexivity.
  - vm_compute. left. reflexivity.
  - reflexivity.
  - cbn. lia.
  - reflexivity.
  - reflexivity.
  - reflexivity.
Defined.

(** In the n8n adapter the last message, the emitter's closure and the
    system prompt are read outside every [try] (src/n8n.py:164-187).
    When one of these reads raises, [pipe] itself raises that exception
    (its emitter returning normally): it returns nothing, sends nothing
    and leaves the body as it was.  A last message without ["content"]
    is such a case. *)
Theorem n8n_unreadable_messages_raise :
  forall (json_loads : string -> option value) (py_repr : value -> string)
         (clock : nat -> Q) valves em endpoint,
    emitter_returns em ->
    (forall body0 (last : Q) b e,
       let run := N8n.pipe json_loads py_repr clock valves em endpoint body0 last in
       N8nFacts.parsed json_loads body0 = Some b ->
       N8nFacts.payload_error em b = Some e ->
       N8n.result run = N8n.Raised e
       /\ N8n.final_body run = b
       /\ posts (N8n.events run) = [])
    /\ (forall d l m e,
          lookup "messages" d = Some (VList (l ++ [m])) ->
          subscript_key m "content" = inl e ->
          N8nFacts.payload_error em (VDict d) = Some e).
Proof.
  intros json_loads py_repr clock valves em endpoint Hem. split.
  - intros body0 last b e run P H.
    destruct (N8nFacts.n8n_pipe_raises json_loads py_repr clock valves em endpoint
                Hem body0 last b e P H) as (Hr & Hb).
    split; [exact Hr |]. split; [exact Hb |].
    destruct (N8nFacts.n8n_pipe_posts json_loads py_repr clock valves em endpoint
                body0 last) as [Hn | (b' & p & Hb' & Hp & _)]; [exact Hn |].
    rewrite P in Hb'. injection Hb' as <-.
    rewrite (N8nFacts.payload_error_no_payload valves em b e H) in Hp.
    discriminate.
  - intros d l m e L H.
    unfold N8nFacts.payload_error, dict_get_default. rewrite L. cbv zeta.
    rewrite PyFacts.truthy_snoc, PyFacts.subscript_last_snoc, H. reflexivity.
Qed.

Lemma n8n_unreadable_messages_raise_witness :
  N8n.result
    (N8n.pipe Json.loads Json.repr Examples.clock_tenths N8n.default_valves
       (Some Examples.emitter_ok) Examples.unreachable
       (VDict [("messages", VList [VDict [("role", VStr "user")]])]) 0%Q)
  = N8n.Raised (KeyError "'content'").
Proof.
  destruct (n8n_unreadable_messages_raise Json.loads Json.repr Examples.clock_tenths
              N8n.default_valves (Some Examples.emitter_ok) Examples.unreachable)
    as (H & _).
  - intros tr message. reflexivity.
  - apply (H (VDict [("messages", VList [VDict [("role", VStr "user")]])]) 0%Q
             (VDict [("messages", VList [VDict [("role", VStr "user")]])])
             (KeyError "'content'")); reflexivity.
Defined.

(** Unlike the Flowise adapter, the n8n adapter does not guard its
    emitter calls (src/n8n.py:82-114, 149-156).  For a body without
    messages the error is emitted as a terminal status, which always
    passes the throttle; when the emitter raises on it, [pipe] raises
    that exception, before the error message is appended to the body
    and without having sent anything. *)
Theorem n8n_emitter_exception_propagates :
  forall (json_loads : string -> option value) (py_repr : value -> string)
         (clock : nat -> Q) valves e endpoint d (last : Q) x,
    let run := N8n.pipe json_loads py_repr clock valves (Some e) endpoint
                        (VDict d) last in
    N8n.enable_status_indicator valves = true ->
    lookup "messages" d = None \/ lookup "messages" d = Some (VList []) ->
    on_call e []
      (N8n.status_message "error"
         "Error: No messages found in the request body to process." true)
    = Some x ->
    N8n.result run = N8n.Raised x
    /\ N8n.final_body run = VDict d
    /\ posts (N8n.events run) = [].
Proof.
  intros json_loads py_repr clock valves e endpoint d last x run En L Hx.
  unfold run.
  rewrite N8nFacts.n8n_pipe_eq,
    (N8nFacts.pipe_body_of_parsed json_loads py_repr clock valves (Some e) endpoint
       (VDict d) (VDict d) last eq_refl eq_refl).
  assert (T : truthy (dict_get_default d "messages" (VList [])) = false).
  { unfold dict_get_default. destruct L as [-> | ->]; reflexivity. }
  assert (P : N8nFacts.passes clock valves true (N8n.initial (VDict d) last) = true).
  { unfold N8nFacts.passes. rewrite En, orb_true_r. reflexivity. }
  pose proof (N8nFacts.emit_passing clock valves (Some e) e "error"
                "Error: No messages found in the request body to process." true
                (N8n.initial (VDict d) last) eq_refl P) as E.
  cbn [N8n.trace N8n.initial] in E. rewrite Hx in E.
  unfold N8n.main_block. rewrite EffFacts.bind_gets. cbn [N8n.body N8n.initial].
  cbv zeta. rewrite T. cbn [negb].
  rewrite (EffFacts.bind_raised _ _ _ _ _ E).
  unfold N8nFacts.n8n_run_of; cbn [fst snd N8n.result N8n.final_body N8n.events].
  repeat split.
Qed.

Lemma n8n_emitter_exception_propagates_witness :
  N8n.result
    (N8n.pipe Json.loads Json.repr Examples.clock_tenths N8n.default_valves
       (Some Examples.emitter_failing) Examples.unreachable (VDict []) 0%Q)
  = N8n.Raised (mkExn OtherException "RuntimeError" "emitter down").
Proof.
  apply (n8n_emitter_exception_propagates Json.loads Json.repr Examples.clock_tenths
           N8n.default_valves Examples.emitter_failing Examples.unreachable [] 0%Q
           (mkExn OtherException "RuntimeError" "emitter down")).
  - reflexivity.
  - left. reflexivity.
  - reflexivity.
Defined.

(** Without an emitter, or with the status indicator disabled, the n8n
    [emit_status] (src/n8n.py:82-114) delivers nothing: any run of
    emissions, terminal ones included, falls through having only read
    the clock once per call; the trace, [last_emit_time] and the body
    are as before. *)
Theorem n8n_silent_emissions :
  forall (clock : nat -> Q) valves em calls s,
    em = None \/ N8n.enable_status_indicator valves = false ->
    exists s',
      N8nFacts.emit_all clock valves em calls s = (Val tt, s')
      /\ N8n.trace s' = N8n.trace s
      /\ N8n.last_emit_time s' = N8n.last_emit_time s
      /\ N8n.body s' = N8n.body s
      /\ N8n.ticks s' = N8n.ticks s + length calls.
Proof.
  intros clock valves em calls s H.
  apply N8nFacts.emit_all_silent, H.
Qed.

Lemma n8n_silent_emissions_witness :
  exists s',
    N8nFacts.emit_all Examples.clock_tenths N8n.default_valves None
      [("info", "Calling n8n workflow...", false); ("error", "failed", true)]
      (N8n.initial (VDict []) 0%Q)
    = (Val tt, s')
    /\ N8n.trace s' = [].
Proof.
  destruct (n8n_silent_emissions Examples.clock_tenths N8n.default_valves None
              [("info", "Calling n8n workflow...", false); ("error", "failed", true)]
              (N8n.initial (VDict []) 0%Q) (or_introl eq_refl))
    as (s' & E & Ht & _).
  exists s'. split; [exact E | exact Ht].
Defined.

(** With a non-negative [emit_interval], a call of the n8n [pipe]
    never moves [last_emit_time] back (src/n8n.py:82-329): whatever the
    body, the emitter and the endpoint do, the value the call leaves
    for the next one is the value it started with or a later clock
    reading of its own. *)
Theorem last_emit_time_never_moves_back :
  forall (json_loads : string -> option value) (py_repr : value -> string)
         (clock : nat -> Q) valves em endpoint body0 (last : Q),
    (0 <= N8n.emit_interval valves)%Q ->
    (last <= N8n.final_last_emit_time
               (N8n.pipe json_loads py_repr clock valves em endpoint body0 last))%Q.
Proof.
  intros json_loads py_repr clock valves em endpoint body0 last H.
  apply N8nFacts.pipe_later, H.
Qed.

Lemma last_emit_time_never_moves_back_witness :
  (0 <= N8n.final_last_emit_time
          (N8n.pipe Json.loads Json.repr Examples.clock_tenths N8n.default_valves
             (Some Examples.emitter_ok) Examples.unreachable
             (Examples.conversation [Examples.message "user" "hello"]) 0%Q))%Q.
Proof.
  apply (last_emit_time_never_moves_back Json.loads Json.repr Examples.clock_tenths
           N8n.default_valves (Some Examples.emitter_ok) Examples.unreachable
           (Examples.conversation [Examples.message "user" "hello"]) 0%Q).
  vm_compute. discriminate.
Defined.

(** In the Flowise line loop (src/flowise.py:294-355) only a token event
    whose data is a string touches the accumulated content: over any
    lines none of which is such an event, whatever else they hold and
    however the loop ends (end event, end of the body, an exception),
    the content is what it was before. *)
Theorem only_token_events_change_content :
  forall (json_loads : string -> option value) (py_repr : value -> string)
         valves em ls err s,
    forallb (fun line => negb (FlowiseFacts.is_token_line json_loads line)) ls = true ->
    Flowise.full_response_content
      (snd (Flowise.for_lines json_loads py_repr valves em ls err s))
    = Flowise.full_response_content s.
Proof.
  intros json_loads py_repr valves em ls err s H.
  apply FlowiseFacts.for_lines_keeps_content, H.
Qed.

Lemma only_token_events_change_content_witness :
  Flowise.full_response_content
    (snd (Flowise.for_lines Json.loads Json.repr Flowise.default_valves
            (Some Examples.emitter_ok)
            [LineText (Json.js "data: {'event':'metadata','data':{'chatId':'c1'}}");
             LineText (Json.js "data: {'event':'token','data':7}");
             LineText line_end; LineUndecodable]
            None (Flowise.initial VNone)))
  = VStr "".
Proof.
  apply (only_token_events_change_content Json.loads Json.repr Flowise.default_valves
           (Some Examples.emitter_ok)
           [LineText (Json.js "data: {'event':'metadata','data':{'chatId':'c1'}}");
            LineText (Json.js "data: {'event':'token','data':7}");
            LineText line_end; LineUndecodable]
           None (Flowise.initial VNone)).
  vm_compute. reflexivity.
Defined.

(** The n8n adapter takes the system prompt from the first message
    whose role is ["system"] (src/n8n.py:180-195): every request of a
    call on a body whose messages are dicts up to and including such a
    message carries that message's content under ["systemPrompt"] when
    it is truthy.  When no message has the role ["system"] and
    [input_field] is not ["systemPrompt"], the payload has no
    ["systemPrompt"] key. *)
Theorem system_prompt_is_first_system_message :
  forall (json_loads : string -> option value) (py_repr : value -> string)
         (clock : nat -> Q) valves em endpoint d (last : Q) req,
    let run := N8n.pipe json_loads py_repr clock valves em endpoint (VDict d) last in
    In req (posts (N8n.events run)) ->
    (forall pre sd post system_prompt,
       lookup "messages" d = Some (VList (pre ++ VDict sd :: post)) ->
       forallb N8nFacts.not_system pre = true ->
       eq_str (dict_get sd "role") "system" = true ->
       lookup "content" sd = Some system_prompt ->
       truthy system_prompt = true ->
       subscript_key (req_json req) "systemPrompt" = inr system_prompt)
    /\ (forall msgs,
          lookup "messages" d = Some (VList msgs) ->
          forallb N8nFacts.not_system msgs = true ->
          N8n.input_field valves <> "systemPrompt" ->
          subscript_key (req_json req) "systemPrompt"
          = inl (KeyError "'systemPrompt'")).
Proof.
  intros json_loads py_repr clock valves em endpoint d last req run Hin.
  destruct (n8n_request _ _ _ _ _ _ _ _ _ Hin) as (b & p & Hb & Hp & ->).
  cbn in Hb. injection Hb as <-.
  cbn [req_json N8n.post_request]. split.
  - intros pre sd post system_prompt L Hpre R C T.
    destruct (N8nFacts.payload_of_system valves em d _ p L Hp)
      as (question & ids & sp & Hsp & ->).
    rewrite (N8nFacts.first_system_content_first pre sd post Hpre R) in Hsp.
    cbn [subscript_key] in Hsp. rewrite C in Hsp. injection Hsp as <-.
    apply N8nFacts.payload_system_prompt, T.
  - intros msgs L Hm H.
    destruct (N8nFacts.payload_of_system valves em d _ p L Hp)
      as (question & ids & sp & Hsp & ->).
    rewrite (N8nFacts.first_system_content_none msgs Hm) in Hsp.
    injection Hsp as <-.
    apply N8nFacts.payload_without_system_prompt; [reflexivity | exact H].
Qed.

Lemma system_prompt_is_first_system_message_witness :
  subscript_key
    (req_json
       (N8n.post_request N8n.default_valves
          (N8n.payload N8n.default_valves VNone (VStr "hello") (VStr "Be brief."))))
    "systemPrompt"
  = inr (VStr "Be brief.").
Proof.
  destruct (system_prompt_is_first_system_message Json.loads Json.repr
              Examples.clock_tenths N8n.default_valves (Some Examples.emitter_ok)
              Examples.unreachable
              [("messages", VList [Examples.message "user" "hi";
                                   Examples.message "system" "Be brief.";
                                   Examples.message "system" "Be long.";
                                   Examples.message "user" "hello"])]
              0%Q
              (N8n.post_request N8n.default_valves
                 (N8n.payload N8n.default_valves VNone (VStr "hello")
                    (VStr "Be brief."))))
    as (H & _).
  - vm_compute. left. reflexivity.
  - apply (H [Examples.message "user" "hi"]
             [("role", VStr "system"); ("content", VStr "Be brief.")]
             [Examples.message "system" "Be long."; Examples.message "user" "hello"]
             (VStr "Be brief.")); reflexivity.
Defined.

(** A body without messages is turned down by both adapters, but only
    the n8n adapter writes the rejection into the body
    (src/n8n.py:149-162, src/flowise.py:151-156): it appends one
    assistant message with the error text, creating the ["messages"]
    list when the key is absent (its emitter returning normally), while
    the Flowise adapter leaves the body as it was. *)
Theorem rejection_is_recorded_by_n8n_only :
  forall (json_loads : string -> option value) (py_repr : value -> string)
         (d : list (string * value)),
    lookup "messages" d = None \/ lookup "messages" d = Some (VList []) ->
    (forall clock valves em endpoint last,
       emitter_returns em ->
       N8n.final_body
         (N8n.pipe json_loads py_repr clock valves em endpoint (VDict d) last)
       = VDict (assign "messages"
                  (VList [assistant_message
                            (VStr ("Error: No messages found in the request "
                                   ++ "body to process."))])
                  d))
    /\ (forall valves em endpoint,
          Flowise.final_body
            (Flowise.pipe json_loads py_repr valves em endpoint (VDict d))
          = VDict d).
Proof.
  intros json_loads py_repr d L. split.
  - intros clock valves em endpoint last Hem.
    apply (N8nFacts.n8n_pipe_no_messages json_loads py_repr clock valves em endpoint
             Hem (VDict d) last d eq_refl L).
  - intros valves em endpoint.
    apply FlowiseFacts.pipe_no_question.
    unfold FlowiseFacts.question_of, dict_get_default.
    destruct L as [-> | ->]; reflexivity.
Qed.

Lemma rejection_is_recorded_by_n8n_only_witness :
  N8n.final_body
    (N8n.pipe Json.loads Json.repr Examples.clock_tenths N8n.default_valves
       (Some Examples.emitter_ok) Examples.unreachable (VDict []) 0%Q)
  = VDict [("messages",
            VList [assistant_message
                     (VStr "Error: No messages found in the request body to process.")])].
Proof.
  destruct (rejection_is_recorded_by_n8n_only Json.loads Json.repr []
              (or_introl eq_refl)) as (H & _).
  apply (H Examples.clock_tenths N8n.default_valves (Some Examples.emitter_ok)
           Examples.unreachable 0%Q).
  intros tr message. reflexivity.
Defined.

End Coverage.
